(** * PCV: the analysis-and-graph-maintenance core of [app.py]

    A shallow embedding of [parse_python_file], [analyze_directory],
    [CodeFileHandler.reanalyze_file], [get_directory_data_snapshot] and
    [set_directory_data], followed by the properties of the specification
    that concern them.

    Conventions of the embedding.
    - Python [str] values are [string]s; truthiness of a [str] is
      non-emptiness.
    - The file system is a tree of [entry] values.  A regular file carries
      what [open]/[read]/[ast.parse] do on it ([file_state]); the syntax tree
      that [ast.parse] returns is part of that state.
    - A syntax tree is a [node]; the text that
      [ast.get_source_segment(content, node)] extracts for a node is stored
      in the node ([segment]).
    - Python dicts that are iterated are association lists in insertion
      order ([dict_set] keeps the position of an existing key).
    - [log_to_console] and [socketio.emit('file_changed', ...)] are recorded
      in an output trace. *)

From Stdlib Require Import List String Ascii Bool Arith Lia Permutation.
From Stdlib Require Import DecimalString.
Import ListNotations.
Open Scope string_scope.
Open Scope list_scope.
Open Scope nat_scope.
Set Warnings "-register-all".

(* ================================================================== *)
(** * Python built-ins used by the code *)
(* ================================================================== *)

Module Py.

(** [bool(s)] for a [str]. *)
Definition truthy (s : string) : bool := negb (s =? "")%string.

(** [str(n)] for a non-negative [int]. *)
Definition str (n : nat) : string := NilEmpty.string_of_uint (Nat.to_uint n).

(** [c.isspace()] on the ASCII range: TAB, LF, VT, FF, CR, FS, GS, RS, US
    and SPACE. *)
Definition isspace (c : ascii) : bool :=
  let n := nat_of_ascii c in
  ((9 <=? n) && (n <=? 13)) || ((28 <=? n) && (n <=? 32)).

(** [s.lstrip()] and [s.rstrip()]. *)
Fixpoint lstrip (s : string) : string :=
  match s with
  | EmptyString => EmptyString
  | String c s' => if isspace c then lstrip s' else s
  end.

Fixpoint rstrip (s : string) : string :=
  match s with
  | EmptyString => EmptyString
  | String c s' =>
      match rstrip s' with
      | EmptyString => if isspace c then EmptyString else String c EmptyString
      | r => String c r
      end
  end.

(** [s.strip()]. *)
Definition strip (s : string) : string := rstrip (lstrip s).

(** [s.endswith(suffix)]. *)
Definition endswith (s suffix : string) : bool :=
  let n := String.length s in
  let m := String.length suffix in
  (m <=? n) && (substring (n - m) m s =? suffix)%string.

(** [s.startswith(prefix)]. *)
Definition startswith (s pre : string) : bool := String.prefix pre s.

(** [s.replace('\\', '/')]: every backslash becomes a slash. *)
Fixpoint replace_backslash (s : string) : string :=
  match s with
  | EmptyString => EmptyString
  | String c s' =>
      String (if Ascii.eqb c "\"%char then "/"%char else c)
             (replace_backslash s')
  end.

(** ['/' in s]. *)
Fixpoint has_slash (s : string) : bool :=
  match s with
  | EmptyString => false
  | String c s' => Ascii.eqb c "/"%char || has_slash s'
  end.

(** [os.path.basename(p)] (posixpath): what follows the last slash. *)
Fixpoint basename (p : string) : string :=
  match p with
  | EmptyString => EmptyString
  | String _ p' => if has_slash p then basename p' else p
  end.

(** [os.path.join(a, b)] (posixpath, two arguments). *)
Definition join (a b : string) : string :=
  if startswith b "/" then b
  else if (a =? "")%string || endswith a "/" then (a ++ b)%string
  else (a ++ "/" ++ b)%string.

(** [os.path.relpath(path, start)] for a [path] that [os.walk(start)]
    produced: [start], a separating slash unless [start] already ends
    with one, and then the relative name, which is what is returned. *)
Definition relpath (path start : string) : string :=
  let start' := if endswith start "/" then start else (start ++ "/")%string in
  if startswith path start'
  then substring (String.length start')
                 (String.length path - String.length start') path
  else path.

(** [x in l] for a list of strings. *)
Definition mem (x : string) (l : list string) : bool :=
  existsb (String.eqb x) l.

(** A dict as an association list in insertion order. [d[k] = v]. *)
Fixpoint dict_set {K V : Type} (eqb : K -> K -> bool)
         (d : list (K * V)) (k : K) (v : V) : list (K * V) :=
  match d with
  | [] => [(k, v)]
  | (k', v') :: d' =>
      if eqb k' k then (k', v) :: d' else (k', v') :: dict_set eqb d' k v
  end.

(** [d.get(k)]. *)
Fixpoint dict_get {K V : Type} (eqb : K -> K -> bool)
         (d : list (K * V)) (k : K) : option V :=
  match d with
  | [] => None
  | (k', v') :: d' => if eqb k' k then Some v' else dict_get eqb d' k
  end.

(** [k in d]. *)
Definition dict_mem {K V : Type} (eqb : K -> K -> bool)
           (d : list (K * V)) (k : K) : bool :=
  match dict_get eqb d k with Some _ => true | None => false end.

(** [enumerate(l)]. *)
Definition enumerate {A : Type} (l : list A) : list (nat * A) :=
  combine (seq 0 (List.length l)) l.

End Py.

(* ================================================================== *)
(** * Syntax trees ([ast]) *)
(* ================================================================== *)

Module Ast.

(** The node classes the code distinguishes; every other class is
    [Other].  [children] lists what [ast.iter_child_nodes] yields, in
    that order. *)
Inductive node : Type :=
| Module (body : list node)
| FunctionDef (name : string) (lineno : nat) (segment : string)
              (children : list node)
| ClassDef (name : string) (segment : string) (children : list node)
| Return (value : option node) (segment : string)
| Call (func : node) (lineno : nat) (arguments : list node)
| Name (id : string) (ctx : node)
| Attribute (value : node) (attr : string) (ctx : node)
| Other (children : list node).

(** [ast.iter_child_nodes(n)]. *)
Definition iter_child_nodes (n : node) : list node :=
  match n with
  | Module body => body
  | FunctionDef _ _ _ cs => cs
  | ClassDef _ _ cs => cs
  | Return (Some v) _ => [v]
  | Return None _ => []
  | Call f _ args => f :: args
  | Name _ ctx => [ctx]
  | Attribute v _ ctx => [v; ctx]
  | Other cs => cs
  end.

(** Number of nodes of a tree. *)
Fixpoint size (n : node) : nat :=
  match n with
  | Module body => S (list_sum (map size body))
  | FunctionDef _ _ _ cs => S (list_sum (map size cs))
  | ClassDef _ _ cs => S (list_sum (map size cs))
  | Return (Some v) _ => S (size v)
  | Return None _ => 1
  | Call f _ args => S (size f + list_sum (map size args))
  | Name _ ctx => S (size ctx)
  | Attribute v _ ctx => S (size v + size ctx)
  | Other cs => S (list_sum (map size cs))
  end.

(** The loop of [ast.walk]: [todo.popleft()], [todo.extend(children)],
    yield.  [fuel] bounds the number of iterations. *)
Fixpoint walk_queue (fuel : nat) (todo : list node) : list node :=
  match fuel, todo with
  | S fuel', n :: rest => n :: walk_queue fuel' (rest ++ iter_child_nodes n)
  | _, _ => []
  end.

(** [ast.walk(n)]: breadth first; [size n] iterations empty the queue
    (lemma [walk_queue_fuel]). *)
Definition walk (n : node) : list node := walk_queue (size n) [n].

(** The nodes of a tree in depth-first pre-order, which for statements is
    their order in the source text. *)
Fixpoint preorder (n : node) : list node :=
  n :: match n with
       | Module body => flat_map preorder body
       | FunctionDef _ _ _ cs => flat_map preorder cs
       | ClassDef _ _ cs => flat_map preorder cs
       | Return (Some v) _ => preorder v
       | Return None _ => []
       | Call f _ args => preorder f ++ flat_map preorder args
       | Name _ ctx => preorder ctx
       | Attribute v _ ctx => preorder v ++ preorder ctx
       | Other cs => flat_map preorder cs
       end.

(** [ast.get_source_segment(content, n)]. *)
Definition get_source_segment (n : node) : string :=
  match n with
  | FunctionDef _ _ seg _ => seg
  | ClassDef _ seg _ => seg
  | Return _ seg => seg
  | _ => ""
  end.

(** [ast.Load()], the context of a name that is read; and a node of a
    class that the code does not inspect, without children. *)
Definition Load : node := Other [].
Definition Leaf : node := Other [].

(** [isinstance(n, ast.Return)], [isinstance(n, ast.FunctionDef)] and
    [isinstance(n, ast.ClassDef)]. *)
Definition is_return (n : node) : bool :=
  match n with Return _ _ => true | _ => false end.

Definition is_function_def (n : node) : bool :=
  match n with FunctionDef _ _ _ _ => true | _ => false end.

Definition is_class_def (n : node) : bool :=
  match n with ClassDef _ _ _ => true | _ => false end.

End Ast.

(* ================================================================== *)
(** * The file system *)
(* ================================================================== *)

(** An exception that leaves [parse_python_file]: the [OSError] of [open],
    or what [ast.parse] raises besides [SyntaxError], namely [ValueError]
    (a NUL byte in the source, up to Python 3.11), [RecursionError] and
    [MemoryError] (nesting too deep for the parser).  Each is an
    [Exception], so [except Exception] catches it, and none is in
    [(UnicodeDecodeError, TypeError, SyntaxError)]. *)
Inductive exn : Type :=
| OSError (strerror : string)
| ValueError (msg : string)
| RecursionError (msg : string)
| MemoryError (msg : string).

(** [str(e)]. *)
Definition str_exn (e : exn) : string :=
  match e with
  | OSError msg => msg
  | ValueError msg => msg
  | RecursionError msg => msg
  | MemoryError msg => msg
  end.

(** What [ast.parse] raises when it raises something else than
    [SyntaxError]. *)
Inductive parse_exn : Type :=
| NulByte (msg : string)
| TooDeep (msg : string)
| OutOfMemory (msg : string).

(** The exception as Python names it. *)
Definition exn_of_parse (e : parse_exn) : exn :=
  match e with
  | NulByte msg => ValueError msg
  | TooDeep msg => RecursionError msg
  | OutOfMemory msg => MemoryError msg
  end.

(** What reading and parsing a regular file does.
    - [OpenFails]: [open] or [read] raises [OSError] (dangling link, no
      permission, I/O error).
    - [NotUtf8]: [file.read()] raises [UnicodeDecodeError].
    - [BadSyntax]: [ast.parse(content)] raises [SyntaxError].
    - [ParseRaises]: [ast.parse(content)] raises [ValueError],
      [RecursionError] or [MemoryError].
    - [Parsed]: both succeed; [tree] is the [ast.Module] returned. *)
Inductive file_state : Type :=
| OpenFails (strerror : string)
| NotUtf8 (msg : string)
| BadSyntax (content : string) (msg : string)
| ParseRaises (content : string) (e : parse_exn)
| Parsed (content : string) (tree : Ast.node).

(** A path together with what the file system holds there. *)
Record file : Type := mkFile { path : string; state : file_state }.

(** A directory entry.  [Dir] lists the entries of a directory in the
    order in which [os.scandir] returns them; [NoAccess] is a path on which
    [os.scandir] raises [OSError] (missing, unreadable, not a directory). *)
Inductive entry : Type :=
| File (st : file_state)
| Dir (listing : list (string * entry))
| NoAccess.

(** The empty file: [read] returns [''] and [ast.parse('')] is the empty
    module. *)
Definition empty_file_state : file_state := Parsed "" (Ast.Module []).

(* ================================================================== *)
(** * Records of the graph *)
(* ================================================================== *)

(** The dict that [parse_python_file] builds for a function, and that
    [analyze_directory] completes with ['called_by'].  A dict without the
    key ['called_by'] is a record whose [called_by] is empty: the key is
    read with [.get('called_by', [])] wherever it may be absent. *)
Module Func.
Record t : Type := mk {
  name : string;
  code : string;
  returns : list string;
  file : string;
  called_by : list string
}.
End Func.

(** The dict that [parse_python_file] builds for a class. *)
Module Class.
Record t : Type := mk {
  name : string;
  code : string;
  file : string
}.
End Class.

(** The values of the key ['type']: ["file"], ["function"], ["class"]. *)
Inductive node_type : Type := type_file | type_function | type_class.

(** A node of the graph.  The keys ['file'], ['returns'] and ['called_by']
    exist on some node types only; [None] is an absent key. *)
Module GNode.
Record t : Type := mk {
  id : string;
  name : string;
  type : node_type;
  code : string;
  returns : option (list string);
  called_by : option (list string);
  file : option string;
  file_path : string
}.
End GNode.

(** An edge [{"source": ..., "target": ...}] from a file to a member. *)
Module Edge.
Record t : Type := mk { source : string; target : string }.
End Edge.

(** The value of the global [directory_data]: a dict in which the keys
    ['nodes'] and ['edges'] may be absent. *)
Module Store.
Record t : Type := mk {
  nodes : option (list GNode.t);
  edges : option (list Edge.t)
}.
End Store.

(** [{"nodes": nodes, "edges": edges}]. *)
Definition graph (nodes : list GNode.t) (edges : list Edge.t) : Store.t :=
  Store.mk (Some nodes) (Some edges).

(** [snapshot.get('nodes', [])], the way the readers of a snapshot take
    its sequences. *)
Definition get_nodes (d : Store.t) : list GNode.t :=
  match Store.nodes d with Some l => l | None => [] end.

(** [snapshot.get('edges', [])]. *)
Definition get_edges (d : Store.t) : list Edge.t :=
  match Store.edges d with Some l => l | None => [] end.

(** The levels that the code passes to [log_to_console]. *)
Inductive level : Type := INFO | WARNING | ERROR | SUCCESS.

(** What a call sends out: [log_to_console(message, level)] or
    [socketio.emit('file_changed', {filename, type: 'modified', data})]. *)
Inductive output : Type :=
| Console (lvl : level) (message : string)
| FileChanged (filename : string) (data : Store.t).

(* ================================================================== *)
(** * [parse_python_file] *)
(* ================================================================== *)

(** The inner loop over [ast.walk(node)] that fills [returns]. *)
Definition collect_returns (fn : Ast.node) : list string :=
  fold_left
    (fun returns child =>
       match child with
       | Ast.Return (Some _) _ =>
           let return_code := Ast.get_source_segment child in
           if Py.truthy return_code
           then returns ++ [Py.strip return_code]
           else returns
       | Ast.Return None _ => returns ++ ["None"]
       | _ => returns
       end)
    (Ast.walk fn) [].

(** The first loop over [ast.walk(tree)]. *)
Definition collect_functions (file_path : string) (tree : Ast.node)
  : list Func.t :=
  fold_left
    (fun functions node =>
       match node with
       | Ast.FunctionDef name _ _ _ =>
           functions ++
           [Func.mk name (Ast.get_source_segment node) (collect_returns node)
                    (Py.basename file_path) []]
       | _ => functions
       end)
    (Ast.walk tree) [].

(** The second loop over [ast.walk(tree)]. *)
Definition collect_classes (file_path : string) (tree : Ast.node)
  : list Class.t :=
  fold_left
    (fun classes node =>
       match node with
       | Ast.ClassDef name _ _ =>
           classes ++
           [Class.mk name (Ast.get_source_segment node)
                     (Py.basename file_path)]
       | _ => classes
       end)
    (Ast.walk tree) [].

(** [parse_python_file(file_path)]: [inl e] when exception [e] leaves the
    function, [inr (functions, classes, content)] when it returns.  The
    [except] clause catches [UnicodeDecodeError], [TypeError] and
    [SyntaxError] only. *)
Definition parse_python_file (f : file)
  : exn + (list Func.t * list Class.t * string) :=
  match state f with
  | OpenFails msg => inl (OSError msg)
  | NotUtf8 _ => inr ([], [], "")
  | BadSyntax _ _ => inr ([], [], "")
  | ParseRaises _ e => inl (exn_of_parse e)
  | Parsed content tree =>
      inr (collect_functions (path f) tree,
           collect_classes (path f) tree,
           content)
  end.

(* ================================================================== *)
(** * [analyze_directory] *)
(* ================================================================== *)

(** The directory names that the walk does not descend into. *)
Definition skip_dirs : list string :=
  [".git"; ".venv"; "venv"; "__pycache__"; ".mypy_cache"; ".pytest_cache";
   "node_modules"].

(** The files of one directory listing that the loop body appends:
    [for fn in filenames: if fn.endswith('.py'): files.append(join(root, fn))]. *)
Definition py_files_here (root : string) (listing : list (string * entry))
  : list file :=
  flat_map
    (fun ne : string * entry =>
       match ne with
       | (fn, File st) =>
           if Py.endswith fn ".py" then [mkFile (Py.join root fn) st] else []
       | _ => []
       end)
    listing.

(** [for root, dirnames, filenames in os.walk(directory)] with its body:
    top-down, the files of a directory before its sub-directories, the
    sub-directories named in [skip_dirs] pruned before descending;
    [os.walk] ignores the errors of [os.scandir]. *)
Fixpoint list_python_files (root : string) (e : entry) : list file :=
  match e with
  | Dir listing =>
      py_files_here root listing ++
      flat_map
        (fun ne : string * entry =>
           match ne with
           | (_, File _) => []
           | (d, sub) =>
               if Py.mem d skip_dirs then []
               else list_python_files (Py.join root d) sub
           end)
        listing
  | _ => []
  end.

(** [os.path.relpath(file_path, directory).replace('\\', '/')]. *)
Definition rel_name_of (directory : string) (f : file) : string :=
  Py.replace_backslash (Py.relpath (path f) directory).

(** The dict [all_functions]: function id to record. *)
Definition all_functions_t : Type := list (string * Func.t).

(** [f"{rel_name}::{name}"]. *)
Definition make_id (rel_name name : string) : string :=
  (rel_name ++ "::" ++ name)%string.

(** Body of the first pass for one file: what it does to [all_functions]. *)
Definition first_pass_file (directory : string)
           (all_functions : all_functions_t) (f : file) : all_functions_t :=
  let rel_name := rel_name_of directory f in
  match parse_python_file f with
  | inl _ => all_functions
  | inr (functions, _, content) =>
      if negb (Py.truthy content) then all_functions
      else
        fold_left
          (fun all_functions func =>
             let func_id := make_id rel_name (Func.name func) in
             Py.dict_set String.eqb all_functions func_id
               (Func.mk (Func.name func) (Func.code func) (Func.returns func)
                        rel_name []))
          functions all_functions
  end.

(** Body of the first pass for file number [i] of [n]: what it logs. *)
Definition first_pass_log (directory : string) (n : nat)
           (ifile : nat * file) : list output :=
  let (i, f) := ifile in
  let rel_name := rel_name_of directory f in
  Console INFO ("Parsing file " ++ Py.str (i + 1) ++ "/" ++ Py.str n ++ ": "
                ++ rel_name)%string ::
  match parse_python_file f with
  | inl e => [Console ERROR ("Error parsing " ++ rel_name ++ ": "
                             ++ str_exn e)%string]
  | inr (_, _, content) =>
      if negb (Py.truthy content)
      then [Console WARNING ("Skipping " ++ rel_name
                             ++ " - could not parse")%string]
      else []
  end.

(** [func_line_map]: start line to name, over [ast.walk(tree)]. *)
Definition build_func_line_map (tree : Ast.node) : list (nat * string) :=
  fold_left
    (fun func_line_map node =>
       match node with
       | Ast.FunctionDef name lineno _ _ =>
           Py.dict_set Nat.eqb func_line_map lineno name
       | _ => func_line_map
       end)
    (Ast.walk tree) [].

(** The search for the function that contains a call: the loop over
    [func_line_map.items()] with [current_func] and [best_match_line]. *)
Definition find_current_func (func_line_map : list (nat * string))
           (call_line : nat) : option string :=
  fst (fold_left
         (fun (acc : option string * nat) (item : nat * string) =>
            let (current_func, best_match_line) := acc in
            let (func_line, func_name_def) := item in
            if (func_line <=? call_line) && (best_match_line <? func_line)
            then (Some func_name_def, func_line)
            else (current_func, best_match_line))
         func_line_map (None, 0)).

(** [node.func.id] if the callee has an [id], else [node.func.attr] if it
    has an [attr], else [None]. *)
Definition call_name (func : Ast.node) : option string :=
  match func with
  | Ast.Name id _ => Some id
  | Ast.Attribute _ attr _ => Some attr
  | _ => None
  end.

(** What one call does to one item [(func_id, func_data)] of
    [all_functions]: the body of [for func_id, func_data in
    all_functions.items()].  [all_functions[func_id]] is [func_data]
    itself, so the append changes the item in place. *)
Definition link_call (all_functions : all_functions_t) (rel_name : string)
           (func_line_map : list (nat * string))
           (func_name : string) (call_line : nat)
           (item : string * Func.t) : string * Func.t :=
  let (func_id, func_data) := item in
  if (Func.name func_data =? func_name)%string then
    match find_current_func func_line_map call_line with
    | Some current_func =>
        if Py.truthy current_func then
          let caller_id := make_id rel_name current_func in
          if Py.dict_mem String.eqb all_functions caller_id then
            if negb (Py.mem caller_id (Func.called_by func_data)) then
              (func_id,
               Func.mk (Func.name func_data) (Func.code func_data)
                       (Func.returns func_data) (Func.file func_data)
                       (Func.called_by func_data ++ [caller_id]))
            else item
          else item
        else item
    | None => item
    end
  else item.

(** What one node of [ast.walk(tree)] does in the second pass. *)
Definition second_pass_node (rel_name : string)
           (func_line_map : list (nat * string))
           (all_functions : all_functions_t) (node : Ast.node)
  : all_functions_t :=
  match node with
  | Ast.Call func call_line _ =>
      match call_name func with
      | Some func_name =>
          if Py.truthy func_name then
            map (link_call all_functions rel_name func_line_map
                           func_name call_line)
                all_functions
          else all_functions
      | None => all_functions
      end
  | _ => all_functions
  end.

(** Body of the second pass for one file.  The file is opened, read and
    parsed again; any exception is caught and the file skipped. *)
Definition second_pass_file (directory : string)
           (all_functions : all_functions_t) (f : file) : all_functions_t :=
  let rel_name := rel_name_of directory f in
  match state f with
  | Parsed _ tree =>
      let func_line_map := build_func_line_map tree in
      fold_left (second_pass_node rel_name func_line_map)
                (Ast.walk tree) all_functions
  | _ => all_functions
  end.

(** The message of the exception that the second pass catches. *)
Definition second_pass_error (f : file) : option string :=
  match state f with
  | OpenFails msg => Some msg
  | NotUtf8 msg => Some msg
  | BadSyntax _ msg => Some msg
  | ParseRaises _ e => Some (str_exn (exn_of_parse e))
  | Parsed _ _ => None
  end.

(** Body of the second pass for file number [i] of [n]: what it logs. *)
Definition second_pass_log (directory : string) (n : nat)
           (ifile : nat * file) : list output :=
  let (i, f) := ifile in
  let rel_name := rel_name_of directory f in
  Console INFO ("Analyzing calls in file " ++ Py.str (i + 1) ++ "/"
                ++ Py.str n ++ ": " ++ rel_name)%string ::
  match second_pass_error f with
  | Some msg => [Console WARNING ("Error analyzing calls in " ++ rel_name
                                  ++ ": " ++ msg)%string]
  | None => []
  end.

(** The node that the third pass appends for a function.  [returns] and
    [called_by] are read from the record of [all_functions] under the same
    id ([all_functions.get(func_id, func)]). *)
Definition function_node (rel_name file_path : string)
           (all_functions : all_functions_t) (func : Func.t) : GNode.t :=
  let func_id := make_id rel_name (Func.name func) in
  let func_data :=
    match Py.dict_get String.eqb all_functions func_id with
    | Some d => d
    | None => func
    end in
  GNode.mk func_id (Func.name func) type_function (Func.code func)
           (Some (Func.returns func_data)) (Some (Func.called_by func_data))
           (Some rel_name) file_path.

(** The node that is appended for a class. *)
Definition class_node (rel_name file_path : string) (cls : Class.t)
  : GNode.t :=
  GNode.mk (make_id rel_name (Class.name cls)) (Class.name cls) type_class
           (Class.code cls) None None (Some rel_name) file_path.

(** The node that is appended for a file; its name is its id. *)
Definition file_node (file_id content file_path : string) : GNode.t :=
  GNode.mk file_id file_id type_file content None None None file_path.

(** The two lists [nodes] and [edges] under construction. *)
Definition graph_lists : Type := (list GNode.t * list Edge.t)%type.

(** [for func in functions: nodes.append(...); edges.append(...)]. *)
Definition add_function_nodes (rel_name file_path : string)
           (all_functions : all_functions_t) (functions : list Func.t)
           (g : graph_lists) : graph_lists :=
  fold_left
    (fun (g : graph_lists) func =>
       let (nodes, edges) := g in
       (nodes ++ [function_node rel_name file_path all_functions func],
        edges ++ [Edge.mk rel_name (make_id rel_name (Func.name func))]))
    functions g.

(** [for cls in classes: nodes.append(...); edges.append(...)]. *)
Definition add_class_nodes (rel_name file_path : string)
           (classes : list Class.t) (g : graph_lists) : graph_lists :=
  fold_left
    (fun (g : graph_lists) cls =>
       let (nodes, edges) := g in
       (nodes ++ [class_node rel_name file_path cls],
        edges ++ [Edge.mk rel_name (make_id rel_name (Class.name cls))]))
    classes g.

(** Body of the third pass for one file.  [parse_python_file] is called
    outside any [try]: an exception that leaves it leaves
    [analyze_directory]. *)
Definition third_pass_file (directory : string)
           (all_functions : all_functions_t) (g : graph_lists) (f : file)
  : exn + graph_lists :=
  let rel_name := rel_name_of directory f in
  match parse_python_file f with
  | inl e => inl e
  | inr (functions, classes, content) =>
      if negb (Py.truthy content) then inr g
      else
        let (nodes, edges) := g in
        let g1 := (nodes ++ [file_node rel_name content (path f)], edges) in
        let g2 := add_function_nodes rel_name (path f) all_functions
                                     functions g1 in
        inr (add_class_nodes rel_name (path f) classes g2)
  end.

(** The three loops over [files]. *)
Definition first_pass (directory : string) (files : list file)
  : all_functions_t :=
  fold_left (first_pass_file directory) files [].

Definition second_pass (directory : string) (files : list file)
           (all_functions : all_functions_t) : all_functions_t :=
  fold_left (second_pass_file directory) files all_functions.

Definition third_pass (directory : string) (files : list file)
           (all_functions : all_functions_t) : exn + graph_lists :=
  fold_left
    (fun (acc : exn + graph_lists) f =>
       match acc with
       | inl e => inl e
       | inr g => third_pass_file directory all_functions g f
       end)
    files (inr ([], [])).

(** What the third pass logs: one line per file up to and including the
    first file on which [parse_python_file] raises. *)
Fixpoint third_pass_log (directory : string) (n : nat)
         (ifiles : list (nat * file)) : list output :=
  match ifiles with
  | [] => []
  | (i, f) :: rest =>
      Console INFO ("Building nodes for file " ++ Py.str (i + 1) ++ "/"
                    ++ Py.str n ++ ": " ++ rel_name_of directory f)%string ::
      match parse_python_file f with
      | inl _ => []
      | inr _ => third_pass_log directory n rest
      end
  end.

(** The file-count ceiling: [if len(files) > 50: files = files[:50]]. *)
Definition cap_files (files : list file) : list file :=
  if 50 <? List.length files then firstn 50 files else files.

(** The warning that goes with the truncation. *)
Definition cap_log (files : list file) : list output :=
  if 50 <? List.length files
  then [Console WARNING ("Too many files (" ++ Py.str (List.length files)
          ++ "). Limiting to first 50 for performance.")%string]
  else [].

(** The three passes on the discovered files: the graph, or the exception
    that leaves [analyze_directory]. *)
Definition build_graph (directory : string) (files : list file)
  : exn + Store.t :=
  let all_functions :=
    second_pass directory files (first_pass directory files) in
  match third_pass directory files all_functions with
  | inl e => inl e
  | inr (nodes, edges) => inr (graph nodes edges)
  end.

(** [analyze_directory(directory)], where [tree] is what the file system
    holds at [directory].  The result is the returned graph or the
    exception raised, together with what was logged.  The [try] around the
    listing guards [os.walk], which does not raise on a [str] path (it
    ignores the errors of [os.scandir]), so its [except] branch has no
    counterpart here. *)
Definition analyze_directory (directory : string) (tree : entry)
  : (exn + Store.t) * list output :=
  let found := list_python_files directory tree in
  let files := cap_files found in
  let n := List.length files in
  let ifiles := Py.enumerate files in
  (build_graph directory files,
   [Console INFO ("Starting analysis of directory: " ++ directory)%string;
    Console INFO ("Found " ++ Py.str (List.length found)
                  ++ " Python files to analyze (recursive)")%string]
   ++ cap_log found
   ++ flat_map (first_pass_log directory n) ifiles
   ++ [Console INFO ("Analyzing function calls in " ++ Py.str n
                     ++ " files...")%string]
   ++ flat_map (second_pass_log directory n) ifiles
   ++ [Console INFO "Building graph nodes and edges..."]
   ++ third_pass_log directory n ifiles).

(* ================================================================== *)
(** * The graph store and the watcher *)
(* ================================================================== *)

(** [directory_data = {}] at process start. *)
Definition initial_directory_data : Store.t := Store.mk None None.

(** [get_directory_data_snapshot()]: [json.loads(json.dumps(d))] is a copy
    equal to [d] for a dict of lists, dicts and strings, so the [except]
    branch is not taken. *)
Definition get_directory_data_snapshot (directory_data : Store.t) : Store.t :=
  directory_data.

(** [set_directory_data(new_data)]: the new value of [directory_data]. *)
Definition set_directory_data (new_data : Store.t) : Store.t := new_data.

(** [n.get('file') == filename or n['id'] == filename]. *)
Definition stale_node (filename : string) (n : GNode.t) : bool :=
  match GNode.file n with
  | Some f => (f =? filename)%string
  | None => false
  end || (GNode.id n =? filename)%string.

(** [CodeFileHandler.reanalyze_file(file_path)] on the current value of
    [directory_data]: its new value and what was logged and emitted.  Every
    exception is caught inside, so the call always returns. *)
Definition reanalyze_file (f : file) (directory_data : Store.t)
  : Store.t * list output :=
  let file_path := path f in
  let filename := Py.basename file_path in
  let started := Console INFO ("Re-analyzing " ++ filename ++ "...")%string in
  match parse_python_file f with
  | inl e =>
      (directory_data,
       [started;
        Console ERROR ("Error re-analyzing " ++ filename ++ ": "
                       ++ str_exn e)%string])
  | inr (functions, classes, content) =>
      if negb (Py.truthy content) then (directory_data, [started])
      else
        let (nodes0, edges0) :=
          match Store.nodes directory_data, Store.edges directory_data with
          | Some nodes, Some edges => (nodes, edges)
          | _, _ => ([], [])
          end in
        let nodes1 := filter (fun n => negb (stale_node filename n)) nodes0 in
        let edges1 :=
          filter (fun e => negb (Edge.source e =? filename)%string) edges0 in
        let g1 := (nodes1 ++ [file_node filename content file_path], edges1) in
        let g2 :=
          fold_left
            (fun (g : graph_lists) func =>
               let (nodes, edges) := g in
               let func_id := make_id filename (Func.name func) in
               (nodes ++
                [GNode.mk func_id (Func.name func) type_function
                          (Func.code func) (Some (Func.returns func))
                          (Some []) (Some filename) file_path],
                edges ++ [Edge.mk filename func_id]))
            functions g1 in
        let (nodes3, edges3) := add_class_nodes filename file_path classes g2 in
        let data := graph nodes3 edges3 in
        (data,
         [started;
          Console SUCCESS ("Successfully updated " ++ filename)%string;
          FileChanged filename data])
  end.

(** [CodeFileHandler.on_modified(event)]; the thread that it starts for
    [reanalyze_file] is run to completion. *)
Definition on_modified (is_directory : bool) (f : file)
           (directory_data : Store.t) : Store.t * list output :=
  if is_directory then (directory_data, [])
  else if Py.endswith (path f) ".py" then
    let (data, out) := reanalyze_file f directory_data in
    (data,
     Console INFO ("File modified: " ++ Py.basename (path f))%string :: out)
  else (directory_data, []).

(* ================================================================== *)
(** * Definitions used to state the properties *)
(* ================================================================== *)

(** The entry that a return statement contributes to [returns]. *)
Definition return_text (child : Ast.node) : string :=
  match child with
  | Ast.Return None _ => "None"
  | _ => Py.strip (Ast.get_source_segment child)
  end.

(** Every return statement with a value has a source segment, which is the
    case for the trees of [ast.parse]. *)
Definition located (child : Ast.node) : bool :=
  match child with
  | Ast.Return (Some _) seg => Py.truthy seg
  | _ => true
  end.

(** The record of a function definition. *)
Definition func_of_def (file_path : string) (node : Ast.node) : Func.t :=
  match node with
  | Ast.FunctionDef name _ _ _ =>
      Func.mk name (Ast.get_source_segment node) (collect_returns node)
              (Py.basename file_path) []
  | _ => Func.mk "" "" [] "" []
  end.

(** The returns sequence as the specification words it: one entry per
    return statement in source order, the statement's source text, and
    the placeholder ["<none>"] for a bare return. *)
Definition spec_returns (fn : Ast.node) : list string :=
  map (fun child =>
         match child with
         | Ast.Return None _ => "<none>"
         | _ => Ast.get_source_segment child
         end)
      (filter Ast.is_return (Ast.preorder fn)).

(** [def f(x):]
    [    if x:]
    [        return 1]
    [    return] *)
Definition two_returns_def : Ast.node :=
  Ast.FunctionDef "f" 1
    "def f(x):
    if x:
        return 1
    return"
    [Ast.Other [Ast.Leaf];
     Ast.Other [Ast.Name "x" Ast.Load;
                Ast.Return (Some Ast.Leaf) "return 1"];
     Ast.Return None "return"].

(** The file that holds it. *)
Definition two_returns_file : file :=
  mkFile "/proj/a.py"
         (Parsed "def f(x):
    if x:
        return 1
    return
" (Ast.Module [two_returns_def])).

(** [def helper(): return 42] *)
Definition util_tree : Ast.node :=
  Ast.Module
    [Ast.FunctionDef "helper" 1 "def helper(): return 42"
       [Ast.Leaf; Ast.Return (Some Ast.Leaf) "return 42"]].

(** [from util import helper]
    [def run(): return helper()] *)
Definition main_tree : Ast.node :=
  Ast.Module
    [Ast.Other [Ast.Leaf];
     Ast.FunctionDef "run" 2 "def run(): return helper()"
       [Ast.Leaf;
        Ast.Return (Some (Ast.Call (Ast.Name "helper" Ast.Load) 2 []))
                   "return helper()"]].

(** The states of the files of the example project. *)
Definition util_state : file_state :=
  Parsed "def helper(): return 42" util_tree.

Definition main_state : file_state :=
  Parsed "from util import helper
def run(): return helper()" main_tree.

Definition bad_syntax_state : file_state :=
  BadSyntax "def (:" "invalid syntax (<unknown>, line 1)".

(** A project with two good files, one that does not parse, and an empty
    one. *)
Definition project_tree : entry :=
  Dir [("util.py", File util_state);
       ("broken.py", File bad_syntax_state);
       ("empty.py", File empty_file_state);
       ("main.py", File main_state)].

(** The graph of the example project. *)
Definition util_file_node : GNode.t :=
  file_node "util.py" "def helper(): return 42" "/proj/util.py".

Definition helper_node : GNode.t :=
  GNode.mk "util.py::helper" "helper" type_function
           "def helper(): return 42" (Some ["return 42"])
           (Some ["main.py::run"]) (Some "util.py") "/proj/util.py".

Definition main_file_node : GNode.t :=
  file_node "main.py" "from util import helper
def run(): return helper()" "/proj/main.py".

Definition run_node : GNode.t :=
  GNode.mk "main.py::run" "run" type_function
           "def run(): return helper()" (Some ["return helper()"])
           (Some []) (Some "main.py") "/proj/main.py".

Definition project_graph : Store.t :=
  graph [util_file_node; helper_node; main_file_node; run_node]
        [Edge.mk "util.py" "util.py::helper"; Edge.mk "main.py" "main.py::run"].

(** [def f(): return 1] *)
Definition def_f : Ast.node :=
  Ast.FunctionDef "f" 1 "def f(): return 1"
    [Ast.Leaf; Ast.Return (Some Ast.Leaf) "return 1"].

(** [def g(): return 2] on line 2. *)
Definition def_g : Ast.node :=
  Ast.FunctionDef "g" 2 "def g(): return 2"
    [Ast.Leaf; Ast.Return (Some Ast.Leaf) "return 2"].

(** A file that defines [f] and [g], and its later version with [f] only. *)
Definition fg_state : file_state :=
  Parsed "def f(): return 1
def g(): return 2" (Ast.Module [def_f; def_g]).

Definition f_state : file_state :=
  Parsed "def f(): return 1" (Ast.Module [def_f]).

(** The file at the root of the project, and in a package below it. *)
Definition root_tree : entry := Dir [("a.py", File fg_state)].

Definition nested_tree : entry :=
  Dir [("pkg", Dir [("b.py", File fg_state)])].

(** A project with a file that cannot be opened. *)
Definition locked_tree : entry :=
  Dir [("x.py", File (OpenFails "[Errno 13] Permission denied: '/proj/x.py'"))].

(** The graph of a build, or the empty graph when the build raised. *)
Definition built (directory : string) (tree : entry) : Store.t :=
  match fst (analyze_directory directory tree) with
  | inr g => set_directory_data g
  | inl _ => set_directory_data (graph [] [])
  end.

(** [n['type'] == 'file']. *)
Definition is_file_node (n : GNode.t) : bool :=
  match GNode.type n with type_file => true | _ => false end.

(** The content that [read] returns for a file. *)
Definition content_of (f : file) : string :=
  match state f with
  | Parsed content _ => content
  | BadSyntax content _ => content
  | ParseRaises content _ => content
  | _ => ""
  end.

(** The file node of an analyzed file. *)
Definition file_node_of (directory : string) (f : file) : GNode.t :=
  file_node (rel_name_of directory f) (content_of f) (path f).




(** The file node of a member node [n]: [fn] is a file node and the id of
    [n] is the id of [fn], then ["::"], then the name of [n]. *)
Definition is_file_node_of (n fn : GNode.t) : bool :=
  is_file_node fn
  && (GNode.id n =? make_id (GNode.id fn) (GNode.name n))%string.

(** [if x not in l: l.append(x)]. *)
Definition add_unique (l : list string) (x : string) : list string :=
  if Py.mem x l then l else l ++ [x].

(** A sequence without its repetitions, in the order of first
    occurrence. *)
Definition first_seen (l : list string) : list string :=
  fold_left add_unique l [].

(** The caller that one node of a file gives to the records named [name]:
    for a call of [name], the id of the function of the file whose start
    line is the greatest that is at most the line of the call, provided
    that id is one of the [known] function ids. *)
Definition caller_at (known : list string) (rel_name : string)
           (func_line_map : list (nat * string)) (node : Ast.node)
           (name : string) : list string :=
  match node with
  | Ast.Call func call_line _ =>
      match call_name func with
      | Some func_name =>
          if Py.truthy func_name && (name =? func_name)%string then
            match find_current_func func_line_map call_line with
            | Some current_func =>
                if Py.truthy current_func
                   && Py.mem (make_id rel_name current_func) known
                then [make_id rel_name current_func]
                else []
            | None => []
            end
          else []
      | None => []
      end
  | _ => []
  end.

(** The callers that the files give to the records named [name], in the
    order in which the second pass discovers them: file by file in walk
    order, call by call in the order of [ast.walk]. *)
Definition discovered_callers (directory : string) (files : list file)
           (known : list string) (name : string) : list string :=
  flat_map
    (fun f =>
       match state f with
       | Parsed _ tree =>
           flat_map
             (fun node =>
                caller_at known (rel_name_of directory f)
                          (build_func_line_map tree) node name)
             (Ast.walk tree)
       | _ => []
       end)
    files.

(** A record with another [called_by]. *)
Definition with_called_by (r : Func.t) (called_by : list string) : Func.t :=
  Func.mk (Func.name r) (Func.code r) (Func.returns r) (Func.file r)
          called_by.

(** Every record receives the callers that [callers] lists for its name,
    each appended unless already present. *)
Definition extend (callers : string -> list string)
           (all_functions : all_functions_t) : all_functions_t :=
  map (fun item : string * Func.t =>
         (fst item,
          with_called_by (snd item)
            (fold_left add_unique (callers (Func.name (snd item)))
                       (Func.called_by (snd item)))))
      all_functions.

(** [import util]
    [def start(): return util.helper()] *)
Definition app_tree : Ast.node :=
  Ast.Module
    [Ast.Other [Ast.Leaf];
     Ast.FunctionDef "start" 2 "def start(): return util.helper()"
       [Ast.Leaf;
        Ast.Return
          (Some (Ast.Call (Ast.Attribute (Ast.Name "util" Ast.Load) "helper"
                                         Ast.Load) 2 []))
          "return util.helper()"]].

Definition app_state : file_state :=
  Parsed "import util
def start(): return util.helper()" app_tree.

(** A project in which [helper] is called by its bare name in [main.py]
    and as an attribute of the module in [app.py]. *)
Definition calls_tree : entry :=
  Dir [("util.py", File util_state);
       ("main.py", File main_state);
       ("app.py", File app_state)].

(** The record of [helper] after the second pass on [calls_tree]. *)
Definition helper_called_twice : Func.t :=
  Func.mk "helper" "def helper(): return 42" ["return 42"] "util.py"
          ["main.py::run"; "app.py::start"].

(** The message of [ast.parse] for a source with a NUL byte. *)
Definition nul_byte_message : string :=
  "source code string cannot contain null bytes".

(** A file that holds [x = 1] followed by a NUL byte, on which [ast.parse]
    raises [ValueError]. *)
Definition nul_byte_state : file_state :=
  ParseRaises ("x = 1" ++ String (ascii_of_nat 0) EmptyString)%string
              (NulByte nul_byte_message).

(** A project with a good file and a file with a NUL byte. *)
Definition nul_byte_tree : entry :=
  Dir [("util.py", File util_state); ("nul.py", File nul_byte_state)].

(** A POSIX directory that holds a file named [a\b.py], with a backslash
    in its name, next to a directory [a] that holds [b.py]. *)
Definition backslash_tree : entry :=
  Dir [("a\b.py", File f_state); ("a", Dir [("b.py", File f_state)])].

(** The record of a class definition. *)
Definition class_of_def (file_path : string) (node : Ast.node) : Class.t :=
  match node with
  | Ast.ClassDef name _ _ =>
      Class.mk name (Ast.get_source_segment node) (Py.basename file_path)
  | _ => Class.mk "" "" ""
  end.

(** The file parses and its content is not empty: the test that the first
    and the third pass apply before they use a file. *)
Definition has_content (f : file) : bool :=
  match parse_python_file f with
  | inr (_, _, content) => Py.truthy content
  | inl _ => false
  end.

(** The file cannot be decoded, or [ast.parse] raises [SyntaxError] on
    it: the failures that [parse_python_file] catches. *)
Definition unparseable (st : file_state) : bool :=
  match st with
  | NotUtf8 _ | BadSyntax _ _ => true
  | _ => false
  end.


(** The nodes that the third pass appends for one file. *)
Definition nodes_of_file (directory : string)
           (all_functions : all_functions_t) (f : file) : list GNode.t :=
  let rel_name := rel_name_of directory f in
  match parse_python_file f with
  | inr (functions, classes, content) =>
      if Py.truthy content then
        file_node rel_name content (path f)
        :: map (function_node rel_name (path f) all_functions) functions
        ++ map (class_node rel_name (path f)) classes
      else []
  | inl _ => []
  end.

(** The edges that the third pass appends for one file. *)
Definition edges_of_file (directory : string) (f : file) : list Edge.t :=
  let rel_name := rel_name_of directory f in
  match parse_python_file f with
  | inr (functions, classes, content) =>
      if Py.truthy content then
        map (fun func => Edge.mk rel_name (make_id rel_name (Func.name func)))
            functions
        ++ map (fun cls => Edge.mk rel_name (make_id rel_name (Class.name cls)))
               classes
      else []
  | inl _ => []
  end.

(** The exception of the first file on which [parse_python_file] raises. *)
Fixpoint first_error (files : list file) : option exn :=
  match files with
  | [] => None
  | f :: rest =>
      match parse_python_file f with
      | inl e => Some e
      | inr _ => first_error rest
      end
  end.

(** A file that leaves the state of each of the three passes as it is. *)
Definition inert (directory : string) (f : file) : Prop :=
  (forall all_functions, first_pass_file directory all_functions f
                         = all_functions)
  /\ (forall all_functions, second_pass_file directory all_functions f
                            = all_functions)
  /\ (forall all_functions g,
         third_pass_file directory all_functions g f = inr g).

(** A zero-byte file: empty content, parsed to the empty module. *)
Definition is_empty_file (st : file_state) : bool :=
  match st with
  | Parsed content (Ast.Module []) => (content =? "")%string
  | _ => false
  end.

(** The function node that [reanalyze_file] appends: [returns] of the
    fresh parse and an empty [called_by]. *)
Definition fresh_function_node (filename file_path : string) (func : Func.t)
  : GNode.t :=
  GNode.mk (make_id filename (Func.name func)) (Func.name func) type_function
           (Func.code func) (Some (Func.returns func)) (Some [])
           (Some filename) file_path.

(* ================================================================== *)
(** * Further definitions *)
(* ================================================================== *)

(** A function or class node. *)
Definition is_member_node (n : GNode.t) : bool := negb (is_file_node n).

(** [class A:] and [class B:], each with a method [run]. *)
Definition run_in_a : Ast.node :=
  Ast.FunctionDef "run" 2 "def run(self): return 1"
    [Ast.Leaf; Ast.Return (Some Ast.Leaf) "return 1"].

Definition run_in_b : Ast.node :=
  Ast.FunctionDef "run" 4 "def run(self): return 2"
    [Ast.Leaf; Ast.Return (Some Ast.Leaf) "return 2"].

Definition twin_state : file_state :=
  Parsed "class A:
    def run(self): return 1
class B:
    def run(self): return 2"
    (Ast.Module
       [Ast.ClassDef "A" "class A:
    def run(self): return 1" [run_in_a];
        Ast.ClassDef "B" "class B:
    def run(self): return 2" [run_in_b]]).





(** The two lists of the store as [reanalyze_file] takes them: those of the
    store when it has both keys, and two empty lists otherwise. *)
Definition loaded_lists (d : Store.t) : graph_lists :=
  match Store.nodes d, Store.edges d with
  | Some nodes, Some edges => (nodes, edges)
  | _, _ => ([], [])
  end.

(** The nodes and the edges that [reanalyze_file] appends for a file. *)
Definition fresh_nodes (f : file) : list GNode.t :=
  let filename := Py.basename (path f) in
  match parse_python_file f with
  | inr (functions, classes, content) =>
      file_node filename content (path f)
      :: map (fresh_function_node filename (path f)) functions
      ++ map (class_node filename (path f)) classes
  | inl _ => []
  end.

Definition fresh_edges (f : file) : list Edge.t :=
  let filename := Py.basename (path f) in
  match parse_python_file f with
  | inr (functions, classes, content) =>
      map (fun func => Edge.mk filename (make_id filename (Func.name func)))
          functions
      ++ map (fun cls => Edge.mk filename (make_id filename (Class.name cls)))
             classes
  | inl _ => []
  end.

(** [e['source'] == filename]. *)
Definition edge_from (filename : string) (e : Edge.t) : bool :=
  (Edge.source e =? filename)%string.

(** [c in s] for a character. *)
Fixpoint contains_char (c : ascii) (s : string) : bool :=
  match s with
  | EmptyString => false
  | String x s' => Ascii.eqb x c || contains_char c s'
  end.

(* ================================================================== *)
(** * [execute_commands] *)
(* ================================================================== *)

(** [sub in s] for two strings. *)
Fixpoint str_contains (sub s : string) : bool :=
  String.prefix sub s
  || match s with
     | EmptyString => false
     | String _ s' => str_contains sub s'
     end.

(** [s[n:]]. *)
Fixpoint str_drop (n : nat) (s : string) : string :=
  match n, s with
  | S n', String _ s' => str_drop n' s'
  | _, _ => s
  end.

(** [s.replace(sub, repl, 1)]: the first occurrence of [sub] replaced. *)
Fixpoint str_replace_first (sub repl s : string) : string :=
  if String.prefix sub s then (repl ++ str_drop (String.length sub) s)%string
  else match s with
       | EmptyString => EmptyString
       | String c s' => String c (str_replace_first sub repl s')
       end.

(** A command dict of [parse_gemini_commands]: ['type'], ['path'], and
    ['content'] (of a [create_file]) or ['find'] and ['replace'] (of a
    [modify_file]); a key that a command does not have is never read and
    is left empty. *)
Module Cmd.
Record t : Type := mk {
  type : string;
  path : string;
  content : string;
  find : string;
  replace : string
}.
End Cmd.

(** The operations of the operating system that [execute_commands] uses,
    on a state [FS] of the file system.  Each may raise; one that writes
    returns the file system that it leaves.
    - [read_text]: [open(p, 'r', encoding='utf-8')] and [read()].
    - [write_text]: [open(p, 'w', encoding='utf-8')] and [write(s)].
    - [create_text]: [os.makedirs(os.path.dirname(p), exist_ok=True)] and
      then [write_text]. *)
Class FileSystem (FS : Type) : Type := {
  read_text : FS -> string -> exn + string;
  write_text : FS -> string -> string -> FS * option exn;
  create_text : FS -> string -> string -> FS * option exn
}.

(** What [execute_commands] has built so far: [results], the file system
    and the log. *)
Definition exec_state (FS : Type) : Type :=
  (list string * FS * list output)%type.

(** The body of the loop of [execute_commands] for one command. *)
Definition execute_command {FS : Type} `{FileSystem FS}
           (base_directory : string) (st : exec_state FS) (cmd : Cmd.t)
  : exec_state FS :=
  let '(results, fs, out) := st in
  let full_path := Py.join base_directory (Cmd.path cmd) in
  let failed (fs' : FS) (e : exn) : exec_state FS :=
    let message :=
      ("Error executing command " ++ Cmd.type cmd ++ " for " ++ Cmd.path cmd
       ++ ": " ++ str_exn e)%string in
    (results ++ [message], fs', out ++ [Console ERROR message]) in
  if (Cmd.type cmd =? "create_file")%string then
    match create_text fs full_path (Cmd.content cmd) with
    | (fs', None) =>
        let message := ("Created file: " ++ Cmd.path cmd)%string in
        (results ++ [message], fs', out ++ [Console SUCCESS message])
    | (fs', Some e) => failed fs' e
    end
  else if (Cmd.type cmd =? "modify_file")%string then
    match read_text fs full_path with
    | inl e => failed fs e
    | inr content =>
        if negb (str_contains (Cmd.find cmd) content) then
          let message :=
            ("Modification failed for " ++ Cmd.path cmd
             ++ ": 'find' string not found.")%string in
          (results ++ [message], fs, out ++ [Console WARNING message])
        else
          let new_content :=
            str_replace_first (Cmd.find cmd) (Cmd.replace cmd) content in
          match write_text fs full_path new_content with
          | (fs', None) =>
              let message := ("Modified file: " ++ Cmd.path cmd)%string in
              (results ++ [message], fs', out ++ [Console SUCCESS message])
          | (fs', Some e) => failed fs' e
          end
    end
  else st.

(** [execute_commands(commands, base_directory)] on the file system [fs]:
    the returned [results], the file system afterwards and the log. *)
Definition execute_commands {FS : Type} `{FileSystem FS}
           (commands : list Cmd.t) (base_directory : string) (fs : FS)
  : exec_state FS :=
  fold_left (execute_command base_directory) commands ([], fs, []).

(** A command of one of the two types that [execute_commands] handles. *)
Definition handled (cmd : Cmd.t) : bool :=
  (Cmd.type cmd =? "create_file")%string
  || (Cmd.type cmd =? "modify_file")%string.

(** A file system that is a dict from paths to texts: a read of a path
    that it does not hold raises, a write always succeeds. *)
Definition text_files : Type := list (string * string).

#[export] Instance text_files_fs : FileSystem text_files := {
  read_text fs p :=
    match Py.dict_get String.eqb fs p with
    | Some s => inr s
    | None => inl (OSError ("[Errno 2] No such file or directory: '" ++ p
                            ++ "'")%string)
    end;
  write_text fs p s := (Py.dict_set String.eqb fs p s, None);
  create_text fs p s := (Py.dict_set String.eqb fs p s, None)
}.

(* ================================================================== *)
(** * The workspace configuration *)
(* ================================================================== *)

(** A JSON value, as [json.load] returns it and [json.dump] writes it. *)
Inductive json : Type :=
| JNull
| JBool (b : bool)
| JNum (n : nat)
| JStr (s : string)
| JArr (items : list json)
| JObj (members : list (string * json)).

(** What [CONFIG_FILE] holds: nothing ([os.path.exists] is false), a text
    on which [open] or [json.load] raises, or a JSON object.  The code
    writes objects only; a file with another JSON value at the top is not
    modelled. *)
Inductive config_file : Type :=
| NoConfig
| BadConfig (msg : string)
| Config (members : list (string * json)).

(** [get_current_workspace()]. *)
Definition get_current_workspace (cf : config_file) : json :=
  match cf with
  | Config config =>
      match Py.dict_get String.eqb config "current_workspace" with
      | Some current => current
      | None => JStr "workspace_1"
      end
  | NoConfig => JStr "workspace_1"
  | BadConfig _ => JStr "workspace_1"
  end.

(** [f'workspace_{i}']. *)
Definition workspace_id_of (i : nat) : string :=
  ("workspace_" ++ Py.str i)%string.

(** The search for the next free id:
    [for i in range(1, 100): if potential_id not in config: ...; break]. *)
Definition find_workspace_id (config : list (string * json))
  : option string :=
  find (fun potential_id => negb (Py.dict_mem String.eqb config potential_id))
       (map workspace_id_of (seq 1 99)).

(** The entry that [save_workspace_config] stores for a workspace. *)
Definition workspace_entry (workspace_id workspace_name directory_path : string)
  : json :=
  JObj [("name", JStr workspace_name);
        ("directory", JStr directory_path);
        ("workspace_folder", JStr (Py.join "workspaces" workspace_id))].

(** [save_workspace_config(workspace_name, directory_path)] on the config
    file [cf].  [structure_ok] is what [create_workspace_structure()]
    returns, [files_ok id] what [create_workspace_files(id, ...)] returns,
    and [write_ok] tells whether the final [open(..., 'w')] and
    [json.dump] go through.  The result is the returned boolean and the
    config file afterwards, [None] when the write raised and left it in a
    state that the code does not determine. *)
Definition save_workspace_config (workspace_name directory_path : string)
           (structure_ok : bool) (files_ok : string -> bool)
           (write_ok : bool) (cf : config_file)
  : bool * option config_file :=
  if negb structure_ok then (false, Some cf)
  else
    match cf with
    | BadConfig _ => (false, Some cf)
    | _ =>
        let config := match cf with Config c => c | _ => [] end in
        match find_workspace_id config with
        | None => (false, Some cf)
        | Some workspace_id =>
            if negb (files_ok workspace_id) then (false, Some cf)
            else
              let config1 :=
                Py.dict_set String.eqb config workspace_id
                  (workspace_entry workspace_id workspace_name
                                   directory_path) in
              let config2 :=
                Py.dict_set String.eqb config1 "current_workspace"
                            (JStr workspace_id) in
              if write_ok then (true, Some (Config config2))
              else (false, None)
        end
    end.

(** The members of a config file, [{}] when there is none. *)
Definition config_members (cf : config_file) : list (string * json) :=
  match cf with Config c => c | _ => [] end.

(** A config that holds the first two workspaces. *)
Definition two_workspaces : config_file :=
  Config [("workspace_1", workspace_entry "workspace_1" "one" "/one");
          ("current_workspace", JStr "workspace_1");
          ("workspace_2", workspace_entry "workspace_2" "two" "/two");
          ("ai_provider", JStr "none")].

(** A config in which [workspace_2] was removed. *)
Definition gap_workspaces : config_file :=
  Config [("workspace_1", workspace_entry "workspace_1" "one" "/one");
          ("current_workspace", JStr "workspace_1");
          ("workspace_3", workspace_entry "workspace_3" "three" "/three")].

(** A config that holds all 99 workspaces. *)
Definition full_config : list (string * json) :=
  map (fun i => (workspace_id_of i, JNull)) (seq 1 99).

(* ================================================================== *)
(** * Properties *)
(* ================================================================== *)

(** ** The built-ins on sample values *)

Example basename_nested : Py.basename "/proj/pkg/b.py" = "b.py".
Proof. reflexivity. Qed.

Example basename_plain : Py.basename "a.py" = "a.py".
Proof. reflexivity. Qed.

Example join_plain : Py.join "/proj" "pkg" = "/proj/pkg".
Proof. reflexivity. Qed.

Example join_after_slash : Py.join "/proj/" "a.py" = "/proj/a.py".
Proof. reflexivity. Qed.

Example relpath_nested : Py.relpath "/proj/pkg/b.py" "/proj" = "pkg/b.py".
Proof. reflexivity. Qed.

Example relpath_after_slash : Py.relpath "/proj/a.py" "/proj/" = "a.py".
Proof. reflexivity. Qed.

Example endswith_py :
  Py.endswith "main.py" ".py" = true /\ Py.endswith "main.pyc" ".py" = false
  /\ Py.endswith "py" ".py" = false.
Proof. repeat split. Qed.

Example strip_both_ends : Py.strip "  return x
" = "return x".
Proof. reflexivity. Qed.

Example str_of_int : Py.str 0 = "0" /\ Py.str 75 = "75".
Proof. split; reflexivity. Qed.

(** The walk is breadth first: the bare return of [two_returns_def], a
    child of the function, comes before the return nested in the [if]. *)
Example walk_breadth_first :
  filter Ast.is_return (Ast.walk two_returns_def)
  = [Ast.Return None "return"; Ast.Return (Some Ast.Leaf) "return 1"]
  /\ filter Ast.is_return (Ast.preorder two_returns_def)
     = [Ast.Return (Some Ast.Leaf) "return 1"; Ast.Return None "return"].
Proof. split; reflexivity. Qed.

(** The example project of the specification: two file nodes, two function
    nodes, two containment edges, and [run] as the caller of [helper];
    the file that does not parse and the empty file leave no trace. *)
Example project_tree_graph :
  fst (analyze_directory "/proj" project_tree) = inr project_graph.
Proof. vm_compute. reflexivity. Qed.

(** ** Lists and folds *)

Lemma fold_left_snoc {A B : Type} (f : list B -> A -> list B)
      (g : A -> list B) :
  (forall acc x, f acc x = acc ++ g x) ->
  forall l acc, fold_left f l acc = acc ++ flat_map g l.
Proof.
  intros Hf l; induction l as [|x l IH]; intros acc; simpl.
  - now rewrite app_nil_r.
  - rewrite IH, Hf, <- app_assoc. reflexivity.
Qed.

Lemma flat_map_map_filter {A B : Type} (p : A -> bool) (h : A -> B)
      (l : list A) :
  flat_map (fun x => if p x then [h x] else []) l = map h (filter p l).
Proof.
  induction l as [|x l IH]; simpl; [reflexivity|].
  rewrite IH. now destruct (p x).
Qed.

(** ** [ast.walk] *)

Lemma size_children (n : Ast.node) :
  Ast.size n = S (list_sum (map Ast.size (Ast.iter_child_nodes n))).
Proof.
  destruct n as [b|nm l s cs|nm s cs|[v|] s|f l args|i c|v a c|cs]; simpl;
    try reflexivity; lia.
Qed.

Lemma preorder_children (n : Ast.node) :
  Ast.preorder n = n :: flat_map Ast.preorder (Ast.iter_child_nodes n).
Proof.
  destruct n as [b|nm l s cs|nm s cs|[v|] s|f l args|i c|v a c|cs]; simpl;
    rewrite ?app_nil_r; reflexivity.
Qed.

(** With enough fuel the queue is emptied: the walk yields every node of
    the queued trees exactly once. *)
Lemma walk_queue_perm (fuel : nat) :
  forall todo,
    list_sum (map Ast.size todo) <= fuel ->
    Permutation (Ast.walk_queue fuel todo) (flat_map Ast.preorder todo).
Proof.
  induction fuel as [|fuel IH]; intros todo Hfuel.
  - destruct todo as [|n rest]; simpl; [constructor|].
    simpl in Hfuel. rewrite size_children in Hfuel. lia.
  - destruct todo as [|n rest]; simpl; [constructor|].
    rewrite preorder_children. simpl. constructor.
    rewrite IH.
    + rewrite flat_map_app. apply Permutation_app_comm.
    + simpl in Hfuel. rewrite size_children in Hfuel.
      rewrite map_app, list_sum_app. lia.
Qed.

(** More fuel than needed changes nothing. *)
Lemma walk_queue_fuel (fuel : nat) :
  forall todo extra,
    list_sum (map Ast.size todo) <= fuel ->
    Ast.walk_queue (fuel + extra) todo = Ast.walk_queue fuel todo.
Proof.
  induction fuel as [|fuel IH]; intros todo extra Hfuel.
  - destruct todo as [|n rest]; simpl.
    + now destruct extra.
    + simpl in Hfuel. rewrite size_children in Hfuel. lia.
  - destruct todo as [|n rest]; simpl; [reflexivity|].
    f_equal. apply IH.
    simpl in Hfuel. rewrite size_children in Hfuel.
    rewrite map_app, list_sum_app. lia.
Qed.

Lemma walk_perm_preorder (n : Ast.node) :
  Permutation (Ast.walk n) (Ast.preorder n).
Proof.
  unfold Ast.walk.
  rewrite walk_queue_perm by (simpl; lia).
  simpl. now rewrite app_nil_r.
Qed.

Lemma filter_perm {A : Type} (p : A -> bool) (l l' : list A) :
  Permutation l l' -> Permutation (filter p l) (filter p l').
Proof.
  induction 1 as [|x l l' _ IH|x y l|l l' l'' _ IH1 _ IH2]; simpl.
  - constructor.
  - destruct (p x); [now constructor | assumption].
  - destruct (p x), (p y); try reflexivity. apply perm_swap.
  - now transitivity (filter p l').
Qed.

(** ** [parse_python_file] *)

Lemma collect_returns_eq (fn : Ast.node) :
  Forall (fun child => located child = true) (Ast.walk fn) ->
  collect_returns fn = map return_text (filter Ast.is_return (Ast.walk fn)).
Proof.
  unfold collect_returns.
  generalize (Ast.walk fn) as l. intros l.
  assert (Hgen : forall acc,
            Forall (fun child => located child = true) l ->
            fold_left
              (fun returns child =>
                 match child with
                 | Ast.Return (Some _) _ =>
                     let return_code := Ast.get_source_segment child in
                     if Py.truthy return_code
                     then returns ++ [Py.strip return_code]
                     else returns
                 | Ast.Return None _ => returns ++ ["None"]
                 | _ => returns
                 end) l acc
            = acc ++ map return_text (filter Ast.is_return l)).
  { induction l as [|x l IH]; intros acc Hloc; simpl.
    - now rewrite app_nil_r.
    - inversion Hloc as [|? ? Hx Hl]; subst.
      destruct x as [b|nm ln s cs|nm s cs|[v|] s|f ln args|i c|v a c|cs];
        simpl; try (now apply IH).
      + simpl in Hx. rewrite Hx. rewrite IH by assumption.
        now rewrite <- app_assoc.
      + rewrite IH by assumption. now rewrite <- app_assoc. }
  intros Hloc. exact (Hgen [] Hloc).
Qed.

Lemma collect_functions_eq (file_path : string) (tree : Ast.node) :
  collect_functions file_path tree =
  map (func_of_def file_path) (filter Ast.is_function_def (Ast.walk tree)).
Proof.
  unfold collect_functions.
  rewrite fold_left_snoc
    with (g := fun node => if Ast.is_function_def node
                           then [func_of_def file_path node] else []).
  - simpl. apply flat_map_map_filter.
  - intros acc x. destruct x; simpl; rewrite ?app_nil_r; reflexivity.
Qed.

Lemma collect_classes_eq (file_path : string) (tree : Ast.node) :
  collect_classes file_path tree =
  map (class_of_def file_path) (filter Ast.is_class_def (Ast.walk tree)).
Proof.
  unfold collect_classes.
  rewrite fold_left_snoc
    with (g := fun node => if Ast.is_class_def node
                           then [class_of_def file_path node] else []).
  - simpl. apply flat_map_map_filter.
  - intros acc x. destruct x; simpl; rewrite ?app_nil_r; reflexivity.
Qed.

(** C2 (as amended).  [parse_python_file] on a file that parses returns one
    record per function definition of the tree, in the order of
    [ast.walk].  The [returns] of a function holds one entry per return
    statement in the function's subtree (nested definitions included), in
    the order in which the breadth-first [ast.walk] of the function meets
    them: the stripped source text of a return statement that has a value,
    and the string ["None"] for a bare return. *)
Theorem parse_python_file_returns :
  forall (file_path content : string) (tree : Ast.node),
    parse_python_file (mkFile file_path (Parsed content tree)) =
      inr (map (func_of_def file_path)
               (filter Ast.is_function_def (Ast.walk tree)),
           collect_classes file_path tree, content)
    /\
    forall name lineno seg children,
      let fn := Ast.FunctionDef name lineno seg children in
      Forall (fun child => located child = true) (Ast.walk fn) ->
      Func.returns (func_of_def file_path fn) =
        map return_text (filter Ast.is_return (Ast.walk fn))
      /\ Permutation (filter Ast.is_return (Ast.walk fn))
                     (filter Ast.is_return (Ast.preorder fn))
      /\ List.length (Func.returns (func_of_def file_path fn)) =
         List.length (filter Ast.is_return (Ast.preorder fn))
      /\ (forall seg', return_text (Ast.Return None seg') = "None")
      /\ (forall v seg',
             return_text (Ast.Return (Some v) seg') = Py.strip seg').
Proof.
  intros file_path content tree. split.
  - unfold parse_python_file; simpl. now rewrite collect_functions_eq.
  - intros name lineno seg children fn Hloc.
    assert (Hperm : Permutation (filter Ast.is_return (Ast.walk fn))
                                (filter Ast.is_return (Ast.preorder fn)))
      by (apply filter_perm, walk_perm_preorder).
    assert (Hret : Func.returns (func_of_def file_path fn) =
                   map return_text (filter Ast.is_return (Ast.walk fn))).
    { unfold fn at 1. simpl. now apply collect_returns_eq. }
    repeat split; try assumption.
    rewrite Hret, length_map. now apply Permutation_length.
Qed.

Lemma parse_python_file_returns_witness :
  Forall (fun child => located child = true) (Ast.walk two_returns_def) /\
  Func.returns (func_of_def "/proj/a.py" two_returns_def) =
    ["None"; "return 1"].
Proof.
  assert (Hloc : Forall (fun child => located child = true)
                        (Ast.walk two_returns_def))
    by (vm_compute; repeat constructor).
  split; [exact Hloc|].
  destruct (parse_python_file_returns "/proj/a.py" "" (Ast.Module [])) as [_ H].
  destruct (H "f" 1
              "def f(x):
    if x:
        return 1
    return"
              [Ast.Other [Ast.Leaf];
               Ast.Other [Ast.Name "x" Ast.Load;
                          Ast.Return (Some Ast.Leaf) "return 1"];
               Ast.Return None "return"] Hloc) as [Hret _].
  etransitivity; [exact Hret | reflexivity].
Defined.

(** C2 (as stated) fails: for the function of [two_returns_file] the code
    records ["None"] for the bare return, not ["<none>"], and lists the
    returns in walk order, the shallower one first, not in source
    order. *)
Lemma returns_differ_from_specified :
  parse_python_file two_returns_file =
    inr ([Func.mk "f" (Ast.get_source_segment two_returns_def)
                  ["None"; "return 1"] "a.py" []],
         [], "def f(x):
    if x:
        return 1
    return
")
  /\ spec_returns two_returns_def = ["return 1"; "<none>"]
  /\ collect_returns two_returns_def <> spec_returns two_returns_def.
Proof.
  split; [reflexivity|]. split; [reflexivity|].
  vm_compute. discriminate.
Qed.

(** ** The third pass *)

Lemma add_function_nodes_eq rel_name file_path all_functions functions :
  forall nodes edges,
    add_function_nodes rel_name file_path all_functions functions
                       (nodes, edges) =
    (nodes ++ map (function_node rel_name file_path all_functions) functions,
     edges ++ map (fun func =>
                     Edge.mk rel_name (make_id rel_name (Func.name func)))
                  functions).
Proof.
  unfold add_function_nodes.
  induction functions as [|func functions IH]; intros nodes edges; simpl.
  - now rewrite !app_nil_r.
  - rewrite IH, <- !app_assoc. reflexivity.
Qed.

Lemma add_class_nodes_eq rel_name file_path classes :
  forall nodes edges,
    add_class_nodes rel_name file_path classes (nodes, edges) =
    (nodes ++ map (class_node rel_name file_path) classes,
     edges ++ map (fun cls =>
                     Edge.mk rel_name (make_id rel_name (Class.name cls)))
                  classes).
Proof.
  unfold add_class_nodes.
  induction classes as [|cls classes IH]; intros nodes edges; simpl.
  - now rewrite !app_nil_r.
  - rewrite IH, <- !app_assoc. reflexivity.
Qed.

Lemma third_pass_file_eq directory all_functions nodes edges f :
  third_pass_file directory all_functions (nodes, edges) f =
  match parse_python_file f with
  | inl e => inl e
  | inr _ => inr (nodes ++ nodes_of_file directory all_functions f,
                  edges ++ edges_of_file directory f)
  end.
Proof.
  unfold third_pass_file, nodes_of_file, edges_of_file.
  destruct (parse_python_file f) as [e|[[functions classes] content]];
    [reflexivity|].
  destruct (Py.truthy content); simpl.
  - rewrite add_function_nodes_eq, add_class_nodes_eq.
    rewrite <- !app_assoc. reflexivity.
  - now rewrite !app_nil_r.
Qed.

Lemma third_pass_fold directory all_functions files :
  forall nodes edges,
    fold_left
      (fun (acc : exn + graph_lists) f =>
         match acc with
         | inl e => inl e
         | inr g => third_pass_file directory all_functions g f
         end)
      files (inr (nodes, edges)) =
    match first_error files with
    | Some e => inl e
    | None =>
        inr (nodes ++ flat_map (nodes_of_file directory all_functions) files,
             edges ++ flat_map (edges_of_file directory) files)
    end.
Proof.
  induction files as [|f files IH]; intros nodes edges; simpl.
  - now rewrite !app_nil_r.
  - rewrite third_pass_file_eq.
    destruct (parse_python_file f) as [e|r].
    + clear IH. induction files as [|f' files IH']; simpl; auto.
    + rewrite IH, <- !app_assoc. reflexivity.
Qed.

(** The result of the three passes: the exception of the first file on
    which [parse_python_file] raises, or else the nodes and edges of the
    files, file by file. *)
Lemma build_graph_eq directory files :
  build_graph directory files =
  match first_error files with
  | Some e => inl e
  | None =>
      let all_functions :=
        second_pass directory files (first_pass directory files) in
      inr (graph (flat_map (nodes_of_file directory all_functions) files)
                 (flat_map (edges_of_file directory) files))
  end.
Proof.
  unfold build_graph, third_pass. rewrite third_pass_fold.
  destruct (first_error files); reflexivity.
Qed.

Lemma nodes_of_file_origin directory all_functions f n :
  In n (nodes_of_file directory all_functions f) ->
  has_content f = true /\ GNode.file_path n = path f.
Proof.
  unfold nodes_of_file, has_content.
  destruct (parse_python_file f) as [e|[[functions classes] content]];
    [intros []|].
  destruct (Py.truthy content); [|intros []].
  intros [<-|Hin]; [now split|].
  apply in_app_or in Hin. destruct Hin as [Hin|Hin];
    apply in_map_iff in Hin; destruct Hin as [x [<- _]]; now split.
Qed.

Lemma edges_of_file_origin directory f e :
  In e (edges_of_file directory f) ->
  has_content f = true /\ Edge.source e = rel_name_of directory f.
Proof.
  unfold edges_of_file, has_content.
  destruct (parse_python_file f) as [x|[[functions classes] content]];
    [intros []|].
  destruct (Py.truthy content); [|intros []].
  intros Hin. apply in_app_or in Hin. destruct Hin as [Hin|Hin];
    apply in_map_iff in Hin; destruct Hin as [x [<- _]]; now split.
Qed.

Lemma no_content_no_nodes directory all_functions f :
  has_content f = false ->
  nodes_of_file directory all_functions f = []
  /\ edges_of_file directory f = [].
Proof.
  unfold has_content, nodes_of_file, edges_of_file.
  destruct (parse_python_file f) as [e|[[functions classes] content]];
    [now split|].
  intros ->. now split.
Qed.

(** ** Files that the passes skip *)

Lemma fold_left_filter_inert {A B : Type} (step : A -> B -> A)
      (keep : B -> bool) (l : list B) :
  (forall a x, keep x = false -> step a x = a) ->
  forall a, fold_left step (filter keep l) a = fold_left step l a.
Proof.
  intros Hskip. induction l as [|x l IH]; intros a; simpl; [reflexivity|].
  destruct (keep x) eqn:Hk; simpl.
  - apply IH.
  - rewrite Hskip by assumption. apply IH.
Qed.

Lemma build_graph_filter_inert directory (keep : file -> bool) files :
  (forall f, keep f = false -> inert directory f) ->
  build_graph directory (filter keep files) = build_graph directory files.
Proof.
  intros Hinert. unfold build_graph.
  assert (H1 : first_pass directory (filter keep files)
               = first_pass directory files).
  { unfold first_pass. apply fold_left_filter_inert.
    intros a f Hk. now apply Hinert. }
  assert (H2 : forall af, second_pass directory (filter keep files) af
                          = second_pass directory files af).
  { intros af. unfold second_pass. apply fold_left_filter_inert.
    intros a f Hk. now apply Hinert. }
  assert (H3 : forall af, third_pass directory (filter keep files) af
                          = third_pass directory files af).
  { intros af. unfold third_pass. apply fold_left_filter_inert.
    intros [e|g] f Hk; [reflexivity|]. now apply Hinert. }
  now rewrite H1, H2, H3.
Qed.

Lemma unparseable_inert directory f :
  unparseable (state f) = true -> inert directory f.
Proof.
  destruct f as [p st]. unfold inert, first_pass_file, second_pass_file,
    third_pass_file, parse_python_file; simpl.
  destruct st; simpl; try discriminate; intros _; repeat split.
Qed.

Lemma empty_file_inert directory f :
  state f = empty_file_state -> inert directory f.
Proof.
  destruct f as [p st]; simpl. intros ->.
  unfold inert, first_pass_file, second_pass_file, third_pass_file,
    parse_python_file; simpl. repeat split.
Qed.

Lemma is_empty_file_state st :
  is_empty_file st = true -> st = empty_file_state.
Proof.
  destruct st as [m|m|c m|c e|c t]; simpl; try discriminate.
  destruct t as [[|x b]| | | | | | |]; try discriminate.
  intros H. apply String.eqb_eq in H. now subst.
Qed.

Lemma analyze_directory_result directory tree :
  fst (analyze_directory directory tree) =
  build_graph directory (cap_files (list_python_files directory tree)).
Proof. reflexivity. Qed.

Lemma graph_nodes_origin directory files g :
  build_graph directory files = inr g ->
  (forall n, In n (get_nodes g) ->
             exists f, In f files /\ has_content f = true
                       /\ GNode.file_path n = path f)
  /\ (forall e, In e (get_edges g) ->
                exists f, In f files /\ has_content f = true
                          /\ Edge.source e = rel_name_of directory f).
Proof.
  rewrite build_graph_eq.
  destruct (first_error files); [discriminate|].
  intros H; injection H as <-. simpl. split.
  - intros n Hin. apply in_flat_map in Hin. destruct Hin as [f [Hf Hn]].
    exists f. split; [assumption|]. eapply nodes_of_file_origin; eauto.
  - intros e Hin. apply in_flat_map in Hin. destruct Hin as [f [Hf He]].
    exists f. split; [assumption|]. eapply edges_of_file_origin; eauto.
Qed.

(** What [reanalyze_file] and [on_modified] do when the parse gives no
    content or raises. *)
Lemma reanalyze_file_no_content f directory_data :
  has_content f = false ->
  fst (reanalyze_file f directory_data) = directory_data
  /\ forall filename data,
       ~ In (FileChanged filename data) (snd (reanalyze_file f directory_data)).
Proof.
  unfold has_content, reanalyze_file.
  destruct (parse_python_file f) as [e|[[functions classes] content]].
  - intros _. split; [reflexivity|].
    intros filename data [H|[H|[]]]; discriminate.
  - intros ->. simpl. split; [reflexivity|].
    intros filename data [H|[]]; discriminate.
Qed.

Lemma on_modified_no_content is_directory f directory_data :
  has_content f = false ->
  fst (on_modified is_directory f directory_data) = directory_data.
Proof.
  intros H. unfold on_modified.
  destruct is_directory; [reflexivity|].
  destruct (Py.endswith (path f) ".py"); [|reflexivity].
  destruct (reanalyze_file f directory_data) as [data out] eqn:E.
  simpl. replace data with (fst (reanalyze_file f directory_data))
    by now rewrite E.
  now apply reanalyze_file_no_content.
Qed.


(** ** Unparseable and empty files *)

(** X21.  For a file that cannot be decoded as UTF-8 or on which
    [ast.parse] raises [SyntaxError], [parse_python_file] returns empty
    function records, empty class records and empty content, and raises
    nothing.  In [analyze_directory] such a file changes none of the three
    passes and gets no node and no edge: the result is the one of the
    three passes on the other analyzed files alone, and every node and
    every edge of the graph belongs to an analyzed file that parsed with
    content. *)
Theorem unparseable_file_is_skipped :
  forall f : file,
    unparseable (state f) = true ->
    parse_python_file f = inr ([], [], "")
    /\ has_content f = false
    /\ forall (directory : string) (tree : entry),
         let files := cap_files (list_python_files directory tree) in
         inert directory f
         /\ (forall all_functions,
               nodes_of_file directory all_functions f = []
               /\ edges_of_file directory f = [])
         /\ fst (analyze_directory directory tree) =
            build_graph directory
              (filter (fun f' => negb (unparseable (state f'))) files)
         /\ forall g,
              fst (analyze_directory directory tree) = inr g ->
              (forall n, In n (get_nodes g) ->
                 exists f', In f' files /\ has_content f' = true
                            /\ GNode.file_path n = path f')
              /\ (forall e, In e (get_edges g) ->
                    exists f', In f' files /\ has_content f' = true
                               /\ Edge.source e = rel_name_of directory f').
Proof.
  intros f Hbad.
  assert (Hparse : parse_python_file f = inr ([], [], "")).
  { destruct f as [p st]; unfold parse_python_file; simpl in *.
    destruct st; simpl in *; try discriminate; reflexivity. }
  split; [exact Hparse|]. split.
  { unfold has_content. now rewrite Hparse. }
  intros directory tree files. split; [now apply unparseable_inert|].
  split.
  { intros all_functions. apply no_content_no_nodes.
    unfold has_content. now rewrite Hparse. }
  split.
  - rewrite analyze_directory_result. symmetry.
    apply build_graph_filter_inert. intros f' Hk.
    apply unparseable_inert. now destruct (unparseable (state f')).
  - intros g Hg. rewrite analyze_directory_result in Hg.
    now apply graph_nodes_origin.
Qed.

Lemma unparseable_file_is_skipped_witness :
  unparseable (state (mkFile "/proj/broken.py" bad_syntax_state)) = true
  /\ parse_python_file (mkFile "/proj/broken.py" bad_syntax_state)
     = inr ([], [], "")
  /\ fst (analyze_directory "/proj" project_tree) = inr project_graph
  /\ exists f', In f' (cap_files (list_python_files "/proj" project_tree))
                /\ has_content f' = true
                /\ GNode.file_path helper_node = path f'.
Proof.
  assert (Hbad : unparseable (state (mkFile "/proj/broken.py"
                                            bad_syntax_state)) = true)
    by reflexivity.
  destruct (unparseable_file_is_skipped _ Hbad) as [Hparse [_ Hdir]].
  destruct (Hdir "/proj" project_tree) as [_ [_ [_ Hg]]].
  destruct (Hg project_graph project_tree_graph) as [Hnodes _].
  repeat split; try assumption.
  apply Hnodes. simpl. auto.
Defined.

(** C8.  When the re-parse of a modified file fails, by the unparseable
    result or by an exception, [reanalyze_file] returns with
    [directory_data] exactly as it was and emits no change notification;
    so does [on_modified] for such an event. *)
Theorem reanalyze_file_failure_keeps_graph :
  forall (f : file) (directory_data : Store.t) (is_directory : bool),
    unparseable (state f) = true \/ (exists e, parse_python_file f = inl e) ->
    fst (reanalyze_file f directory_data) = directory_data
    /\ fst (on_modified is_directory f directory_data) = directory_data
    /\ forall filename data,
         ~ In (FileChanged filename data)
              (snd (reanalyze_file f directory_data)).
Proof.
  intros f directory_data is_directory Hfail.
  assert (Hc : has_content f = false).
  { unfold has_content. destruct Hfail as [Hbad|[e He]].
    - destruct f as [p st]; unfold parse_python_file; simpl in *.
      destruct st; simpl in *; try discriminate; reflexivity.
    - now rewrite He. }
  split; [now apply reanalyze_file_no_content|].
  split; [now apply on_modified_no_content|].
  now apply reanalyze_file_no_content.
Qed.

Lemma reanalyze_file_failure_keeps_graph_witness :
  (unparseable (state (mkFile "/proj/util.py" bad_syntax_state)) = true
   \/ exists e, parse_python_file (mkFile "/proj/util.py" bad_syntax_state)
                = inl e)
  /\ fst (reanalyze_file (mkFile "/proj/util.py" bad_syntax_state)
                         project_graph) = project_graph
  /\ fst (on_modified false (mkFile "/proj/util.py" bad_syntax_state)
                      project_graph) = project_graph.
Proof.
  assert (Hfail : unparseable (state (mkFile "/proj/util.py"
                                             bad_syntax_state)) = true
                  \/ exists e, parse_python_file
                                 (mkFile "/proj/util.py" bad_syntax_state)
                               = inl e)
    by (left; reflexivity).
  destruct (reanalyze_file_failure_keeps_graph
              (mkFile "/proj/util.py" bad_syntax_state) project_graph false
              Hfail) as [H1 [H2 _]].
  repeat split; assumption.
Defined.

(** C10.  A zero-byte file parses, to the empty module, and yet is treated
    like an unparseable one: [parse_python_file] returns empty records and
    empty content, the file changes none of the three passes of
    [analyze_directory] and gets no node and no edge, the result being the
    one of the three passes on the other analyzed files alone, and a
    modification event for it leaves [directory_data] as it was.  The test
    that decides is the one on the content. *)
Theorem empty_file_is_skipped :
  forall f : file,
    is_empty_file (state f) = true ->
    parse_python_file f = inr ([], [], "")
    /\ has_content f = false
    /\ (forall (directory_data : Store.t) (is_directory : bool),
          fst (reanalyze_file f directory_data) = directory_data
          /\ fst (on_modified is_directory f directory_data) = directory_data)
    /\ forall (directory : string) (tree : entry),
         let files := cap_files (list_python_files directory tree) in
         inert directory f
         /\ (forall all_functions,
               nodes_of_file directory all_functions f = []
               /\ edges_of_file directory f = [])
         /\ fst (analyze_directory directory tree) =
            build_graph directory
              (filter (fun f' => negb (is_empty_file (state f'))) files)
         /\ forall g,
              fst (analyze_directory directory tree) = inr g ->
              (forall n, In n (get_nodes g) ->
                 exists f', In f' files /\ has_content f' = true
                            /\ GNode.file_path n = path f')
              /\ (forall e, In e (get_edges g) ->
                    exists f', In f' files /\ has_content f' = true
                               /\ Edge.source e = rel_name_of directory f').
Proof.
  intros f Hempty.
  assert (Hst : state f = empty_file_state) by now apply is_empty_file_state.
  assert (Hparse : parse_python_file f = inr ([], [], "")).
  { unfold parse_python_file. now rewrite Hst. }
  assert (Hc : has_content f = false).
  { unfold has_content. now rewrite Hparse. }
  split; [exact Hparse|]. split; [exact Hc|]. split.
  { intros directory_data is_directory. split.
    - now apply reanalyze_file_no_content.
    - now apply on_modified_no_content. }
  intros directory tree files. split; [now apply empty_file_inert|].
  split; [intros all_functions; now apply no_content_no_nodes|].
  split.
  - rewrite analyze_directory_result. symmetry.
    apply build_graph_filter_inert. intros f' Hk.
    apply empty_file_inert, is_empty_file_state.
    now destruct (is_empty_file (state f')).
  - intros g Hg. rewrite analyze_directory_result in Hg.
    now apply graph_nodes_origin.
Qed.

Lemma empty_file_is_skipped_witness :
  is_empty_file (state (mkFile "/proj/empty.py" empty_file_state)) = true
  /\ parse_python_file (mkFile "/proj/empty.py" empty_file_state)
     = inr ([], [], "")
  /\ fst (reanalyze_file (mkFile "/proj/empty.py" empty_file_state)
                         project_graph) = project_graph
  /\ fst (analyze_directory "/proj" project_tree) = inr project_graph
  /\ exists f', In f' (cap_files (list_python_files "/proj" project_tree))
                /\ has_content f' = true
                /\ GNode.file_path run_node = path f'.
Proof.
  assert (Hempty : is_empty_file
                     (state (mkFile "/proj/empty.py" empty_file_state)) = true)
    by reflexivity.
  destruct (empty_file_is_skipped _ Hempty) as [Hparse [_ [Hre Hdir]]].
  destruct (Hre project_graph false) as [Hre1 _].
  destruct (Hdir "/proj" project_tree) as [_ [_ [_ Hg]]].
  destruct (Hg project_graph project_tree_graph) as [Hnodes _].
  repeat split; try assumption.
  apply Hnodes. simpl. auto.
Defined.

(** ** The store before the first build *)

(** C3 (as amended).  [get_directory_data_snapshot] returns at any time
    the current value of [directory_data].  Before the first build that is
    the empty mapping: it has neither a ['nodes'] nor an ['edges'] entry,
    and a reader that takes a missing entry as the empty sequence
    ([snapshot.get('nodes', [])]) sees no node and no edge. *)
Theorem snapshot_before_first_build :
  (forall directory_data,
      get_directory_data_snapshot directory_data = directory_data)
  /\ get_directory_data_snapshot initial_directory_data = Store.mk None None
  /\ get_nodes (get_directory_data_snapshot initial_directory_data) = []
  /\ get_edges (get_directory_data_snapshot initial_directory_data) = [].
Proof. repeat split. Qed.

(** C3 (as stated) fails: the snapshot taken before the first build is not
    the graph with an empty nodes sequence and an empty edges sequence; it
    has no nodes sequence and no edges sequence at all. *)
Lemma snapshot_before_first_build_is_not_a_graph :
  get_directory_data_snapshot initial_directory_data <> graph [] []
  /\ Store.nodes (get_directory_data_snapshot initial_directory_data) = None
  /\ Store.edges (get_directory_data_snapshot initial_directory_data) = None.
Proof. repeat split. discriminate. Qed.

(** ** Exceptions of [analyze_directory] *)

(** On a root that is missing or cannot be listed, [analyze_directory]
    returns the empty graph and logs that it found no file. *)
Lemma analyze_directory_no_access directory :
  analyze_directory directory NoAccess =
  (inr (graph [] []),
   [Console INFO ("Starting analysis of directory: " ++ directory)%string;
    Console INFO "Found 0 Python files to analyze (recursive)";
    Console INFO "Analyzing function calls in 0 files...";
    Console INFO "Building graph nodes and edges..."]).
Proof. reflexivity. Qed.




(** C6, at the failing input.  On a file with a NUL byte [ast.parse]
    raises [ValueError], which the [except] clause of [parse_python_file]
    does not list: [parse_python_file] raises instead of returning the
    empty result.  In [analyze_directory] the first and the second pass
    catch the exception and log it, and the third pass lets it leave
    [analyze_directory]: no graph is returned, so the good file next to it
    is not analyzed either.  [reanalyze_file] catches it. *)
Theorem parse_python_file_raises_on_nul_byte :
  parse_python_file (mkFile "/proj/nul.py" nul_byte_state)
  = inl (ValueError nul_byte_message)
  /\ parse_python_file (mkFile "/proj/nul.py" nul_byte_state)
     <> inr ([], [], "")
  /\ analyze_directory "/proj" nul_byte_tree =
     (inl (ValueError nul_byte_message),
      [Console INFO "Starting analysis of directory: /proj";
       Console INFO "Found 2 Python files to analyze (recursive)";
       Console INFO "Parsing file 1/2: util.py";
       Console INFO "Parsing file 2/2: nul.py";
       Console ERROR
         "Error parsing nul.py: source code string cannot contain null bytes";
       Console INFO "Analyzing function calls in 2 files...";
       Console INFO "Analyzing calls in file 1/2: util.py";
       Console INFO "Analyzing calls in file 2/2: nul.py";
       Console WARNING
         "Error analyzing calls in nul.py: source code string cannot contain null bytes";
       Console INFO "Building graph nodes and edges...";
       Console INFO "Building nodes for file 1/2: util.py";
       Console INFO "Building nodes for file 2/2: nul.py"])
  /\ (forall directory_data,
        reanalyze_file (mkFile "/proj/nul.py" nul_byte_state) directory_data =
        (directory_data,
         [Console INFO "Re-analyzing nul.py...";
          Console ERROR
            "Error re-analyzing nul.py: source code string cannot contain null bytes"])).
Proof.
  split; [reflexivity|]. split; [discriminate|].
  split; [vm_compute; reflexivity|].
  intros directory_data. reflexivity.
Qed.

(** C7, at the failing input.  For a root that holds a file that cannot be
    opened, the first and the second pass catch the exception and log it,
    and the third pass lets it leave [analyze_directory]. *)
Theorem analyze_directory_raises_on_locked_file :
  analyze_directory "/proj" locked_tree =
  (inl (OSError "[Errno 13] Permission denied: '/proj/x.py'"),
   [Console INFO "Starting analysis of directory: /proj";
    Console INFO "Found 1 Python files to analyze (recursive)";
    Console INFO "Parsing file 1/1: x.py";
    Console ERROR
      "Error parsing x.py: [Errno 13] Permission denied: '/proj/x.py'";
    Console INFO "Analyzing function calls in 1 files...";
    Console INFO "Analyzing calls in file 1/1: x.py";
    Console WARNING
      "Error analyzing calls in x.py: [Errno 13] Permission denied: '/proj/x.py'";
    Console INFO "Building graph nodes and edges...";
    Console INFO "Building nodes for file 1/1: x.py"]).
Proof. vm_compute. reflexivity. Qed.

(** ** The incremental merge *)

(** What [reanalyze_file] does on a loaded store when the file parses with
    content: the nodes whose id or ['file'] is the base name of the path
    and the edges whose source is that base name are removed, and the
    fresh file node, member nodes and containment edges are appended. *)
Lemma reanalyze_file_merge f nodes edges functions classes content :
  parse_python_file f = inr (functions, classes, content) ->
  Py.truthy content = true ->
  let filename := Py.basename (path f) in
  fst (reanalyze_file f (graph nodes edges)) =
  graph
    (filter (fun n => negb (stale_node filename n)) nodes
     ++ file_node filename content (path f)
     :: map (fresh_function_node filename (path f)) functions
     ++ map (class_node filename (path f)) classes)
    (filter (fun e => negb (Edge.source e =? filename)%string) edges
     ++ map (fun func => Edge.mk filename (make_id filename (Func.name func)))
            functions
     ++ map (fun cls => Edge.mk filename (make_id filename (Class.name cls)))
            classes).
Proof.
  intros Hparse Hc filename. unfold reanalyze_file.
  rewrite Hparse, Hc. simpl.
  fold filename.
  match goal with
  | |- context [fold_left ?step functions ?init] =>
      assert (Hfold : forall ns es,
                 fold_left step functions (ns, es) =
                 (ns ++ map (fresh_function_node filename (path f)) functions,
                  es ++ map (fun func =>
                               Edge.mk filename
                                       (make_id filename (Func.name func)))
                            functions))
  end.
  { clear. induction functions as [|func functions IH]; intros ns es; simpl.
    - now rewrite !app_nil_r.
    - rewrite IH, <- !app_assoc. reflexivity. }
  rewrite Hfold, add_class_nodes_eq. simpl.
  rewrite <- !app_assoc. reflexivity.
Qed.

(** The example of the specification, for a file at the root: after the
    merge of [a.py] with [f] only, no node for [g] and one node for [f]. *)
Lemma reanalyze_root_file_replaces :
  map GNode.id
      (get_nodes (fst (reanalyze_file (mkFile "/proj/a.py" f_state)
                                      (built "/proj" root_tree))))
  = ["a.py"; "a.py::f"].
Proof. vm_compute. reflexivity. Qed.

(** C1, at the failing input.  [pkg/b.py] defines [f] and [g] when the
    graph is built and [f] only when it is merged again.  The merge
    removes by the base name [b.py], under which the build stored nothing:
    the nodes and the edges of [pkg/b.py] all stay, [g] included, and a
    second file node and a second node for [f] are appended under
    [b.py]. *)
Theorem reanalyze_nested_file_appends :
  let merged := fst (reanalyze_file (mkFile "/proj/pkg/b.py" f_state)
                                    (built "/proj" nested_tree)) in
  map GNode.id (get_nodes (built "/proj" nested_tree))
  = ["pkg/b.py"; "pkg/b.py::f"; "pkg/b.py::g"]
  /\ map GNode.id (get_nodes merged)
     = ["pkg/b.py"; "pkg/b.py::f"; "pkg/b.py::g"; "b.py"; "b.py::f"]
  /\ map Edge.target (get_edges merged)
     = ["pkg/b.py::f"; "pkg/b.py::g"; "b.py::f"].
Proof. vm_compute. repeat split. Qed.

(** ** The file-count ceiling *)

Lemma filter_flat_map {A B : Type} (p : B -> bool) (h : A -> list B)
      (l : list A) :
  filter p (flat_map h l) = flat_map (fun x => filter p (h x)) l.
Proof.
  induction l as [|x l IH]; simpl; [reflexivity|].
  now rewrite filter_app, IH.
Qed.

Lemma filter_none {A : Type} (p : A -> bool) (l : list A) :
  (forall x, In x l -> p x = false) -> filter p l = [].
Proof.
  induction l as [|x l IH]; intros H; simpl; [reflexivity|].
  rewrite (H x) by now left. apply IH. intros y Hy. apply H. now right.
Qed.

Lemma member_nodes_not_file directory all_functions f n :
  In n (nodes_of_file directory all_functions f) ->
  n = file_node_of directory f
  \/ (is_file_node n = false
      /\ GNode.id n = make_id (rel_name_of directory f) (GNode.name n)
      /\ GNode.file n = Some (rel_name_of directory f)).
Proof.
  unfold nodes_of_file, file_node_of, content_of, parse_python_file.
  destruct (state f) as [m|m|c m|c e|c t]; simpl; try (intros []).
  destruct (Py.truthy c); [|intros []].
  intros [<-|Hin]; [now left|right].
  apply in_app_or in Hin. destruct Hin as [Hin|Hin];
    apply in_map_iff in Hin; destruct Hin as [x [<- _]]; now repeat split.
Qed.

Lemma file_nodes_of_file directory all_functions f :
  filter is_file_node (nodes_of_file directory all_functions f) =
  if has_content f then [file_node_of directory f] else [].
Proof.
  unfold nodes_of_file, has_content, file_node_of, content_of,
    parse_python_file.
  destruct (state f) as [m|m|c m|c e|c t]; simpl; try reflexivity.
  destruct (Py.truthy c); [|reflexivity]. simpl. f_equal.
  apply filter_none. intros n Hin.
  apply in_app_or in Hin. destruct Hin as [Hin|Hin];
    apply in_map_iff in Hin; destruct Hin as [x [<- _]]; reflexivity.
Qed.

Lemma graph_file_nodes directory files g :
  build_graph directory files = inr g ->
  filter is_file_node (get_nodes g) =
  map (file_node_of directory) (filter has_content files).
Proof.
  rewrite build_graph_eq.
  destruct (first_error files); [discriminate|].
  intros H; injection H as <-.
  unfold get_nodes, graph. cbn [Store.nodes].
  rewrite filter_flat_map.
  erewrite flat_map_ext by (intros; apply file_nodes_of_file).
  apply flat_map_map_filter.
Qed.





(** ** The containment invariant *)

Lemma string_length_append (a b : string) :
  String.length (a ++ b)%string = String.length a + String.length b.
Proof. induction a as [|c a IH]; simpl; [reflexivity|now rewrite IH]. Qed.

Lemma string_append_cancel_r (t a b : string) :
  (a ++ t)%string = (b ++ t)%string -> a = b.
Proof.
  revert b. induction a as [|c a IH]; intros [|d b] H; simpl in H.
  - reflexivity.
  - apply (f_equal String.length) in H. simpl in H.
    rewrite string_length_append in H. lia.
  - apply (f_equal String.length) in H. simpl in H.
    rewrite string_length_append in H. lia.
  - injection H as -> H. f_equal. now apply IH.
Qed.

Lemma make_id_cancel (a b x : string) : make_id a x = make_id b x -> a = b.
Proof. unfold make_id. apply string_append_cancel_r. Qed.

Lemma count_by_key {A : Type} (key : A -> string) (l : list A) (x : A) :
  NoDup (map key l) -> In x l ->
  List.length (filter (fun y => (key y =? key x)%string) l) = 1.
Proof.
  induction l as [|y l IH]; intros Hnd Hin; [destruct Hin|].
  simpl in Hnd. inversion Hnd as [|? ? Hnotin Hnd']; subst.
  simpl. destruct Hin as [->|Hin].
  - rewrite String.eqb_refl. simpl. f_equal.
    rewrite filter_none; [reflexivity|].
    intros z Hz. apply String.eqb_neq. intros Heq.
    apply Hnotin. rewrite <- Heq. now apply in_map.
  - destruct (String.eqb_spec (key y) (key x)) as [Heq|Hneq].
    + exfalso. apply Hnotin. rewrite Heq. now apply in_map.
    + now apply IH.
Qed.

Lemma file_nodes_with_id directory files (rel : string) :
  filter (fun fn => (GNode.id fn =? rel)%string)
         (map (file_node_of directory) files)
  = map (file_node_of directory)
        (filter (fun f => (rel_name_of directory f =? rel)%string) files).
Proof.
  induction files as [|f files IH]; simpl; [reflexivity|].
  rewrite IH. now destruct (rel_name_of directory f =? rel)%string.
Qed.

Lemma filter_filter {A : Type} (p q : A -> bool) (l : list A) :
  filter p (filter q l) = filter (fun x => q x && p x) l.
Proof.
  induction l as [|x l IH]; simpl; [reflexivity|].
  destruct (q x); simpl; rewrite IH; reflexivity.
Qed.

Lemma filter_ext_in' {A : Type} (p q : A -> bool) (l : list A) :
  (forall x, In x l -> p x = q x) -> filter p l = filter q l.
Proof.
  induction l as [|x l IH]; intros H; simpl; [reflexivity|].
  rewrite (H x) by now left.
  rewrite IH; [reflexivity|]. intros y Hy. apply H. now right.
Qed.

(** A member node has exactly one file node in a graph whose file nodes
    have distinct ids. *)
Lemma one_file_node_of directory files g n f all_functions :
  build_graph directory files = inr g ->
  NoDup (map (rel_name_of directory) (filter has_content files)) ->
  In f files ->
  In n (nodes_of_file directory all_functions f) ->
  is_file_node n = false ->
  List.length (filter (is_file_node_of n) (get_nodes g)) = 1.
Proof.
  intros Hg Hnd Hf Hn Hmember.
  destruct (nodes_of_file_origin _ _ _ _ Hn) as [Hc _].
  destruct (member_nodes_not_file _ _ _ _ Hn) as [->|[_ [Hid _]]];
    [discriminate|].
  assert (Hsplit : filter (is_file_node_of n) (get_nodes g) =
                   filter (fun fn => (GNode.id fn
                                      =? rel_name_of directory f)%string)
                          (filter is_file_node (get_nodes g))).
  { rewrite filter_filter. apply filter_ext_in'. intros fn _.
    unfold is_file_node_of. f_equal.
    rewrite Hid.
    destruct (String.eqb_spec (GNode.id fn) (rel_name_of directory f))
      as [->|Hneq].
    - apply String.eqb_refl.
    - apply String.eqb_neq. intros Heq. apply Hneq. symmetry.
      eapply make_id_cancel; eauto. }
  rewrite Hsplit, (graph_file_nodes _ _ _ Hg), file_nodes_with_id, length_map.
  apply (count_by_key (rel_name_of directory) (filter has_content files) f).
  - assumption.
  - apply filter_In. now split.
Qed.

(** C9 (as amended).  In a graph that [analyze_directory] returns, every
    edge goes from
    the id of a file node of the graph to the id of a node of the graph,
    and every function or class node carries the id of a file node of the
    graph before its ["::"]; that file node is the only one when the
    analyzed files that parse with content have distinct relative
    names. *)
Theorem containment_invariant :
  forall (directory : string) (tree : entry) (g : Store.t),
    fst (analyze_directory directory tree) = inr g ->
    let files := cap_files (list_python_files directory tree) in
    (forall n, In n (get_nodes g) -> is_file_node n = false ->
       (exists fn, In fn (get_nodes g) /\ is_file_node_of n fn = true
                   /\ GNode.file n = Some (GNode.id fn))
       /\ (NoDup (map (rel_name_of directory) (filter has_content files)) ->
           List.length (filter (is_file_node_of n) (get_nodes g)) = 1))
    /\ (forall e, In e (get_edges g) ->
          (exists fn, In fn (get_nodes g) /\ is_file_node fn = true
                      /\ GNode.id fn = Edge.source e)
          /\ (exists n, In n (get_nodes g) /\ GNode.id n = Edge.target e)).
Proof.
  intros directory tree g Hg files.
  rewrite analyze_directory_result in Hg. fold files in Hg.
  pose proof Hg as Hbuild.
  rewrite build_graph_eq in Hg.
  destruct (first_error files); [discriminate|].
  injection Hg as Hg.
  set (af := second_pass directory files (first_pass directory files)) in *.
  assert (Hnodes : get_nodes g
                   = flat_map (nodes_of_file directory af) files)
    by now rewrite <- Hg.
  assert (Hedges : get_edges g = flat_map (edges_of_file directory) files)
    by now rewrite <- Hg.
  assert (Hfile : forall f, In f files -> has_content f = true ->
                            In (file_node_of directory f) (get_nodes g)).
  { intros f Hf Hc. rewrite Hnodes. apply in_flat_map. exists f.
    split; [assumption|].
    unfold nodes_of_file, file_node_of, content_of.
    unfold has_content in Hc. unfold parse_python_file in *.
    destruct (state f) as [m|m|c m|c e|c t]; simpl in *; try discriminate.
    rewrite Hc. now left. }
  split.
  - intros n Hn Hmember. rewrite Hnodes in Hn.
    apply in_flat_map in Hn. destruct Hn as [f [Hf Hn]].
    split.
    + destruct (nodes_of_file_origin _ _ _ _ Hn) as [Hc _].
      destruct (member_nodes_not_file _ _ _ _ Hn) as [->|[_ [Hid Hfl]]];
        [discriminate|].
      exists (file_node_of directory f). split; [now apply Hfile|].
      split; [|exact Hfl].
      unfold is_file_node_of. simpl. rewrite Hid at 1.
      apply String.eqb_refl.
    + intros Hnd. eapply one_file_node_of; eauto.
  - intros e He. rewrite Hedges in He.
    apply in_flat_map in He. destruct He as [f [Hf He]].
    destruct (edges_of_file_origin _ _ _ He) as [Hc Hsrc].
    split.
    + exists (file_node_of directory f). split; [now apply Hfile|].
      split; [reflexivity|]. now rewrite Hsrc.
    + rewrite Hnodes.
      unfold edges_of_file in He. unfold has_content in Hc.
      destruct (parse_python_file f) as [x|[[functions classes] content]]
        eqn:Hparse; [discriminate|].
      rewrite Hc in He.
      apply in_app_or in He. destruct He as [He|He];
        apply in_map_iff in He; destruct He as [x [<- Hx]].
      * exists (function_node (rel_name_of directory f) (path f) af x).
        split; [|reflexivity].
        apply in_flat_map. exists f. split; [assumption|].
        unfold nodes_of_file. rewrite Hparse, Hc. right.
        apply in_or_app. left. now apply in_map.
      * exists (class_node (rel_name_of directory f) (path f) x).
        split; [|reflexivity].
        apply in_flat_map. exists f. split; [assumption|].
        unfold nodes_of_file. rewrite Hparse, Hc. right.
        apply in_or_app. right. now apply in_map.
Qed.

(** ** Dicts *)

Lemma dict_set_in {V : Type} (d : list (nat * V)) k0 v0 k v :
  In (k, v) (Py.dict_set Nat.eqb d k0 v0) ->
  (k = k0 /\ v = v0) \/ In (k, v) d.
Proof.
  induction d as [|[k' v'] d IH]; simpl.
  - intros [H|[]]. injection H as <- <-. now left.
  - destruct (Nat.eqb_spec k' k0) as [->|Hneq].
    + intros [H|H]; [injection H as <- <-; now left | right; now right].
    + intros [H|H]; [right; now left|].
      destruct (IH H) as [?|?]; [now left | right; now right].
Qed.

Lemma dict_set_has_key {V : Type} (d : list (nat * V)) k0 v0 :
  exists v, In (k0, v) (Py.dict_set Nat.eqb d k0 v0).
Proof.
  induction d as [|[k' v'] d IH]; simpl.
  - exists v0. now left.
  - destruct (Nat.eqb_spec k' k0) as [->|Hneq].
    + exists v0. now left.
    + destruct IH as [v Hv]. exists v. now right.
Qed.

Lemma dict_set_keeps_key {V : Type} (d : list (nat * V)) k0 v0 k v :
  In (k, v) d -> exists v', In (k, v') (Py.dict_set Nat.eqb d k0 v0).
Proof.
  induction d as [|[k' v'] d IH]; simpl; [intros []|].
  destruct (Nat.eqb_spec k' k0) as [->|Hneq].
  - intros [H|H].
    + injection H as <- <-. exists v0. now left.
    + exists v. now right.
  - intros [H|H].
    + exists v. now left.
    + destruct (IH H) as [v'' Hv]. exists v''. now right.
Qed.

Lemma sdict_set_keys {V : Type} (d : list (string * V)) k0 v0 k :
  In k (map fst (Py.dict_set String.eqb d k0 v0)) <->
  k = k0 \/ In k (map fst d).
Proof.
  induction d as [|[k' v'] d IH]; simpl.
  - intuition.
  - destruct (String.eqb_spec k' k0) as [->|Hneq]; simpl.
    + intuition.
    + rewrite IH. intuition.
Qed.

Lemma sdict_set_values {V : Type} (P : V -> Prop) (d : list (string * V))
      k0 v0 :
  P v0 -> Forall (fun kv => P (snd kv)) d ->
  Forall (fun kv => P (snd kv)) (Py.dict_set String.eqb d k0 v0).
Proof.
  intros Hv. induction d as [|[k' v'] d IH]; intros Hd; simpl.
  - now repeat constructor.
  - inversion Hd as [|? ? Hh Ht]; subst.
    destruct (String.eqb k' k0); constructor; simpl; auto.
Qed.

Lemma dict_mem_keys {V : Type} (d : list (string * V)) k :
  Py.dict_mem String.eqb d k = Py.mem k (map fst d).
Proof.
  unfold Py.dict_mem, Py.mem.
  induction d as [|[k' v'] d IH]; simpl; [reflexivity|].
  rewrite (String.eqb_sym k k').
  destruct (String.eqb k' k); simpl; [reflexivity|exact IH].
Qed.

Lemma mem_In (x : string) (l : list string) :
  Py.mem x l = true <-> In x l.
Proof.
  unfold Py.mem. rewrite existsb_exists. split.
  - intros [y [Hy Heq]]. apply String.eqb_eq in Heq. now subst.
  - intros H. exists x. split; [assumption|apply String.eqb_refl].
Qed.

Lemma dict_get_key {V : Type} (d : list (string * V)) k :
  In k (map fst d) ->
  exists v, Py.dict_get String.eqb d k = Some v /\ In (k, v) d.
Proof.
  induction d as [|[k' v'] d IH]; simpl; [intros []|].
  destruct (String.eqb_spec k' k) as [->|Hneq].
  - intros _. exists v'. split; [reflexivity|now left].
  - intros [H|H]; [contradiction|].
    destruct (IH H) as [v [Hv Hin]]. exists v. split; [assumption|now right].
Qed.

(** ** The function that contains a call *)

(** [find_current_func] returns the name stored under the greatest start
    line that is at most the line of the call. *)
Lemma find_current_func_greatest (func_line_map : list (nat * string))
      (call_line : nat) :
  (forall name,
      find_current_func func_line_map call_line = Some name ->
      exists line,
        In (line, name) func_line_map /\ line <= call_line
        /\ forall line' name', In (line', name') func_line_map ->
                               line' <= call_line -> line' <= line)
  /\ (find_current_func func_line_map call_line = None ->
      forall line' name', In (line', name') func_line_map ->
                          line' <= call_line -> line' = 0).
Proof.
  unfold find_current_func.
  set (step := fun (acc : option string * nat) (item : nat * string) =>
                 let (current_func, best_match_line) := acc in
                 let (func_line, func_name_def) := item in
                 if (func_line <=? call_line) && (best_match_line <? func_line)
                 then (Some func_name_def, func_line)
                 else (current_func, best_match_line)).
  assert (Hinv : forall l seen cur best,
             (forall l' n', In (l', n') seen -> l' <= call_line -> l' <= best) ->
             (forall nm, cur = Some nm -> In (best, nm) seen /\ best <= call_line) ->
             (cur = None -> best = 0) ->
             let r := fold_left step l (cur, best) in
             (forall l' n', In (l', n') (seen ++ l) -> l' <= call_line ->
                            l' <= snd r)
             /\ (forall nm, fst r = Some nm ->
                            In (snd r, nm) (seen ++ l) /\ snd r <= call_line)
             /\ (fst r = None -> snd r = 0)).
  { induction l as [|[fl fn] l IH]; intros seen cur best H1 H2 H3; simpl.
    - rewrite app_nil_r. auto.
    - replace (seen ++ (fl, fn) :: l) with ((seen ++ [(fl, fn)]) ++ l)
        by (rewrite <- app_assoc; reflexivity).
      destruct ((fl <=? call_line) && (best <? fl)) eqn:Hc.
      + apply andb_true_iff in Hc. destruct Hc as [Hle Hlt].
        apply Nat.leb_le in Hle. apply Nat.ltb_lt in Hlt.
        apply IH.
        * intros l' n' Hin Hl'. apply in_app_or in Hin.
          destruct Hin as [Hin|[Hin|[]]].
          -- specialize (H1 _ _ Hin Hl'). lia.
          -- injection Hin as <- <-. lia.
        * intros nm Hnm. injection Hnm as <-. split; [|assumption].
          apply in_or_app. right. now left.
        * discriminate.
      + apply andb_false_iff in Hc.
        apply IH.
        * intros l' n' Hin Hl'. apply in_app_or in Hin.
          destruct Hin as [Hin|[Hin|[]]].
          -- now apply (H1 _ _ Hin).
          -- injection Hin as <- <-.
             destruct Hc as [Hc|Hc].
             ++ apply Nat.leb_gt in Hc. lia.
             ++ apply Nat.ltb_ge in Hc. lia.
        * intros nm Hnm. destruct (H2 nm Hnm) as [Hin Hb].
          split; [|assumption]. apply in_or_app. now left.
        * assumption. }
  specialize (Hinv func_line_map [] None 0).
  simpl in Hinv.
  destruct Hinv as [Hmax [Hsome Hnone]];
    [intros ? ? [] | discriminate | reflexivity |].
  split.
  - intros name Hname. destruct (Hsome name Hname) as [Hin Hle].
    eexists. split; [exact Hin|]. split; [exact Hle|]. exact Hmax.
  - intros Hn l' n' Hin Hl'. specialize (Hmax _ _ Hin Hl').
    rewrite (Hnone Hn) in Hmax. lia.
Qed.

(** The start lines of [func_line_map] are those of the function
    definitions of the tree. *)
Lemma build_func_line_map_spec (tree : Ast.node) :
  (forall line name,
      In (line, name) (build_func_line_map tree) ->
      exists seg children,
        In (Ast.FunctionDef name line seg children) (Ast.walk tree))
  /\ (forall name line seg children,
         In (Ast.FunctionDef name line seg children) (Ast.walk tree) ->
         exists name', In (line, name') (build_func_line_map tree)).
Proof.
  unfold build_func_line_map.
  set (step := fun (func_line_map : list (nat * string)) node =>
                 match node with
                 | Ast.FunctionDef name lineno _ _ =>
                     Py.dict_set Nat.eqb func_line_map lineno name
                 | _ => func_line_map
                 end).
  assert (Hinv : forall l seen m,
             (forall line name, In (line, name) m ->
                exists seg cs, In (Ast.FunctionDef name line seg cs) seen) ->
             (forall name line seg cs,
                 In (Ast.FunctionDef name line seg cs) seen ->
                 exists name', In (line, name') m) ->
             (forall line name, In (line, name) (fold_left step l m) ->
                exists seg cs,
                  In (Ast.FunctionDef name line seg cs) (seen ++ l))
             /\ (forall name line seg cs,
                    In (Ast.FunctionDef name line seg cs) (seen ++ l) ->
                    exists name', In (line, name') (fold_left step l m))).
  { induction l as [|x l IH]; intros seen m H1 H2; simpl.
    - rewrite app_nil_r. auto.
    - replace (seen ++ x :: l) with ((seen ++ [x]) ++ l)
        by (rewrite <- app_assoc; reflexivity).
      apply IH.
      + intros line name Hin.
        destruct x as [b|nm ln s cs|nm s cs|v s|f ln args|i c|v a c|cs];
          simpl in Hin;
          try (destruct (H1 _ _ Hin) as [seg [cs' H]]; exists seg, cs';
               apply in_or_app; now left).
        apply dict_set_in in Hin. destruct Hin as [[-> ->]|Hin].
        * exists s, cs. apply in_or_app. right. now left.
        * destruct (H1 _ _ Hin) as [seg [cs' H]]. exists seg, cs'.
          apply in_or_app. now left.
      + intros name line seg cs' Hin. apply in_app_or in Hin.
        destruct Hin as [Hin|[Hin|[]]].
        * destruct (H2 _ _ _ _ Hin) as [name' Hm].
          destruct x as [b|nm ln s cs|nm s cs|v s|f ln args|i c|v a c|cs];
            simpl; try (now exists name').
          eapply dict_set_keeps_key; eauto.
        * subst x. simpl. apply dict_set_has_key. }
  destruct (Hinv (Ast.walk tree) [] []) as [H1 H2].
  - intros ? ? [].
  - intros ? ? ? ? [].
  - split; assumption.
Qed.

(** ** The second pass, record by record *)

Lemma with_called_by_same (r : Func.t) : with_called_by r (Func.called_by r) = r.
Proof. now destruct r. Qed.

Lemma extend_keys callers all_functions :
  map fst (extend callers all_functions) = map fst all_functions.
Proof.
  unfold extend. rewrite map_map. simpl. reflexivity.
Qed.

Lemma extend_nil all_functions :
  extend (fun _ => []) all_functions = all_functions.
Proof.
  unfold extend. rewrite <- (map_id all_functions) at 2.
  apply map_ext. intros [k r]. simpl. now rewrite with_called_by_same.
Qed.

Lemma extend_extend c1 c2 all_functions :
  extend c2 (extend c1 all_functions) =
  extend (fun name => c1 name ++ c2 name) all_functions.
Proof.
  unfold extend. rewrite map_map. apply map_ext. intros [k r]. simpl.
  now rewrite fold_left_app.
Qed.

Lemma extend_ext c1 c2 all_functions :
  (forall name, c1 name = c2 name) ->
  extend c1 all_functions = extend c2 all_functions.
Proof.
  intros H. unfold extend. apply map_ext. intros [k r]. simpl.
  now rewrite H.
Qed.

Lemma link_call_eq all_functions rel_name func_line_map func_name call_line
      func call_args item :
  call_name func = Some func_name ->
  Py.truthy func_name = true ->
  link_call all_functions rel_name func_line_map func_name call_line item =
  (fst item,
   with_called_by (snd item)
     (fold_left add_unique
        (caller_at (map fst all_functions) rel_name func_line_map
                   (Ast.Call func call_line call_args)
                   (Func.name (snd item)))
        (Func.called_by (snd item)))).
Proof.
  intros Hname Htruthy. destruct item as [func_id func_data].
  unfold link_call, caller_at. rewrite Hname, Htruthy. simpl.
  destruct (Func.name func_data =? func_name)%string;
    [|simpl; now rewrite with_called_by_same].
  destruct (find_current_func func_line_map call_line) as [current_func|];
    [|simpl; now rewrite with_called_by_same].
  destruct (Py.truthy current_func);
    [|simpl; now rewrite with_called_by_same].
  rewrite dict_mem_keys. simpl.
  destruct (Py.mem (make_id rel_name current_func) (map fst all_functions));
    [|simpl; now rewrite with_called_by_same].
  simpl. unfold add_unique.
  destruct (Py.mem (make_id rel_name current_func)
                   (Func.called_by func_data)); simpl.
  - now rewrite with_called_by_same.
  - reflexivity.
Qed.

Lemma second_pass_node_eq rel_name func_line_map all_functions node :
  second_pass_node rel_name func_line_map all_functions node =
  extend (caller_at (map fst all_functions) rel_name func_line_map node)
         all_functions.
Proof.
  destruct node as [b|nm ln s cs|nm s cs|v s|f ln args|i c|v a c|cs];
    try (simpl; now rewrite extend_nil).
  destruct (call_name f) as [func_name|] eqn:Hname.
  - destruct (Py.truthy func_name) eqn:Htruthy.
    + unfold second_pass_node. rewrite Hname, Htruthy.
      unfold extend. apply map_ext. intros item.
      now apply link_call_eq.
    + unfold second_pass_node, caller_at. rewrite Hname, Htruthy.
      now rewrite extend_nil.
  - unfold second_pass_node, caller_at. rewrite Hname.
    now rewrite extend_nil.
Qed.

Lemma second_pass_nodes_eq rel_name func_line_map nodes :
  forall all_functions,
    fold_left (second_pass_node rel_name func_line_map) nodes all_functions =
    extend (fun name =>
              flat_map (fun node =>
                          caller_at (map fst all_functions) rel_name
                                    func_line_map node name)
                       nodes)
           all_functions.
Proof.
  induction nodes as [|node nodes IH]; intros all_functions; simpl.
  - now rewrite extend_nil.
  - rewrite second_pass_node_eq, IH, extend_keys, extend_extend.
    reflexivity.
Qed.

Lemma second_pass_file_eq directory all_functions f :
  second_pass_file directory all_functions f =
  extend (discovered_callers directory [f] (map fst all_functions))
         all_functions.
Proof.
  unfold second_pass_file, discovered_callers. simpl.
  destruct (state f) as [m|m|c m|c e|c t]; simpl;
    try now rewrite extend_nil.
  rewrite second_pass_nodes_eq. apply extend_ext. intros name.
  now rewrite app_nil_r.
Qed.

(** The second pass gives every record the callers discovered for its
    name, in discovery order, each once. *)
Lemma second_pass_eq directory files :
  forall all_functions,
    second_pass directory files all_functions =
    extend (discovered_callers directory files (map fst all_functions))
           all_functions.
Proof.
  unfold second_pass.
  induction files as [|f files IH]; intros all_functions; simpl.
  - unfold discovered_callers. simpl. now rewrite extend_nil.
  - rewrite second_pass_file_eq, IH, extend_keys, extend_extend.
    apply extend_ext. intros name.
    unfold discovered_callers. simpl. now rewrite app_nil_r.
Qed.

Lemma add_unique_NoDup (l : list string) (x : string) :
  NoDup l -> NoDup (add_unique l x).
Proof.
  intros Hnd. unfold add_unique.
  destruct (Py.mem x l) eqn:Hm; [assumption|].
  apply NoDup_app; [assumption|repeat constructor; intros []|].
  intros y Hy [<-|[]]. apply mem_In in Hy. congruence.
Qed.

Lemma fold_add_unique_NoDup (l acc : list string) :
  NoDup acc -> NoDup (fold_left add_unique l acc).
Proof.
  revert acc. induction l as [|x l IH]; intros acc Hnd; simpl;
    [assumption|].
  apply IH. now apply add_unique_NoDup.
Qed.

Lemma fold_add_unique_In (l acc : list string) (x : string) :
  In x (fold_left add_unique l acc) <-> In x acc \/ In x l.
Proof.
  revert acc. induction l as [|y l IH]; intros acc; simpl.
  - intuition.
  - rewrite IH. unfold add_unique.
    destruct (Py.mem y acc) eqn:Hm.
    + apply mem_In in Hm. intuition (subst; auto).
    + rewrite in_app_iff. simpl. intuition.
Qed.

(** ** The first pass *)

Lemma register_functions_keys rel_name functions :
  forall (all_functions : all_functions_t) k,
    In k (map fst
            (fold_left
               (fun (all_functions : all_functions_t) func =>
                  Py.dict_set String.eqb all_functions
                    (make_id rel_name (Func.name func))
                    (Func.mk (Func.name func) (Func.code func)
                             (Func.returns func) rel_name []))
               functions all_functions))
    <-> In k (map fst all_functions)
        \/ exists func, In func functions
                        /\ k = make_id rel_name (Func.name func).
Proof.
  induction functions as [|func functions IH]; intros all_functions k; simpl.
  - split; [auto|]. intros [H|[func [[] _]]]. assumption.
  - rewrite IH, sdict_set_keys. split.
    + intros [[->|H]|[func' [Hin Hk]]]; eauto.
    + intros [H|[func' [[->|Hin] Hk]]]; eauto.
Qed.

Lemma register_functions_called_by rel_name functions :
  forall all_functions : all_functions_t,
    Forall (fun kv => Func.called_by (snd kv) = []) all_functions ->
    Forall (fun kv => Func.called_by (snd kv) = [])
           (fold_left
              (fun (all_functions : all_functions_t) func =>
                 Py.dict_set String.eqb all_functions
                   (make_id rel_name (Func.name func))
                   (Func.mk (Func.name func) (Func.code func)
                            (Func.returns func) rel_name []))
              functions all_functions).
Proof.
  induction functions as [|func functions IH]; intros all_functions H; simpl;
    [assumption|].
  apply IH.
  now apply (sdict_set_values (fun r => Func.called_by r = [])).
Qed.

Lemma first_pass_file_keeps_keys directory all_functions f k :
  In k (map fst all_functions) ->
  In k (map fst (first_pass_file directory all_functions f)).
Proof.
  intros Hk. unfold first_pass_file.
  destruct (parse_python_file f) as [e|[[functions classes] content]];
    [assumption|].
  destruct (negb (Py.truthy content)); [assumption|].
  apply register_functions_keys. now left.
Qed.

Lemma first_pass_fold_keeps_keys directory files :
  forall all_functions k,
    In k (map fst all_functions) ->
    In k (map fst (fold_left (first_pass_file directory) files all_functions)).
Proof.
  induction files as [|f files IH]; intros all_functions k Hk; simpl;
    [assumption|].
  apply IH. now apply first_pass_file_keeps_keys.
Qed.

(** After the first pass every function definition of every file that
    parsed with content has its id among the keys of [all_functions]. *)
Lemma first_pass_keys directory files f content tree name line seg children :
  In f files ->
  state f = Parsed content tree ->
  Py.truthy content = true ->
  In (Ast.FunctionDef name line seg children) (Ast.walk tree) ->
  In (make_id (rel_name_of directory f) name)
     (map fst (first_pass directory files)).
Proof.
  intros Hf Hst Hc Hdef. unfold first_pass.
  generalize (@nil (string * Func.t)) as all_functions.
  induction files as [|f' files IH]; intros all_functions; [destruct Hf|].
  simpl. destruct Hf as [->|Hf]; [|now apply IH].
  apply first_pass_fold_keeps_keys.
  unfold first_pass_file, parse_python_file. rewrite Hst, Hc. simpl.
  apply register_functions_keys. right.
  exists (func_of_def (path f) (Ast.FunctionDef name line seg children)).
  split; [|reflexivity].
  rewrite collect_functions_eq. apply in_map. apply filter_In. now split.
Qed.

Lemma first_pass_called_by directory files :
  Forall (fun kv => Func.called_by (snd kv) = [])
         (first_pass directory files).
Proof.
  unfold first_pass.
  assert (H : forall all_functions : all_functions_t,
             Forall (fun kv => Func.called_by (snd kv) = []) all_functions ->
             Forall (fun kv => Func.called_by (snd kv) = [])
                    (fold_left (first_pass_file directory) files
                               all_functions)).
  { induction files as [|f files IH]; intros all_functions Haf; simpl;
      [assumption|].
    apply IH. unfold first_pass_file.
    destruct (parse_python_file f) as [e|[[functions classes] content]];
      [assumption|].
    destruct (negb (Py.truthy content)); [assumption|].
    now apply register_functions_called_by. }
  apply H. constructor.
Qed.

Lemma in_extend callers (all_functions : all_functions_t) func_id func_data :
  In (func_id, func_data) (extend callers all_functions) ->
  exists r0,
    In (func_id, r0) all_functions
    /\ Func.name func_data = Func.name r0
    /\ Func.called_by func_data =
       fold_left add_unique (callers (Func.name r0)) (Func.called_by r0).
Proof.
  unfold extend. intros Hin. apply in_map_iff in Hin.
  destruct Hin as [[k r0] [Heq Hin]]. simpl in Heq.
  injection Heq as <- <-. exists r0. now repeat split.
Qed.

Lemma function_node_record directory files f n :
  let all_functions :=
    second_pass directory files (first_pass directory files) in
  In f files ->
  In n (nodes_of_file directory all_functions f) ->
  GNode.type n = type_function ->
  exists r, In (GNode.id n, r) all_functions
            /\ GNode.called_by n = Some (Func.called_by r)
            /\ GNode.returns n = Some (Func.returns r).
Proof.
  intros all_functions Hf Hn Htype.
  unfold nodes_of_file, parse_python_file in Hn.
  destruct (state f) as [m|m|c m|c e|content tree] eqn:Hst; simpl in Hn;
    try destruct Hn.
  destruct (Py.truthy content) eqn:Hc; [|destruct Hn].
  destruct Hn as [<-|Hn]; [discriminate|].
  apply in_app_or in Hn. destruct Hn as [Hn|Hn];
    apply in_map_iff in Hn; destruct Hn as [x [<- Hx]]; [|discriminate].
  rewrite collect_functions_eq in Hx. apply in_map_iff in Hx.
  destruct Hx as [node [<- Hnode]]. apply filter_In in Hnode.
  destruct Hnode as [Hnode Hdef].
  destruct node as [b|nm ln s cs|nm s cs|v s|fn ln args|i c|v a c|cs];
    try discriminate.
  assert (Hkey : In (make_id (rel_name_of directory f) nm)
                    (map fst all_functions)).
  { unfold all_functions. rewrite second_pass_eq, extend_keys.
    eapply first_pass_keys; eauto. }
  destruct (dict_get_key _ _ Hkey) as [r [Hget Hin]].
  exists r. unfold function_node. simpl. rewrite Hget. now repeat split.
Qed.

(** ** The call resolver *)

Lemma call_name_shape (func : Ast.node) (func_name : string) :
  call_name func = Some func_name <->
  (exists ctx, func = Ast.Name func_name ctx)
  \/ (exists value ctx, func = Ast.Attribute value func_name ctx).
Proof.
  destruct func as [b|nm ln s cs|nm s cs|v s|f ln args|i c|v a c|cs]; simpl;
    split;
    try discriminate;
    try (intros [[ctx H]|[value [ctx H]]]; discriminate).
  - intros H; injection H as ->. left. now exists c.
  - intros [[ctx H]|[value [ctx H]]]; [|discriminate].
    now injection H as -> _.
  - intros H; injection H as ->. right. now exists v, c.
  - intros [[ctx H]|[value [ctx H]]]; [discriminate|].
    now injection H as _ -> _.
Qed.

(** C5.  In the second pass of a full build a call is attributed to the
    function of its file whose definition starts on the greatest line that
    is at most the line of the call.  The called name of a call expression
    is the name of its callee when the callee is a name ([helper(...)]),
    and the attribute when it is an attribute access ([util.helper(...)]);
    a call with another callee has none.  For every call of a name in an
    analyzed file, bare or as an attribute, the id of the enclosing
    function is in the [called_by] of every record of that name, whatever
    its file; and every caller in the [called_by] of a record comes from
    such a call.  The [called_by] of a record has no duplicates and lists
    the callers discovered for the name of the record in the order in
    which they were first seen; the function nodes of the graph carry the
    [called_by] of these records. *)
Theorem call_resolver :
  forall (directory : string) (tree : entry),
    let files := cap_files (list_python_files directory tree) in
    let known := first_pass directory files in
    let all_functions := second_pass directory files known in
    (forall ast call_line caller,
        find_current_func (build_func_line_map ast) call_line = Some caller ->
        exists line seg children,
          In (Ast.FunctionDef caller line seg children) (Ast.walk ast)
          /\ line <= call_line
          /\ forall name' line' seg' children',
               In (Ast.FunctionDef name' line' seg' children') (Ast.walk ast) ->
               line' <= call_line -> line' <= line)
    /\ (forall ast call_line name line seg children,
           In (Ast.FunctionDef name line seg children) (Ast.walk ast) ->
           1 <= line <= call_line ->
           find_current_func (build_func_line_map ast) call_line <> None)
    /\ (forall f content ast func call_line args func_name caller
               func_id func_data,
           In f files ->
           state f = Parsed content ast ->
           Py.truthy content = true ->
           In (Ast.Call func call_line args) (Ast.walk ast) ->
           (exists ctx, func = Ast.Name func_name ctx)
           \/ (exists value ctx, func = Ast.Attribute value func_name ctx) ->
           Py.truthy func_name = true ->
           find_current_func (build_func_line_map ast) call_line
             = Some caller ->
           Py.truthy caller = true ->
           In (func_id, func_data) all_functions ->
           Func.name func_data = func_name ->
           In (make_id (rel_name_of directory f) caller)
              (Func.called_by func_data))
    /\ (forall func_id func_data caller_id,
           In (func_id, func_data) all_functions ->
           In caller_id (Func.called_by func_data) ->
           exists f content ast func call_line args caller,
             In f files
             /\ state f = Parsed content ast
             /\ In (Ast.Call func call_line args) (Ast.walk ast)
             /\ ((exists ctx, func = Ast.Name (Func.name func_data) ctx)
                 \/ (exists value ctx,
                       func = Ast.Attribute value (Func.name func_data) ctx))
             /\ find_current_func (build_func_line_map ast) call_line
                = Some caller
             /\ caller_id = make_id (rel_name_of directory f) caller
             /\ In caller_id (map fst known))
    /\ (forall func_id func_data,
           In (func_id, func_data) all_functions ->
           NoDup (Func.called_by func_data)
           /\ Func.called_by func_data =
              first_seen (discovered_callers directory files (map fst known)
                                             (Func.name func_data)))
    /\ (forall g n,
           fst (analyze_directory directory tree) = inr g ->
           In n (get_nodes g) ->
           GNode.type n = type_function ->
           exists func_data,
             In (GNode.id n, func_data) all_functions
             /\ GNode.called_by n = Some (Func.called_by func_data)).
Proof.
  intros directory tree files known all_functions.
  assert (Hall : all_functions =
                 extend (discovered_callers directory files (map fst known))
                        known)
    by apply second_pass_eq.
  assert (Hrec : forall func_id func_data,
             In (func_id, func_data) all_functions ->
             Func.called_by func_data =
             first_seen (discovered_callers directory files (map fst known)
                                            (Func.name func_data))).
  { intros func_id func_data Hin. rewrite Hall in Hin.
    apply in_extend in Hin. destruct Hin as [r0 [Hin0 [Hname Hcb]]].
    pose proof (first_pass_called_by directory files) as Hnil.
    rewrite Forall_forall in Hnil. specialize (Hnil _ Hin0). simpl in Hnil.
    rewrite Hcb, Hnil, Hname. reflexivity. }
  split; [|split; [|split; [|split; [|split]]]].
  - intros ast call_line caller Hfind.
    destruct (find_current_func_greatest (build_func_line_map ast) call_line)
      as [Hsome _].
    destruct (Hsome caller Hfind) as [line [Hin [Hle Hmax]]].
    destruct (build_func_line_map_spec ast) as [Hdefs Hlines].
    destruct (Hdefs _ _ Hin) as [seg [children Hdef]].
    exists line, seg, children. split; [assumption|]. split; [assumption|].
    intros name' line' seg' children' Hdef' Hle'.
    destruct (Hlines _ _ _ _ Hdef') as [name'' Hin'].
    now apply (Hmax _ _ Hin').
  - intros ast call_line name line seg children Hdef [Hpos Hle] Hnone.
    destruct (find_current_func_greatest (build_func_line_map ast) call_line)
      as [_ Hzero].
    destruct (build_func_line_map_spec ast) as [_ Hlines].
    destruct (Hlines _ _ _ _ Hdef) as [name' Hin].
    specialize (Hzero Hnone _ _ Hin Hle). lia.
  - intros f content ast func call_line args func_name caller func_id
           func_data Hf Hst Hc Hcall Hshape Htruthy Hfind Hcaller Hin Hfn.
    assert (Hname : call_name func = Some func_name)
      by (apply call_name_shape; exact Hshape).
    rewrite (Hrec _ _ Hin). unfold first_seen.
    apply fold_add_unique_In. right.
    unfold discovered_callers. apply in_flat_map. exists f.
    split; [assumption|]. rewrite Hst.
    apply in_flat_map. exists (Ast.Call func call_line args).
    split; [assumption|].
    unfold caller_at. rewrite Hname, Htruthy, Hfn, String.eqb_refl. simpl.
    rewrite Hfind, Hcaller. simpl.
    assert (Hkey : In (make_id (rel_name_of directory f) caller)
                      (map fst known)).
    { destruct (find_current_func_greatest (build_func_line_map ast)
                                           call_line) as [Hsome _].
      destruct (Hsome caller Hfind) as [line [Hl _]].
      destruct (build_func_line_map_spec ast) as [Hdefs _].
      destruct (Hdefs _ _ Hl) as [seg [children Hdef]].
      eapply first_pass_keys; eauto. }
    apply mem_In in Hkey. rewrite Hkey. now left.
  - intros func_id func_data caller_id Hin Hcaller.
    rewrite (Hrec _ _ Hin) in Hcaller. unfold first_seen in Hcaller.
    apply fold_add_unique_In in Hcaller. destruct Hcaller as [[]|Hcaller].
    unfold discovered_callers in Hcaller. apply in_flat_map in Hcaller.
    destruct Hcaller as [f [Hf Hcaller]].
    destruct (state f) as [m|m|c m|c e|content ast] eqn:Hst;
      try destruct Hcaller.
    apply in_flat_map in Hcaller. destruct Hcaller as [node [Hnode Hcaller]].
    unfold caller_at in Hcaller.
    destruct node as [b|nm ln s cs|nm s cs|v s|func call_line args|i c|v a c|cs];
      try destruct Hcaller.
    destruct (call_name func) as [func_name|] eqn:Hname; [|destruct Hcaller].
    destruct (Py.truthy func_name
              && (Func.name func_data =? func_name)%string) eqn:Hb;
      [|destruct Hcaller].
    apply andb_true_iff in Hb. destruct Hb as [_ Heq].
    apply String.eqb_eq in Heq. subst func_name.
    destruct (find_current_func (build_func_line_map ast) call_line)
      as [caller|] eqn:Hfind; [|destruct Hcaller].
    destruct (Py.truthy caller
              && Py.mem (make_id (rel_name_of directory f) caller)
                        (map fst known)) eqn:Hk; [|destruct Hcaller].
    apply andb_true_iff in Hk. destruct Hk as [_ Hk]. apply mem_In in Hk.
    destruct Hcaller as [<-|[]].
    exists f, content, ast, func, call_line, args, caller.
    split; [assumption|]. split; [exact Hst|]. split; [assumption|].
    split; [apply call_name_shape; exact Hname|].
    split; [exact Hfind|]. split; [reflexivity|assumption].
  - intros func_id func_data Hin. split; [|now apply (Hrec func_id)].
    rewrite (Hrec _ _ Hin). apply fold_add_unique_NoDup. constructor.
  - intros g n Hg Hn Htype.
    rewrite analyze_directory_result in Hg. fold files in Hg.
    rewrite build_graph_eq in Hg.
    destruct (first_error files); [discriminate|].
    injection Hg as Hg. rewrite <- Hg in Hn.
    unfold get_nodes, graph in Hn. cbn [Store.nodes] in Hn.
    apply in_flat_map in Hn. destruct Hn as [f [Hf Hn]].
    destruct (function_node_record directory files f n Hf Hn Htype)
      as [r [Hin [Hcb _]]].
    exists r. now split.
Qed.

Lemma call_resolver_witness :
  let files := cap_files (list_python_files "/proj" calls_tree) in
  let all_functions :=
    second_pass "/proj" files (first_pass "/proj" files) in
  In (mkFile "/proj/main.py" main_state) files
  /\ In (mkFile "/proj/app.py" app_state) files
  /\ In (Ast.Call (Ast.Name "helper" Ast.Load) 2 []) (Ast.walk main_tree)
  /\ In (Ast.Call (Ast.Attribute (Ast.Name "util" Ast.Load) "helper" Ast.Load)
                  2 [])
        (Ast.walk app_tree)
  /\ find_current_func (build_func_line_map main_tree) 2 = Some "run"
  /\ find_current_func (build_func_line_map app_tree) 2 = Some "start"
  /\ In ("util.py::helper", helper_called_twice) all_functions
  /\ In "main.py::run" (Func.called_by helper_called_twice)
  /\ In "app.py::start" (Func.called_by helper_called_twice)
  /\ NoDup (Func.called_by helper_called_twice).
Proof.
  intros files all_functions.
  assert (Hmain : In (mkFile "/proj/main.py" main_state) files)
    by (vm_compute; auto 10).
  assert (Happ : In (mkFile "/proj/app.py" app_state) files)
    by (vm_compute; auto 10).
  assert (Hbare : In (Ast.Call (Ast.Name "helper" Ast.Load) 2 [])
                     (Ast.walk main_tree))
    by (vm_compute; auto 10).
  assert (Hattr : In (Ast.Call (Ast.Attribute (Ast.Name "util" Ast.Load)
                                              "helper" Ast.Load) 2 [])
                     (Ast.walk app_tree))
    by (vm_compute; auto 10).
  assert (Hrun : find_current_func (build_func_line_map main_tree) 2
                 = Some "run") by reflexivity.
  assert (Hstart : find_current_func (build_func_line_map app_tree) 2
                   = Some "start") by reflexivity.
  assert (Hrec : In ("util.py::helper", helper_called_twice) all_functions)
    by (vm_compute; auto 10).
  destruct (call_resolver "/proj" calls_tree)
    as [_ [_ [Hlink [_ [Hdedup _]]]]].
  split; [exact Hmain|]. split; [exact Happ|]. split; [exact Hbare|].
  split; [exact Hattr|]. split; [exact Hrun|]. split; [exact Hstart|].
  split; [exact Hrec|]. split; [|split].
  - exact (Hlink (mkFile "/proj/main.py" main_state) _ main_tree
                 (Ast.Name "helper" Ast.Load) 2 [] "helper" "run"
                 "util.py::helper" helper_called_twice
                 Hmain eq_refl eq_refl Hbare
                 (or_introl (ex_intro _ Ast.Load eq_refl))
                 eq_refl Hrun eq_refl Hrec eq_refl).
  - exact (Hlink (mkFile "/proj/app.py" app_state) _ app_tree
                 (Ast.Attribute (Ast.Name "util" Ast.Load) "helper" Ast.Load)
                 2 [] "helper" "start"
                 "util.py::helper" helper_called_twice
                 Happ eq_refl eq_refl Hattr
                 (or_intror
                    (ex_intro _ (Ast.Name "util" Ast.Load)
                              (ex_intro _ Ast.Load eq_refl)))
                 eq_refl Hstart eq_refl Hrec eq_refl).
  - exact (proj1 (Hdedup "util.py::helper" helper_called_twice Hrec)).
Defined.

Lemma containment_invariant_witness :
  fst (analyze_directory "/proj" project_tree) = inr project_graph
  /\ In helper_node (get_nodes project_graph)
  /\ NoDup (map (rel_name_of "/proj")
                (filter has_content
                        (cap_files (list_python_files "/proj" project_tree))))
  /\ List.length (filter (is_file_node_of helper_node)
                         (get_nodes project_graph)) = 1
  /\ exists fn, In fn (get_nodes project_graph)
                /\ is_file_node fn = true
                /\ GNode.id fn = "util.py".
Proof.
  assert (Hn : In helper_node (get_nodes project_graph))
    by (simpl; auto).
  assert (Hnd : NoDup (map (rel_name_of "/proj")
                           (filter has_content
                                   (cap_files (list_python_files
                                                 "/proj" project_tree))))).
  { vm_compute. repeat constructor; simpl; intuition discriminate. }
  destruct (containment_invariant "/proj" project_tree project_graph
                                  project_tree_graph) as [Hmember Hedge].
  destruct (Hmember helper_node Hn eq_refl) as [_ Hone].
  destruct (Hedge (Edge.mk "util.py" "util.py::helper")) as [Hsrc _];
    [simpl; auto|].
  split; [exact project_tree_graph|]. split; [exact Hn|].
  split; [exact Hnd|]. split; [exact (Hone Hnd)|].
  destruct Hsrc as [fn [Hin [Hfile Hid]]].
  exists fn. now repeat split.
Defined.

(** C9 (as stated) fails.  The two files of [backslash_tree] have the same
    relative name once the backslash is turned into a slash, so the graph
    has two file nodes with the id [a/b.py], and the id of a function node
    has the id of both before its ["::"]. *)
Lemma containment_two_file_nodes :
  exists g n,
    fst (analyze_directory "/proj" backslash_tree) = inr g
    /\ map GNode.id (filter is_file_node (get_nodes g)) = ["a/b.py"; "a/b.py"]
    /\ In n (get_nodes g)
    /\ GNode.id n = "a/b.py::f"
    /\ is_file_node n = false
    /\ List.length (filter (is_file_node_of n) (get_nodes g)) = 2.
Proof.
  destruct (fst (analyze_directory "/proj" backslash_tree)) as [e|g] eqn:E;
    [vm_compute in E; discriminate|].
  assert (Hg : inr g = fst (analyze_directory "/proj" backslash_tree))
    by now rewrite E.
  vm_compute in Hg. injection Hg as ->.
  eexists. eexists. split; [reflexivity|].
  split; [reflexivity|].
  split; [right; left; reflexivity|].
  repeat split.
Qed.

(* ================================================================== *)
(** * Further properties *)
(* ================================================================== *)

(** ** Discovery of nested definitions *)

Lemma map_filter_perm {A B : Type} (p : A -> bool) (h : A -> B)
      (l l' : list A) :
  Permutation l l' ->
  Permutation (map h (filter p l)) (map h (filter p l')).
Proof. intros H. apply Permutation_map, filter_perm, H. Qed.

(** X1.  [parse_python_file] finds the definitions of every depth: each
    [ast.FunctionDef] node (a [def]; an [async def] is a node of another
    class and gets no record) and each [ast.ClassDef] node anywhere in the
    tree, nested in a class or in another function or not, has a record
    with its name and its code; every record comes from such a node; and
    there are as many records as such nodes. *)
Theorem parse_python_file_nested_definitions :
  forall (file_path content : string) (tree : Ast.node),
  exists functions classes,
    parse_python_file (mkFile file_path (Parsed content tree))
      = inr (functions, classes, content)
    /\ Permutation functions
         (map (func_of_def file_path)
              (filter Ast.is_function_def (Ast.preorder tree)))
    /\ Permutation classes
         (map (class_of_def file_path)
              (filter Ast.is_class_def (Ast.preorder tree)))
    /\ (forall name lineno seg children,
          In (Ast.FunctionDef name lineno seg children) (Ast.preorder tree) ->
          exists func, In func functions /\ Func.name func = name
                       /\ Func.code func = seg)
    /\ (forall name seg children,
          In (Ast.ClassDef name seg children) (Ast.preorder tree) ->
          exists cls, In cls classes /\ Class.name cls = name
                      /\ Class.code cls = seg)
    /\ (forall func,
          In func functions ->
          exists name lineno seg children,
            In (Ast.FunctionDef name lineno seg children) (Ast.preorder tree)
            /\ Func.name func = name /\ Func.code func = seg)
    /\ (forall cls,
          In cls classes ->
          exists name seg children,
            In (Ast.ClassDef name seg children) (Ast.preorder tree)
            /\ Class.name cls = name /\ Class.code cls = seg)
    /\ List.length functions
       = List.length (filter Ast.is_function_def (Ast.preorder tree))
    /\ List.length classes
       = List.length (filter Ast.is_class_def (Ast.preorder tree)).
Proof.
  intros file_path content tree.
  exists (collect_functions file_path tree), (collect_classes file_path tree).
  split; [reflexivity|].
  assert (Hf : Permutation (collect_functions file_path tree)
                 (map (func_of_def file_path)
                      (filter Ast.is_function_def (Ast.preorder tree)))).
  { rewrite collect_functions_eq. apply map_filter_perm, walk_perm_preorder. }
  assert (Hc : Permutation (collect_classes file_path tree)
                 (map (class_of_def file_path)
                      (filter Ast.is_class_def (Ast.preorder tree)))).
  { rewrite collect_classes_eq. apply map_filter_perm, walk_perm_preorder. }
  split; [exact Hf|]. split; [exact Hc|]. split.
  - intros name lineno seg children Hin.
    exists (func_of_def file_path (Ast.FunctionDef name lineno seg children)).
    split; [|now split].
    eapply Permutation_in; [symmetry; exact Hf|].
    apply in_map, filter_In. now split.
  - split; [|split; [|split; [|split]]].
    + intros name seg children Hin.
      exists (class_of_def file_path (Ast.ClassDef name seg children)).
      split; [|now split].
      eapply Permutation_in; [symmetry; exact Hc|].
      apply in_map, filter_In. now split.
    + intros func Hin.
      apply (Permutation_in _ Hf) in Hin. apply in_map_iff in Hin.
      destruct Hin as [node [<- Hnode]]. apply filter_In in Hnode.
      destruct Hnode as [Hnode Hdef].
      destruct node as [b|nm ln s cs|nm s cs|v s|fn ln args|i c|v a c|cs];
        try discriminate.
      exists nm, ln, s, cs. now repeat split.
    + intros cls Hin.
      apply (Permutation_in _ Hc) in Hin. apply in_map_iff in Hin.
      destruct Hin as [node [<- Hnode]]. apply filter_In in Hnode.
      destruct Hnode as [Hnode Hdef].
      destruct node as [b|nm ln s cs|nm s cs|v s|fn ln args|i c|v a c|cs];
        try discriminate.
      exists nm, s, cs. now repeat split.
    + rewrite (Permutation_length Hf). apply length_map.
    + rewrite (Permutation_length Hc). apply length_map.
Qed.

Lemma parse_python_file_nested_definitions_witness :
  In run_in_a (Ast.preorder (Ast.Module
       [Ast.ClassDef "A" "class A:
    def run(self): return 1" [run_in_a];
        Ast.ClassDef "B" "class B:
    def run(self): return 2" [run_in_b]]))
  /\ exists functions classes func,
       parse_python_file (mkFile "/proj/twin.py" twin_state)
         = inr (functions, classes, "class A:
    def run(self): return 1
class B:
    def run(self): return 2")
       /\ In func functions
       /\ Func.name func = "run"
       /\ Func.code func = "def run(self): return 1".
Proof.
  assert (Hin : In run_in_a (Ast.preorder (Ast.Module
       [Ast.ClassDef "A" "class A:
    def run(self): return 1" [run_in_a];
        Ast.ClassDef "B" "class B:
    def run(self): return 2" [run_in_b]])))
    by (simpl; auto 10).
  split; [exact Hin|].
  destruct (parse_python_file_nested_definitions "/proj/twin.py"
              "class A:
    def run(self): return 1
class B:
    def run(self): return 2"
              (Ast.Module
       [Ast.ClassDef "A" "class A:
    def run(self): return 1" [run_in_a];
        Ast.ClassDef "B" "class B:
    def run(self): return 2" [run_in_b]]))
    as [functions [classes [Hparse [_ [_ [Hfun _]]]]]].
  destruct (Hfun "run" 2 "def run(self): return 1"
                 [Ast.Leaf; Ast.Return (Some Ast.Leaf) "return 1"] Hin)
    as [func [Hf [Hname Hcode]]].
  exists functions, classes, func. repeat split; assumption.
Defined.

(** ** The walk of the directory tree *)

Lemma skip_dirs_not_python (d : string) :
  Py.mem d skip_dirs = true -> Py.endswith d ".py" = false.
Proof.
  intros H. apply mem_In in H. unfold skip_dirs in H. simpl in H.
  repeat (destruct H as [<-|H]; [reflexivity|]). destruct H.
Qed.

(** X2.  An entry whose name is in [skip_dirs] contributes nothing to the
    walk, whatever it holds: [analyze_directory] returns and logs the same
    with the entry as without it, in the root and, since the walk of a
    sub-directory is the same function, at every depth. *)
Theorem skip_dirs_are_pruned :
  forall (root d : string) (e : entry) (before after : list (string * entry)),
    Py.mem d skip_dirs = true ->
    list_python_files root (Dir (before ++ (d, e) :: after))
      = list_python_files root (Dir (before ++ after))
    /\ analyze_directory root (Dir (before ++ (d, e) :: after))
       = analyze_directory root (Dir (before ++ after)).
Proof.
  intros root d e before after Hskip.
  assert (Hfiles : list_python_files root (Dir (before ++ (d, e) :: after))
                   = list_python_files root (Dir (before ++ after))).
  { cbn [list_python_files]. unfold py_files_here.
    rewrite !flat_map_app. cbn [flat_map].
    rewrite Hskip, (skip_dirs_not_python d Hskip).
    destruct e; reflexivity. }
  split; [exact Hfiles|].
  unfold analyze_directory. now rewrite Hfiles.
Qed.

Lemma skip_dirs_are_pruned_witness :
  Py.mem ".git" skip_dirs = true
  /\ analyze_directory "/proj"
       (Dir ([("util.py", File util_state)]
             ++ (".git", Dir [("hook.py", File main_state)])
             :: [("main.py", File main_state)]))
     = analyze_directory "/proj"
         (Dir ([("util.py", File util_state)] ++ [("main.py", File main_state)])).
Proof.
  assert (H : Py.mem ".git" skip_dirs = true) by reflexivity.
  split; [exact H|].
  exact (proj2 (skip_dirs_are_pruned "/proj" ".git"
                  (Dir [("hook.py", File main_state)])
                  [("util.py", File util_state)]
                  [("main.py", File main_state)] H)).
Defined.

Lemma entry_induction (P : entry -> Prop) :
  (forall st, P (File st)) ->
  P NoAccess ->
  (forall listing, Forall (fun ne => P (snd ne)) listing -> P (Dir listing)) ->
  forall e, P e.
Proof.
  intros Hfile Hnone Hdir. fix IH 1. intros [st|listing|].
  - apply Hfile.
  - apply Hdir. induction listing as [|[n e] l IHl]; constructor.
    + apply IH.
    + exact IHl.
  - apply Hnone.
Qed.

Lemma substring_skip (a b : string) (k m : nat) :
  substring (String.length a + k) m (a ++ b)%string = substring k m b.
Proof. induction a as [|c a IH]; simpl; [reflexivity|exact IH]. Qed.

Lemma endswith_append (a b suffix : string) :
  Py.endswith b suffix = true -> Py.endswith (a ++ b)%string suffix = true.
Proof.
  unfold Py.endswith. intros H. apply andb_true_iff in H.
  destruct H as [Hle Heq]. apply Nat.leb_le in Hle.
  rewrite string_length_append. apply andb_true_iff. split.
  - apply Nat.leb_le. lia.
  - replace (String.length a + String.length b - String.length suffix)
      with (String.length a + (String.length b - String.length suffix))
      by lia.
    now rewrite substring_skip.
Qed.

Lemma endswith_join (a b suffix : string) :
  Py.endswith b suffix = true -> Py.endswith (Py.join a b) suffix = true.
Proof.
  intros H. unfold Py.join.
  destruct (Py.startswith b "/"); [exact H|].
  destruct ((a =? "")%string || Py.endswith a "/").
  - now apply endswith_append.
  - now apply endswith_append, endswith_append.
Qed.

Lemma list_python_files_suffix (e : entry) :
  forall root f,
    In f (list_python_files root e) -> Py.endswith (path f) ".py" = true.
Proof.
  induction e as [st|  |listing IH] using entry_induction;
    intros root f Hin; try destruct Hin.
  cbn [list_python_files] in Hin. apply in_app_or in Hin.
  destruct Hin as [Hin|Hin].
  - unfold py_files_here in Hin. apply in_flat_map in Hin.
    destruct Hin as [[fn e] [_ Hin]].
    destruct e as [st|l|]; try destruct Hin.
    destruct (Py.endswith fn ".py") eqn:Hpy; [|destruct Hin].
    destruct Hin as [<-|[]]. simpl. now apply endswith_join.
  - apply in_flat_map in Hin. destruct Hin as [[d sub] [Hsub Hin]].
    rewrite Forall_forall in IH. specialize (IH _ Hsub). simpl in IH.
    destruct sub as [st|l|]; try destruct Hin;
      destruct (Py.mem d skip_dirs); try destruct Hin.
    eapply IH; eauto.
Qed.

Lemma cap_files_incl (files : list file) (f : file) :
  In f (cap_files files) -> In f files.
Proof.
  unfold cap_files. destruct (50 <? List.length files); [|auto].
  intros H. rewrite <- (firstn_skipn 50 files). apply in_or_app. now left.
Qed.

(** X3.  [analyze_directory] reads only files whose path ends in [.py]:
    every file that the walk collects, and so the file path of every node
    of a graph that it returns, ends in [.py]. *)
Theorem only_python_files_are_analyzed :
  forall (directory : string) (tree : entry),
    (forall f, In f (cap_files (list_python_files directory tree)) ->
               Py.endswith (path f) ".py" = true)
    /\ forall g n,
         fst (analyze_directory directory tree) = inr g ->
         In n (get_nodes g) ->
         Py.endswith (GNode.file_path n) ".py" = true.
Proof.
  intros directory tree.
  assert (Hfiles : forall f,
             In f (cap_files (list_python_files directory tree)) ->
             Py.endswith (path f) ".py" = true).
  { intros f Hin. eapply list_python_files_suffix.
    apply cap_files_incl. exact Hin. }
  split; [exact Hfiles|].
  intros g n Hg Hn. rewrite analyze_directory_result in Hg.
  destruct (graph_nodes_origin _ _ _ Hg) as [Hnodes _].
  destruct (Hnodes n Hn) as [f [Hf [_ ->]]]. now apply Hfiles.
Qed.

Lemma only_python_files_are_analyzed_witness :
  fst (analyze_directory "/proj" project_tree) = inr project_graph
  /\ In run_node (get_nodes project_graph)
  /\ Py.endswith (GNode.file_path run_node) ".py" = true.
Proof.
  assert (Hn : In run_node (get_nodes project_graph)) by (simpl; auto 10).
  split; [exact project_tree_graph|]. split; [exact Hn|].
  exact (proj2 (only_python_files_are_analyzed "/proj" project_tree)
               project_graph run_node project_tree_graph Hn).
Defined.

(** ** The shape of a built graph *)

Lemma member_nodes_of_file directory all_functions f :
  map (fun n => (GNode.file n, GNode.id n))
      (filter is_member_node (nodes_of_file directory all_functions f))
  = map (fun e => (Some (Edge.source e), Edge.target e))
        (edges_of_file directory f).
Proof.
  unfold nodes_of_file, edges_of_file.
  destruct (parse_python_file f) as [e|[[functions classes] content]];
    [reflexivity|].
  destruct (Py.truthy content); [|reflexivity].
  cbn [filter is_member_node is_file_node file_node GNode.type negb].
  rewrite filter_app, !map_app. f_equal.
  - induction functions as [|func functions IH]; [reflexivity|].
    cbn. now rewrite IH.
  - induction classes as [|cls classes IH]; [reflexivity|].
    cbn. now rewrite IH.
Qed.

(** X4.  In a graph that [analyze_directory] returns there is one edge per
    function or class node and none else: the edges, in order, go from the
    ['file'] of each member node to its id. *)
Theorem one_edge_per_member :
  forall (directory : string) (tree : entry) (g : Store.t),
    fst (analyze_directory directory tree) = inr g ->
    map (fun e => (Some (Edge.source e), Edge.target e)) (get_edges g)
      = map (fun n => (GNode.file n, GNode.id n))
            (filter is_member_node (get_nodes g))
    /\ List.length (get_edges g)
       = List.length (filter is_member_node (get_nodes g)).
Proof.
  intros directory tree g Hg.
  rewrite analyze_directory_result, build_graph_eq in Hg.
  destruct (first_error _); [discriminate|].
  injection Hg as <-. unfold get_edges, get_nodes, graph.
  cbn [Store.nodes Store.edges].
  assert (H : forall af files,
             map (fun e => (Some (Edge.source e), Edge.target e))
                 (flat_map (edges_of_file directory) files)
             = map (fun n => (GNode.file n, GNode.id n))
                   (filter is_member_node
                           (flat_map (nodes_of_file directory af) files))).
  { intros af files. induction files as [|f files IH]; [reflexivity|].
    cbn [flat_map]. rewrite filter_app, !map_app, IH.
    now rewrite <- (member_nodes_of_file directory af f). }
  match goal with
  | |- context [flat_map (nodes_of_file directory ?af) ?files] =>
      pose proof (H af files) as Heq
  end.
  split; [exact Heq|].
  apply (f_equal (@List.length _)) in Heq.
  now rewrite !length_map in Heq.
Qed.

Lemma one_edge_per_member_witness :
  fst (analyze_directory "/proj" project_tree) = inr project_graph
  /\ List.length (get_edges project_graph)
     = List.length (filter is_member_node (get_nodes project_graph)).
Proof.
  split; [exact project_tree_graph|].
  exact (proj2 (one_edge_per_member "/proj" project_tree project_graph
                                    project_tree_graph)).
Defined.





(** ** Callers and the nodes of the graph *)

(** The keys of [all_functions] after the first pass are ids of functions
    of files that parsed with content. *)
Lemma first_pass_keys_origin directory files k :
  In k (map fst (first_pass directory files)) ->
  exists f functions classes content func,
    In f files
    /\ parse_python_file f = inr (functions, classes, content)
    /\ Py.truthy content = true
    /\ In func functions
    /\ k = make_id (rel_name_of directory f) (Func.name func).
Proof.
  unfold first_pass.
  assert (H : forall (all_functions : all_functions_t),
             In k (map fst (fold_left (first_pass_file directory) files
                                      all_functions)) ->
             In k (map fst all_functions)
             \/ exists f functions classes content func,
                  In f files
                  /\ parse_python_file f = inr (functions, classes, content)
                  /\ Py.truthy content = true
                  /\ In func functions
                  /\ k = make_id (rel_name_of directory f) (Func.name func)).
  { induction files as [|f files IH]; intros all_functions Hk; simpl in Hk;
      [now left|].
    destruct (IH _ Hk) as [Hin|[f' [fs [cs [c [func [Hf' Hrest]]]]]]].
    - unfold first_pass_file in Hin.
      destruct (parse_python_file f) as [e|[[functions classes] content]]
        eqn:Hparse; [now left|].
      destruct (Py.truthy content) eqn:Hc; simpl in Hin; [|now left].
      apply register_functions_keys in Hin.
      destruct Hin as [Hin|[func [Hfunc ->]]]; [now left|].
      right. exists f, functions, classes, content, func.
      repeat split; auto. now left.
    - right. exists f', fs, cs, c, func. split; [now right|exact Hrest]. }
  intros Hk. destruct (H [] Hk) as [[]|Hex]. exact Hex.
Qed.

Lemma discovered_callers_known directory files known name c :
  In c (discovered_callers directory files known name) -> In c known.
Proof.
  unfold discovered_callers. intros Hin.
  apply in_flat_map in Hin. destruct Hin as [f [_ Hin]].
  destruct (state f) as [m|m|x m|x e|content tree]; try destruct Hin.
  apply in_flat_map in Hin. destruct Hin as [node [_ Hin]].
  unfold caller_at in Hin.
  destruct node as [b|nm ln s cs|nm s cs|v s|fn ln args|i x|v a x|cs];
    try destruct Hin.
  destruct (call_name fn) as [func_name|]; [|destruct Hin].
  destruct (Py.truthy func_name && (name =? func_name)%string);
    [|destruct Hin].
  destruct (find_current_func _ ln) as [current_func|]; [|destruct Hin].
  destruct (Py.truthy current_func) eqn:Ht; simpl in Hin; [|destruct Hin].
  destruct (Py.mem (make_id (rel_name_of directory f) current_func) known)
    eqn:Hm; [|destruct Hin].
  destruct Hin as [<-|[]]. now apply mem_In.
Qed.

(** X6.  Every caller listed in the [called_by] of a node of a built graph
    is the id of a function node of that graph: the call resolver records
    no caller that the graph does not hold. *)
Theorem callers_are_nodes :
  forall (directory : string) (tree : entry) (g : Store.t)
         (n : GNode.t) (callers : list string) (caller : string),
    fst (analyze_directory directory tree) = inr g ->
    In n (get_nodes g) ->
    GNode.called_by n = Some callers ->
    In caller callers ->
    exists m, In m (get_nodes g)
              /\ GNode.type m = type_function
              /\ GNode.id m = caller.
Proof.
  intros directory tree g n callers caller Hg Hn Hcb Hcaller.
  rewrite analyze_directory_result, build_graph_eq in Hg.
  set (files := cap_files (list_python_files directory tree)) in *.
  destruct (first_error files); [discriminate|].
  injection Hg as <-. unfold get_nodes, graph in *.
  cbn [Store.nodes] in *.
  set (af := second_pass directory files (first_pass directory files)) in *.
  apply in_flat_map in Hn. destruct Hn as [f [Hf Hn]].
  assert (Htype : GNode.type n = type_function).
  { unfold nodes_of_file in Hn.
    destruct (parse_python_file f) as [e|[[functions classes] content]];
      [destruct Hn|].
    destruct (Py.truthy content); [|destruct Hn].
    destruct Hn as [<-|Hn]; [discriminate|].
    apply in_app_or in Hn. destruct Hn as [Hn|Hn];
      apply in_map_iff in Hn; destruct Hn as [x [<- _]];
      [reflexivity|discriminate]. }
  destruct (function_node_record directory files f n Hf Hn Htype)
    as [r [Hr [Hcb' _]]].
  rewrite Hcb in Hcb'. injection Hcb' as ->.
  fold af in Hr. unfold af in Hr. rewrite second_pass_eq in Hr.
  apply in_extend in Hr. destruct Hr as [r0 [Hr0 [_ Hr]]].
  pose proof (first_pass_called_by directory files) as Hnil.
  rewrite Forall_forall in Hnil. specialize (Hnil _ Hr0). simpl in Hnil.
  rewrite Hr, Hnil in Hcaller.
  apply fold_add_unique_In in Hcaller. destruct Hcaller as [[]|Hcaller].
  apply discovered_callers_known in Hcaller.
  apply first_pass_keys_origin in Hcaller.
  destruct Hcaller as [f' [fs [cs [c [func [Hf' [Hparse [Hc [Hfunc ->]]]]]]]]].
  exists (function_node (rel_name_of directory f') (path f') af func).
  split; [|now split].
  apply in_flat_map. exists f'. split; [assumption|].
  unfold nodes_of_file. rewrite Hparse, Hc. right.
  apply in_or_app. left. now apply in_map.
Qed.

Lemma callers_are_nodes_witness :
  fst (analyze_directory "/proj" project_tree) = inr project_graph
  /\ In helper_node (get_nodes project_graph)
  /\ GNode.called_by helper_node = Some ["main.py::run"]
  /\ exists m, In m (get_nodes project_graph)
               /\ GNode.type m = type_function
               /\ GNode.id m = "main.py::run".
Proof.
  assert (Hn : In helper_node (get_nodes project_graph)) by (simpl; auto 10).
  split; [exact project_tree_graph|]. split; [exact Hn|].
  split; [reflexivity|].
  exact (callers_are_nodes "/proj" project_tree project_graph helper_node
           ["main.py::run"] "main.py::run" project_tree_graph Hn eq_refl
           (or_introl eq_refl)).
Defined.

(** ** Trees without content, and the length of the log *)




Lemma length_flat_map_le {A B : Type} (h : A -> list B) (k : nat)
      (l : list A) :
  (forall x, List.length (h x) <= k) ->
  List.length (flat_map h l) <= k * List.length l.
Proof.
  intros H. induction l as [|x l IH]; simpl; [lia|].
  rewrite length_app. specialize (H x). lia.
Qed.

Lemma third_pass_log_length directory n ifiles :
  List.length (third_pass_log directory n ifiles) <= List.length ifiles.
Proof.
  induction ifiles as [|[i f] l IH]; simpl; [lia|].
  destruct (parse_python_file f); simpl; lia.
Qed.

Lemma cap_files_length (files : list file) :
  List.length (cap_files files) <= 50.
Proof.
  unfold cap_files. destruct (50 <? List.length files) eqn:H.
  - rewrite length_firstn. lia.
  - apply Nat.ltb_ge in H. exact H.
Qed.

(** X8.  One run of [analyze_directory] logs at most 255 entries, whatever
    the size of the tree: the file-count ceiling bounds the log. *)
Theorem analyze_directory_log_bound :
  forall (directory : string) (tree : entry),
    List.length (snd (analyze_directory directory tree)) <= 255.
Proof.
  intros directory tree. unfold analyze_directory. cbn [snd].
  set (files := cap_files (list_python_files directory tree)).
  assert (Hn : List.length (Py.enumerate files) <= 50).
  { unfold Py.enumerate. rewrite length_combine, length_seq, Nat.min_id.
    apply cap_files_length. }
  rewrite !length_app. cbn [List.length].
  pose proof (length_flat_map_le
                (first_pass_log directory (List.length files)) 2
                (Py.enumerate files)) as H1.
  pose proof (length_flat_map_le
                (second_pass_log directory (List.length files)) 2
                (Py.enumerate files)) as H2.
  pose proof (third_pass_log_length directory (List.length files)
                (Py.enumerate files)) as H3.
  assert (Hc : List.length (cap_log (list_python_files directory tree)) <= 1).
  { unfold cap_log. destruct (50 <? _); simpl; lia. }
  assert (H1' : forall x,
             List.length (first_pass_log directory (List.length files) x)
             <= 2).
  { intros [i f]. unfold first_pass_log.
    destruct (parse_python_file f) as [e|[[fs cs] c]]; simpl; [lia|].
    destruct (negb (Py.truthy c)); simpl; lia. }
  assert (H2' : forall x,
             List.length (second_pass_log directory (List.length files) x)
             <= 2).
  { intros [i f]. unfold second_pass_log.
    destruct (second_pass_error f); simpl; lia. }
  specialize (H1 H1'). specialize (H2 H2'). lia.
Qed.

(** ** Repeated and first merges *)

Lemma reanalyze_file_eq f d :
  has_content f = true ->
  let filename := Py.basename (path f) in
  fst (reanalyze_file f d) =
  graph (filter (fun n => negb (stale_node filename n)) (fst (loaded_lists d))
         ++ fresh_nodes f)
        (filter (fun e => negb (edge_from filename e)) (snd (loaded_lists d))
         ++ fresh_edges f).
Proof.
  intros Hc filename. unfold has_content in Hc.
  destruct (parse_python_file f) as [e|[[functions classes] content]]
    eqn:Hparse; [discriminate|].
  transitivity (fst (reanalyze_file f (graph (fst (loaded_lists d))
                                             (snd (loaded_lists d))))).
  - unfold reanalyze_file, loaded_lists. rewrite Hparse, Hc.
    destruct d as [[nodes|] [edges|]]; reflexivity.
  - rewrite (reanalyze_file_merge f _ _ functions classes content Hparse Hc).
    unfold fresh_nodes, fresh_edges, edge_from. rewrite Hparse.
    reflexivity.
Qed.

Lemma fresh_nodes_stale f n :
  In n (fresh_nodes f) -> stale_node (Py.basename (path f)) n = true.
Proof.
  unfold fresh_nodes.
  destruct (parse_python_file f) as [e|[[functions classes] content]];
    [intros []|].
  intros [<-|Hin].
  - unfold stale_node, file_node. simpl. apply String.eqb_refl.
  - apply in_app_or in Hin. destruct Hin as [Hin|Hin];
      apply in_map_iff in Hin; destruct Hin as [x [<- _]];
      unfold stale_node; simpl; now rewrite String.eqb_refl.
Qed.

Lemma fresh_edges_source f e :
  In e (fresh_edges f) -> edge_from (Py.basename (path f)) e = true.
Proof.
  unfold fresh_edges, edge_from.
  destruct (parse_python_file f) as [x|[[functions classes] content]];
    [intros []|].
  intros Hin. apply in_app_or in Hin. destruct Hin as [Hin|Hin];
    apply in_map_iff in Hin; destruct Hin as [x [<- _]];
    simpl; apply String.eqb_refl.
Qed.

Lemma filter_all {A : Type} (p : A -> bool) (l : list A) :
  (forall x, In x l -> p x = true) -> filter p l = l.
Proof.
  induction l as [|x l IH]; intros H; simpl; [reflexivity|].
  rewrite (H x) by now left. f_equal. apply IH.
  intros y Hy. apply H. now right.
Qed.

Lemma filter_negb_filter {A : Type} (p : A -> bool) (l : list A) :
  filter p (filter (fun x => negb (p x)) l) = [].
Proof.
  apply filter_none. intros x Hx. apply filter_In in Hx.
  destruct Hx as [_ Hx]. now destruct (p x).
Qed.

Lemma filter_idem {A : Type} (p : A -> bool) (l : list A) :
  filter p (filter p l) = filter p l.
Proof.
  apply filter_all. intros x Hx. apply filter_In in Hx. tauto.
Qed.

(** X9.  [reanalyze_file] is idempotent: a second merge of the same file
    leaves [directory_data] as the first merge left it, whatever the store
    held before; the merge replaces and never accumulates. *)
Theorem reanalyze_file_idempotent :
  forall (f : file) (directory_data : Store.t),
    fst (reanalyze_file f (fst (reanalyze_file f directory_data)))
    = fst (reanalyze_file f directory_data).
Proof.
  intros f d. destruct (has_content f) eqn:Hc.
  - rewrite (reanalyze_file_eq f (fst (reanalyze_file f d)) Hc).
    rewrite (reanalyze_file_eq f d Hc). cbn [loaded_lists graph
      Store.nodes Store.edges fst snd].
    rewrite !filter_app, !filter_idem.
    rewrite (filter_none _ (fresh_nodes f))
      by (intros n Hn; now rewrite (fresh_nodes_stale f n Hn)).
    rewrite (filter_none _ (fresh_edges f))
      by (intros e He; now rewrite (fresh_edges_source f e He)).
    now rewrite !app_nil_r.
  - destruct (reanalyze_file_no_content f d Hc) as [-> _].
    now destruct (reanalyze_file_no_content f d Hc) as [-> _].
Qed.

Lemma make_id_longer (a x : string) : make_id a x <> a.
Proof.
  unfold make_id. intros H. apply (f_equal String.length) in H.
  rewrite !string_length_append in H. simpl in H. lia.
Qed.

(** X10.  After a merge of a file that parses with content, the nodes that
    belong to its base name (by id or by ['file']) are exactly the freshly
    parsed ones, in order, and the edges from it are exactly the fresh
    ones; there is one node whose id is the base name; and every function
    node of the file has an empty [called_by]: the merge drops the callers
    that the build had found. *)
Theorem reanalyze_file_owns_fresh_nodes :
  forall (f : file) (directory_data : Store.t),
    has_content f = true ->
    let filename := Py.basename (path f) in
    let merged := fst (reanalyze_file f directory_data) in
    filter (stale_node filename) (get_nodes merged) = fresh_nodes f
    /\ filter (edge_from filename) (get_edges merged) = fresh_edges f
    /\ List.length (filter (fun n => (GNode.id n =? filename)%string)
                           (get_nodes merged)) = 1
    /\ forall n, In n (get_nodes merged) ->
                 GNode.file n = Some filename ->
                 GNode.type n = type_function ->
                 GNode.called_by n = Some [].
Proof.
  intros f d Hc filename merged.
  assert (Hm : merged =
               graph (filter (fun n => negb (stale_node filename n))
                             (fst (loaded_lists d)) ++ fresh_nodes f)
                     (filter (fun e => negb (edge_from filename e))
                             (snd (loaded_lists d)) ++ fresh_edges f))
    by now apply reanalyze_file_eq.
  assert (Hstale : filter (stale_node filename) (get_nodes merged)
                   = fresh_nodes f).
  { rewrite Hm. unfold get_nodes, graph. cbn [Store.nodes].
    rewrite filter_app, filter_negb_filter, app_nil_l.
    apply filter_all. apply fresh_nodes_stale. }
  split; [exact Hstale|]. split; [|split].
  - rewrite Hm. unfold get_edges, graph. cbn [Store.edges].
    rewrite filter_app, filter_negb_filter, app_nil_l.
    apply filter_all. apply fresh_edges_source.
  - rewrite Hm. unfold get_nodes, graph. cbn [Store.nodes].
    rewrite filter_app, length_app.
    rewrite filter_none.
    + unfold fresh_nodes, has_content in *.
      destruct (parse_python_file f) as [e|[[functions classes] content]];
        [discriminate|].
      cbn [filter file_node GNode.id]. fold filename.
      rewrite String.eqb_refl. cbn [List.length]. rewrite filter_none;
        [reflexivity|].
      intros n Hn. apply String.eqb_neq.
      apply in_app_or in Hn. destruct Hn as [Hn|Hn];
        apply in_map_iff in Hn; destruct Hn as [x [<- _]];
        apply make_id_longer.
    + intros n Hn. apply filter_In in Hn. destruct Hn as [_ Hn].
      unfold stale_node in Hn. apply negb_true_iff in Hn.
      apply orb_false_iff in Hn. tauto.
  - intros n Hn Hfile Htype.
    assert (Hin : In n (fresh_nodes f)).
    { rewrite <- Hstale. apply filter_In. split; [exact Hn|].
      unfold stale_node. rewrite Hfile, String.eqb_refl. reflexivity. }
    unfold fresh_nodes in Hin.
    destruct (parse_python_file f) as [e|[[functions classes] content]];
      [destruct Hin|].
    destruct Hin as [<-|Hin]; [discriminate|].
    apply in_app_or in Hin. destruct Hin as [Hin|Hin];
      apply in_map_iff in Hin; destruct Hin as [x [<- _]];
      [reflexivity|discriminate].
Qed.

Lemma reanalyze_file_owns_fresh_nodes_witness :
  has_content (mkFile "/proj/util.py" util_state) = true
  /\ List.length
       (filter (fun n => (GNode.id n =? "util.py")%string)
               (get_nodes (fst (reanalyze_file
                                  (mkFile "/proj/util.py" util_state)
                                  project_graph)))) = 1
  /\ (In helper_node (get_nodes project_graph)
      /\ GNode.called_by helper_node = Some ["main.py::run"])
  /\ forall n,
       In n (get_nodes (fst (reanalyze_file
                               (mkFile "/proj/util.py" util_state)
                               project_graph))) ->
       GNode.file n = Some "util.py" ->
       GNode.type n = type_function ->
       GNode.called_by n = Some [].
Proof.
  assert (Hc : has_content (mkFile "/proj/util.py" util_state) = true)
    by reflexivity.
  destruct (reanalyze_file_owns_fresh_nodes
              (mkFile "/proj/util.py" util_state) project_graph Hc)
    as [_ [_ [Hone Hcallers]]].
  split; [exact Hc|]. split; [exact Hone|].
  split; [split; [simpl; auto 10|reflexivity]|].
  exact Hcallers.
Defined.

(** X11.  A merge of a file that parses with content always leaves a store
    with both keys.  On a store that lacks ['nodes'] or ['edges'], the
    initial [{}] in particular, both lists are started afresh: the result
    holds the nodes and the edges of the merged file and nothing else. *)
Theorem reanalyze_file_on_unloaded_store :
  forall (f : file) (directory_data : Store.t),
    has_content f = true ->
    (exists nodes edges,
        fst (reanalyze_file f directory_data) = graph nodes edges)
    /\ (Store.nodes directory_data = None
        \/ Store.edges directory_data = None ->
        fst (reanalyze_file f directory_data)
        = graph (fresh_nodes f) (fresh_edges f))
    /\ fst (reanalyze_file f initial_directory_data)
       = graph (fresh_nodes f) (fresh_edges f).
Proof.
  intros f d Hc. split; [|split].
  - rewrite (reanalyze_file_eq f d Hc). eauto.
  - intros Hmissing. rewrite (reanalyze_file_eq f d Hc).
    assert (Hl : loaded_lists d = ([], [])).
    { unfold loaded_lists. destruct Hmissing as [-> | Hm].
      - reflexivity.
      - rewrite Hm. now destruct (Store.nodes d). }
    now rewrite Hl.
  - now rewrite (reanalyze_file_eq f initial_directory_data Hc).
Qed.

Lemma reanalyze_file_on_unloaded_store_witness :
  has_content (mkFile "/proj/util.py" util_state) = true
  /\ (Store.nodes (Store.mk (Some [main_file_node; run_node]) None) = None
      \/ Store.edges (Store.mk (Some [main_file_node; run_node]) None) = None)
  /\ map GNode.id
         (get_nodes (fst (reanalyze_file
                            (mkFile "/proj/util.py" util_state)
                            (Store.mk (Some [main_file_node; run_node])
                                      None))))
     = ["util.py"; "util.py::helper"].
Proof.
  assert (Hc : has_content (mkFile "/proj/util.py" util_state) = true)
    by reflexivity.
  assert (Hm : Store.nodes (Store.mk (Some [main_file_node; run_node]) None)
               = None
               \/ Store.edges (Store.mk (Some [main_file_node; run_node])
                                        None) = None)
    by (right; reflexivity).
  destruct (reanalyze_file_on_unloaded_store
              (mkFile "/proj/util.py" util_state)
              (Store.mk (Some [main_file_node; run_node]) None) Hc)
    as [_ [Hreset _]].
  split; [exact Hc|]. split; [exact Hm|].
  rewrite (Hreset Hm). reflexivity.
Defined.

(** ** Files directly under the root *)

Lemma string_append_assoc (a b c : string) :
  ((a ++ b) ++ c)%string = (a ++ b ++ c)%string.
Proof. induction a as [|x a IH]; simpl; [reflexivity|now rewrite IH]. Qed.

Lemma prefix_append (a b : string) : String.prefix a (a ++ b)%string = true.
Proof.
  induction a as [|x a IH]; simpl.
  - now destruct b.
  - destruct (ascii_dec x x); [exact IH|contradiction].
Qed.

Lemma substring_whole (b : string) : substring 0 (String.length b) b = b.
Proof. induction b as [|x b IH]; simpl; [reflexivity|now rewrite IH]. Qed.

Lemma basename_no_slash (fn : string) :
  Py.has_slash fn = false -> Py.basename fn = fn.
Proof. destruct fn as [|c fn]; [reflexivity|]. intros H. simpl in *. now rewrite H. Qed.

Lemma has_slash_append (a b : string) :
  Py.has_slash (a ++ b)%string = Py.has_slash a || Py.has_slash b.
Proof.
  induction a as [|c a IH]; simpl; [reflexivity|].
  rewrite IH. now rewrite orb_assoc.
Qed.

Lemma basename_after_slash (a fn : string) :
  Py.has_slash fn = false -> Py.basename (a ++ "/" ++ fn)%string = fn.
Proof.
  intros H. induction a as [|c a IH].
  - change (Py.basename (String "/" fn) = fn).
    cbn [Py.basename Py.has_slash]. simpl. now apply basename_no_slash.
  - change (Py.basename (String c (a ++ "/" ++ fn)) = fn).
    cbn [Py.basename].
    assert (Hs : Py.has_slash (String c (a ++ "/" ++ fn)) = true).
    { cbn [Py.has_slash]. rewrite has_slash_append. simpl.
      now rewrite !orb_true_r. }
    rewrite Hs. exact IH.
Qed.

Lemma no_slash_no_slash_prefix (fn : string) :
  Py.has_slash fn = false -> Py.startswith fn "/" = false.
Proof.
  unfold Py.startswith. destruct fn as [|c fn]; [reflexivity|].
  cbn [Py.has_slash]. intros H. apply orb_false_iff in H.
  destruct H as [H _]. cbn [String.prefix].
  destruct (ascii_dec "/" c) as [<-|Hneq]; [discriminate|reflexivity].
Qed.

Lemma relpath_below (directory rest : string) :
  Py.endswith directory "/" = false ->
  Py.relpath (directory ++ "/" ++ rest) directory = rest.
Proof.
  intros H. unfold Py.relpath. rewrite H. unfold Py.startswith.
  rewrite <- string_append_assoc.
  generalize (directory ++ "/")%string as start. intros start.
  rewrite prefix_append, (string_length_append start rest).
  replace (String.length start + String.length rest - String.length start)
    with (String.length rest) by lia.
  rewrite <- (Nat.add_0_r (String.length start)) at 1.
  rewrite substring_skip. apply substring_whole.
Qed.

(** The path and the two names of a file directly under the root. *)
Lemma root_file_names (directory fn : string) (st : file_state) :
  Py.endswith directory "/" = false ->
  Py.has_slash fn = false ->
  Py.replace_backslash fn = fn ->
  Py.basename (Py.join directory fn) = fn
  /\ rel_name_of directory (mkFile (Py.join directory fn) st) = fn.
Proof.
  intros Hdir Hfn Hback. unfold rel_name_of, Py.join. cbn [path].
  rewrite (no_slash_no_slash_prefix fn Hfn), Hdir, orb_false_r.
  destruct (String.eqb_spec directory "") as [->|Hne].
  - simpl. split; [now apply basename_no_slash|].
    unfold Py.relpath. simpl.
    rewrite (no_slash_no_slash_prefix fn Hfn). exact Hback.
  - split; [now apply basename_after_slash|].
    now rewrite relpath_below.
Qed.

(** X12.  For a file directly under the root, in a root given without a
    trailing slash and with no backslash in the file name, the key of the
    merge (the base name) is the id that the build gives the file (the
    relative name); so the merge removes every node and every edge that the
    build made for that file. *)
Theorem root_file_merge_key :
  forall (directory fn : string) (built_state changed_state : file_state)
         (all_functions : all_functions_t),
    Py.endswith directory "/" = false ->
    Py.has_slash fn = false ->
    Py.replace_backslash fn = fn ->
    let built_file := mkFile (Py.join directory fn) built_state in
    let changed_file := mkFile (Py.join directory fn) changed_state in
    let filename := Py.basename (path changed_file) in
    filename = rel_name_of directory built_file
    /\ (forall n, In n (nodes_of_file directory all_functions built_file) ->
                  stale_node filename n = true)
    /\ (forall e, In e (edges_of_file directory built_file) ->
                  edge_from filename e = true).
Proof.
  intros directory fn st st' af Hdir Hfn Hback built_file changed_file
         filename.
  destruct (root_file_names directory fn st Hdir Hfn Hback) as [Hbase Hrel].
  assert (Hkey : filename = rel_name_of directory built_file).
  { unfold filename, changed_file, built_file. cbn [path].
    now rewrite Hbase, Hrel. }
  split; [exact Hkey|]. split.
  - intros n Hn. unfold stale_node. rewrite Hkey.
    destruct (member_nodes_not_file _ _ _ _ Hn) as [->|[_ [_ Hfile]]].
    + unfold file_node_of, file_node. simpl.
      now rewrite String.eqb_refl.
    + now rewrite Hfile, String.eqb_refl.
  - intros e He. unfold edge_from. rewrite Hkey.
    destruct (edges_of_file_origin _ _ _ He) as [_ ->].
    apply String.eqb_refl.
Qed.

Lemma root_file_merge_key_witness :
  Py.endswith "/proj" "/" = false
  /\ Py.has_slash "util.py" = false
  /\ Py.replace_backslash "util.py" = "util.py"
  /\ Py.basename (path (mkFile (Py.join "/proj" "util.py") bad_syntax_state))
     = rel_name_of "/proj" (mkFile (Py.join "/proj" "util.py") util_state)
  /\ stale_node "util.py" helper_node = true.
Proof.
  destruct (root_file_merge_key "/proj" "util.py" util_state bad_syntax_state
              (second_pass "/proj"
                 (cap_files (list_python_files "/proj" project_tree))
                 (first_pass "/proj"
                    (cap_files (list_python_files "/proj" project_tree))))
              eq_refl eq_refl eq_refl) as [Hkey [Hnodes _]].
  split; [reflexivity|]. split; [reflexivity|]. split; [reflexivity|].
  split; [exact Hkey|].
  apply (Hnodes helper_node). vm_compute. auto 10.
Defined.

Lemma contains_char_append (c : ascii) (a b : string) :
  contains_char c (a ++ b)%string = contains_char c a || contains_char c b.
Proof.
  induction a as [|x a IH]; simpl; [reflexivity|].
  rewrite IH. now rewrite orb_assoc.
Qed.

Lemma make_id_has_colon (a x : string) :
  contains_char ":" (make_id a x) = true.
Proof.
  unfold make_id. rewrite contains_char_append. simpl.
  now rewrite orb_true_r.
Qed.

Lemma flat_map_filter {A B : Type} (p : A -> bool) (h : A -> list B)
      (l : list A) :
  flat_map h (filter p l) = flat_map (fun x => if p x then h x else []) l.
Proof.
  induction l as [|x l IH]; simpl; [reflexivity|].
  destruct (p x); simpl; now rewrite IH.
Qed.

Lemma other_file_nodes_kept directory all_functions f fn :
  contains_char ":" fn = false ->
  filter (fun n => negb (stale_node fn n))
         (nodes_of_file directory all_functions f)
  = if negb (rel_name_of directory f =? fn)%string
    then nodes_of_file directory all_functions f else [].
Proof.
  intros Hcolon.
  destruct (String.eqb_spec (rel_name_of directory f) fn) as [Heq|Hneq];
    simpl.
  - apply filter_none. intros n Hn. apply negb_false_iff.
    unfold stale_node.
    destruct (member_nodes_not_file _ _ _ _ Hn) as [->|[_ [_ Hfile]]].
    + unfold file_node_of, file_node. simpl. rewrite Heq.
      apply String.eqb_refl.
    + rewrite Hfile, Heq, String.eqb_refl. reflexivity.
  - apply filter_all. intros n Hn. apply negb_true_iff.
    unfold stale_node.
    destruct (member_nodes_not_file _ _ _ _ Hn) as [->|[_ [Hid Hfile]]].
    + unfold file_node_of, file_node. simpl. now apply String.eqb_neq.
    + rewrite Hfile.
      apply String.eqb_neq in Hneq. rewrite Hneq. simpl.
      apply String.eqb_neq. intros Heq. rewrite Hid in Heq.
      pose proof (make_id_has_colon (rel_name_of directory f) (GNode.name n))
        as Hc.
      rewrite Heq in Hc. congruence.
Qed.

Lemma other_file_edges_kept directory f fn :
  filter (fun e => negb (edge_from fn e)) (edges_of_file directory f)
  = if negb (rel_name_of directory f =? fn)%string
    then edges_of_file directory f else [].
Proof.
  destruct (String.eqb_spec (rel_name_of directory f) fn) as [Heq|Hneq];
    simpl.
  - apply filter_none. intros e He. apply negb_false_iff. unfold edge_from.
    destruct (edges_of_file_origin _ _ _ He) as [_ ->].
    rewrite Heq. apply String.eqb_refl.
  - apply filter_all. intros e He. apply negb_true_iff. unfold edge_from.
    destruct (edges_of_file_origin _ _ _ He) as [_ ->].
    now apply String.eqb_neq.
Qed.

(** X13.  The merge replaces and does not append, for a file directly
    under the root: after a build, the merge of such a file (root without
    trailing slash, file name without backslash and without colon) leaves
    the nodes and the edges that the build made for the files of every
    other relative name untouched and in order, removes those of the file
    itself, and appends the freshly parsed ones. *)
Theorem merge_after_build_replaces :
  forall (directory fn : string) (tree : entry) (g : Store.t)
         (changed_state : file_state),
    fst (analyze_directory directory tree) = inr g ->
    Py.endswith directory "/" = false ->
    Py.has_slash fn = false ->
    Py.replace_backslash fn = fn ->
    contains_char ":" fn = false ->
    let changed := mkFile (Py.join directory fn) changed_state in
    has_content changed = true ->
    let files := cap_files (list_python_files directory tree) in
    let others :=
      filter (fun f => negb (rel_name_of directory f =? fn)%string) files in
    let all_functions :=
      second_pass directory files (first_pass directory files) in
    fst (reanalyze_file changed (set_directory_data g))
    = graph (flat_map (nodes_of_file directory all_functions) others
             ++ fresh_nodes changed)
            (flat_map (edges_of_file directory) others
             ++ fresh_edges changed).
Proof.
  intros directory fn tree g st' Hg Hdir Hslash Hback Hcolon changed Hc
         files others all_functions.
  rewrite analyze_directory_result, build_graph_eq in Hg. fold files in Hg.
  destruct (first_error files); [discriminate|].
  injection Hg as <-. fold all_functions.
  rewrite (reanalyze_file_eq changed _ Hc).
  unfold set_directory_data, loaded_lists, graph.
  cbn [Store.nodes Store.edges fst snd].
  assert (Hname : Py.basename (path changed) = fn).
  { unfold changed. cbn [path].
    now destruct (root_file_names directory fn st' Hdir Hslash Hback). }
  rewrite Hname.
  assert (Hn : filter (fun n => negb (stale_node fn n))
                      (flat_map (nodes_of_file directory all_functions) files)
               = flat_map (nodes_of_file directory all_functions) others).
  { rewrite filter_flat_map. unfold others.
    rewrite flat_map_filter. apply flat_map_ext. intros f.
    now apply other_file_nodes_kept. }
  assert (He : filter (fun e => negb (edge_from fn e))
                      (flat_map (edges_of_file directory) files)
               = flat_map (edges_of_file directory) others).
  { rewrite filter_flat_map. unfold others.
    rewrite flat_map_filter. apply flat_map_ext. intros f.
    apply other_file_edges_kept. }
  now rewrite Hn, He.
Qed.

Lemma merge_after_build_replaces_witness :
  fst (analyze_directory "/proj" project_tree) = inr project_graph
  /\ has_content (mkFile (Py.join "/proj" "util.py") f_state) = true
  /\ map GNode.id
         (get_nodes
            (fst (reanalyze_file (mkFile (Py.join "/proj" "util.py") f_state)
                                 (set_directory_data project_graph))))
     = ["main.py"; "main.py::run"; "util.py"; "util.py::f"].
Proof.
  assert (Hc : has_content (mkFile (Py.join "/proj" "util.py") f_state)
               = true) by reflexivity.
  split; [exact project_tree_graph|]. split; [exact Hc|].
  rewrite (merge_after_build_replaces "/proj" "util.py" project_tree
             project_graph f_state project_tree_graph
             eq_refl eq_refl eq_refl eq_refl Hc).
  vm_compute. reflexivity.
Defined.

(** ** [execute_commands] *)

Section ExecuteCommands.

Context {FS : Type} `{FileSystem FS}.

Lemma execute_command_results base_directory results fs out cmd :
  exists message,
    fst (fst (execute_command base_directory (results, fs, out) cmd))
    = results ++ (if handled cmd then [message] else []).
Proof.
  unfold execute_command, handled.
  destruct (Cmd.type cmd =? "create_file")%string; simpl.
  - destruct (create_text fs _ _) as [fs' [e|]]; eexists; reflexivity.
  - destruct (Cmd.type cmd =? "modify_file")%string.
    + destruct (read_text fs _) as [e|content]; [eexists; reflexivity|].
      destruct (negb (str_contains _ content)); [eexists; reflexivity|].
      destruct (write_text fs _ _) as [fs' [e|]]; eexists; reflexivity.
    + exists "". simpl. now rewrite app_nil_r.
Qed.

Lemma execute_commands_fold_length base_directory commands :
  forall st : exec_state FS,
    List.length
      (fst (fst (fold_left (execute_command base_directory) commands st)))
    = List.length (fst (fst st)) + List.length (filter handled commands).
Proof.
  induction commands as [|cmd commands IH]; intros [[results fs] out];
    [simpl; lia|].
  cbn [fold_left filter]. rewrite IH.
  destruct (execute_command_results base_directory results fs out cmd)
    as [message ->].
  rewrite length_app. cbn [fst]. destruct (handled cmd); simpl; lia.
Qed.

(** X14.  [execute_commands] returns one result line for each command of
    type [create_file] or [modify_file], whether the command succeeds,
    fails or raises, and none for a command of another type. *)
Theorem execute_commands_one_result_each :
  forall (commands : list Cmd.t) (base_directory : string) (fs : FS),
    List.length (fst (fst (execute_commands commands base_directory fs)))
    = List.length (filter handled commands).
Proof.
  intros commands base_directory fs. unfold execute_commands.
  now rewrite execute_commands_fold_length.
Qed.

(** X15.  A [modify_file] command whose file cannot be read, or whose
    ['find'] text is not in the file, writes nothing: the file system is
    left as it was and the one result line reports the failure. *)
Theorem modify_without_match_writes_nothing :
  forall (cmd : Cmd.t) (base_directory : string) (fs : FS),
    Cmd.type cmd = "modify_file" ->
    let full_path := Py.join base_directory (Cmd.path cmd) in
    (forall content,
        read_text fs full_path = inr content ->
        str_contains (Cmd.find cmd) content = false ->
        fst (execute_commands [cmd] base_directory fs)
        = (["Modification failed for " ++ Cmd.path cmd
            ++ ": 'find' string not found."]%string, fs))
    /\ (forall e,
           read_text fs full_path = inl e ->
           fst (execute_commands [cmd] base_directory fs)
           = (["Error executing command modify_file for " ++ Cmd.path cmd
               ++ ": " ++ str_exn e]%string, fs)).
Proof.
  intros cmd base_directory fs Htype full_path.
  unfold execute_commands, execute_command. cbn [fold_left].
  rewrite Htype. cbn [String.eqb]. simpl (_ =? _)%string.
  fold full_path. split.
  - intros content Hread Hfind. now rewrite Hread, Hfind.
  - intros e Hread. now rewrite Hread.
Qed.

Lemma prefix_split (a s : string) :
  String.prefix a s = true -> s = (a ++ str_drop (String.length a) s)%string.
Proof.
  revert s. induction a as [|x a IH]; intros s Hp; [reflexivity|].
  destruct s as [|y s]; [discriminate|].
  cbn [String.prefix] in Hp.
  destruct (ascii_dec x y) as [<-|]; [|discriminate].
  cbn [String.length str_drop append]. f_equal. now apply IH.
Qed.

Lemma prefix_empty (a : string) : String.prefix a "" = true -> a = "".
Proof. destruct a; [reflexivity|discriminate]. Qed.

(** [s.replace(sub, repl, 1)] replaces the occurrence of [sub] that starts
    first. *)
Lemma str_replace_first_spec (sub repl s : string) :
  str_contains sub s = true ->
  exists pre post,
    s = (pre ++ sub ++ post)%string
    /\ str_replace_first sub repl s = (pre ++ repl ++ post)%string
    /\ forall pre' post',
         s = (pre' ++ sub ++ post')%string ->
         String.length pre <= String.length pre'.
Proof.
  induction s as [|c s IH]; intros Hin.
  - cbn [str_contains] in Hin. rewrite orb_false_r in Hin.
    apply prefix_empty in Hin. subst sub.
    exists "", "". repeat split. simpl. intros; lia.
  - cbn [str_contains] in Hin. cbn [str_replace_first].
    destruct (String.prefix sub (String c s)) eqn:Hp.
    + exists "", (str_drop (String.length sub) (String c s)).
      split; [now apply prefix_split|]. split; [reflexivity|].
      simpl. intros; lia.
    + simpl in Hin. destruct (IH Hin) as [pre [post [Hs [Hr Hmin]]]].
      exists (String c pre), post. split; [simpl; now rewrite <- Hs|].
      split; [simpl; now rewrite Hr|].
      intros pre' post' Hs'. destruct pre' as [|c' pre'].
      * simpl in Hs'. rewrite Hs' in Hp.
        rewrite prefix_append in Hp. discriminate.
      * simpl in Hs'. injection Hs' as _ Hs'.
        specialize (Hmin _ _ Hs'). simpl. lia.
Qed.

(** X16.  A [modify_file] command on a file that holds the ['find'] text
    writes the file with the first occurrence of that text, and only that
    one, replaced; with an empty ['find'] it writes the replacement in
    front of the old content. *)
Theorem modify_replaces_first_occurrence :
  forall (cmd : Cmd.t) (base_directory content : string) (fs : FS),
    Cmd.type cmd = "modify_file" ->
    let full_path := Py.join base_directory (Cmd.path cmd) in
    read_text fs full_path = inr content ->
    str_contains (Cmd.find cmd) content = true ->
    exists pre post,
      content = (pre ++ Cmd.find cmd ++ post)%string
      /\ (forall pre' post',
             content = (pre' ++ Cmd.find cmd ++ post')%string ->
             String.length pre <= String.length pre')
      /\ (Cmd.find cmd = "" -> pre = "" /\ post = content)
      /\ snd (fst (execute_commands [cmd] base_directory fs))
         = fst (write_text fs full_path (pre ++ Cmd.replace cmd ++ post))
      /\ (snd (write_text fs full_path (pre ++ Cmd.replace cmd ++ post))
          = None ->
          fst (fst (execute_commands [cmd] base_directory fs))
          = ["Modified file: " ++ Cmd.path cmd]%string).
Proof.
  intros cmd base_directory content fs Htype full_path Hread Hin.
  destruct (str_replace_first_spec (Cmd.find cmd) (Cmd.replace cmd) content
                                   Hin) as [pre [post [Hs [Hr Hmin]]]].
  exists pre, post. split; [exact Hs|]. split; [exact Hmin|].
  split.
  { intros Hempty. rewrite Hempty in *.
    specialize (Hmin "" content eq_refl). simpl in Hmin.
    destruct pre; [|simpl in Hmin; lia]. split; [reflexivity|].
    simpl in Hs. now symmetry. }
  unfold execute_commands, execute_command. cbn [fold_left].
  rewrite Htype. simpl (_ =? _)%string. cbv iota. fold full_path.
  rewrite Hread, Hin. cbn [negb]. rewrite Hr.
  destruct (write_text fs full_path (pre ++ Cmd.replace cmd ++ post))
    as [fs' [e|]]; split; try reflexivity.
  intros Hnone. discriminate.
Qed.

Lemma execute_command_absolute base1 base2 (st : exec_state FS) cmd :
  Py.startswith (Cmd.path cmd) "/" = true ->
  execute_command base1 st cmd = execute_command base2 st cmd.
Proof.
  intros Habs. unfold execute_command, Py.join. now rewrite Habs.
Qed.

(** X17.  [execute_commands] does not confine a command to
    [base_directory]: when the path of every command is absolute, the
    results, the file system left and the log are the same for every
    base directory. *)
Theorem absolute_paths_ignore_base_directory :
  forall (commands : list Cmd.t) (base1 base2 : string) (fs : FS),
    (forall cmd, In cmd commands ->
                 Py.startswith (Cmd.path cmd) "/" = true) ->
    execute_commands commands base1 fs = execute_commands commands base2 fs.
Proof.
  intros commands base1 base2 fs Habs. unfold execute_commands.
  generalize (([], fs, []) : exec_state FS) as st.
  induction commands as [|cmd commands IH]; intros st; [reflexivity|].
  cbn [fold_left].
  rewrite (execute_command_absolute base1 base2 st cmd)
    by (apply Habs; now left).
  apply IH. intros c Hc. apply Habs. now right.
Qed.

End ExecuteCommands.

Lemma modify_without_match_writes_nothing_witness :
  Cmd.type (Cmd.mk "modify_file" "a.py" "" "helper" "worker") = "modify_file"
  /\ read_text [("/proj/a.py", "x = 1")] (Py.join "/proj" "a.py")
     = inr "x = 1"
  /\ str_contains "helper" "x = 1" = false
  /\ fst (execute_commands
            [Cmd.mk "modify_file" "a.py" "" "helper" "worker"]
            "/proj" [("/proj/a.py", "x = 1")])
     = (["Modification failed for a.py: 'find' string not found."],
        [("/proj/a.py", "x = 1")]).
Proof.
  assert (Hread : read_text [("/proj/a.py", "x = 1")]
                            (Py.join "/proj" "a.py") = inr "x = 1")
    by reflexivity.
  assert (Hin : str_contains "helper" "x = 1" = false) by reflexivity.
  split; [reflexivity|]. split; [exact Hread|]. split; [exact Hin|].
  exact (proj1 (modify_without_match_writes_nothing
                  (Cmd.mk "modify_file" "a.py" "" "helper" "worker")
                  "/proj" [("/proj/a.py", "x = 1")] eq_refl)
               "x = 1" Hread Hin).
Defined.

Lemma modify_replaces_first_occurrence_witness :
  read_text [("/proj/a.py", "f(); f()")] (Py.join "/proj" "a.py")
  = inr "f(); f()"
  /\ str_contains "f" "f(); f()" = true
  /\ exists pre post,
       "f(); f()" = (pre ++ "f" ++ post)%string
       /\ snd (fst (execute_commands
                      [Cmd.mk "modify_file" "a.py" "" "f" "g"]
                      "/proj" [("/proj/a.py", "f(); f()")]))
          = [("/proj/a.py", (pre ++ "g" ++ post)%string)]
       /\ String.length pre <= 0.
Proof.
  assert (Hread : read_text [("/proj/a.py", "f(); f()")]
                            (Py.join "/proj" "a.py") = inr "f(); f()")
    by reflexivity.
  assert (Hin : str_contains "f" "f(); f()" = true) by reflexivity.
  split; [exact Hread|]. split; [exact Hin|].
  destruct (modify_replaces_first_occurrence
              (Cmd.mk "modify_file" "a.py" "" "f" "g") "/proj" "f(); f()"
              [("/proj/a.py", "f(); f()")] eq_refl Hread Hin)
    as [pre [post [Hs [Hmin [_ [Hfs _]]]]]].
  exists pre, post. split; [exact Hs|]. split.
  - rewrite Hfs. reflexivity.
  - exact (Hmin "" "(); f()" eq_refl).
Defined.

Lemma absolute_paths_ignore_base_directory_witness :
  (forall cmd,
      In cmd [Cmd.mk "create_file" "/etc/motd" "hello" "" ""] ->
      Py.startswith (Cmd.path cmd) "/" = true)
  /\ snd (fst (execute_commands
                 [Cmd.mk "create_file" "/etc/motd" "hello" "" ""]
                 "/proj" ([] : text_files)))
     = [("/etc/motd", "hello")].
Proof.
  assert (Habs : forall cmd,
             In cmd [Cmd.mk "create_file" "/etc/motd" "hello" "" ""] ->
             Py.startswith (Cmd.path cmd) "/" = true)
    by (intros cmd [<-|[]]; reflexivity).
  split; [exact Habs|].
  rewrite (absolute_paths_ignore_base_directory
             [Cmd.mk "create_file" "/etc/motd" "hello" "" ""]
             "/proj" "" ([] : text_files) Habs).
  reflexivity.
Defined.

(** ** The workspace configuration *)

Lemma sdict_get_set_same {V : Type} (d : list (string * V)) k v :
  Py.dict_get String.eqb (Py.dict_set String.eqb d k v) k = Some v.
Proof.
  induction d as [|[k' v'] d IH]; simpl.
  - now rewrite String.eqb_refl.
  - destruct (String.eqb k' k) eqn:E; simpl; rewrite E; auto.
Qed.

Lemma sdict_get_set_other {V : Type} (d : list (string * V)) k v k0 :
  k0 <> k ->
  Py.dict_get String.eqb (Py.dict_set String.eqb d k v) k0
  = Py.dict_get String.eqb d k0.
Proof.
  intros Hne. induction d as [|[k' v'] d IH]; simpl.
  - destruct (String.eqb_spec k k0); [congruence|reflexivity].
  - destruct (String.eqb_spec k' k) as [->|Hk]; simpl.
    + destruct (String.eqb_spec k k0); [congruence|reflexivity].
    + destruct (String.eqb k' k0); [reflexivity|exact IH].
Qed.

Lemma find_first {A : Type} (p : A -> bool) (l : list A) (x : A) :
  find p l = Some x ->
  exists l1 l2, l = l1 ++ x :: l2 /\ p x = true
                /\ forall y, In y l1 -> p y = false.
Proof.
  induction l as [|a l IH]; [discriminate|]. simpl.
  destruct (p a) eqn:Hp.
  - intros H; injection H as <-. exists [], l. repeat split; auto.
    intros y [].
  - intros H. destruct (IH H) as [l1 [l2 [-> [Hx Hl1]]]].
    exists (a :: l1), l2. repeat split; auto.
    intros y [<-|Hy]; auto.
Qed.

Lemma find_workspace_id_spec (config : list (string * json)) (id : string) :
  find_workspace_id config = Some id ->
  exists i,
    1 <= i <= 99 /\ id = workspace_id_of i
    /\ Py.dict_get String.eqb config id = None
    /\ forall j, 1 <= j < i ->
                 Py.dict_get String.eqb config (workspace_id_of j) <> None.
Proof.
  unfold find_workspace_id. intros Hfind.
  destruct (find_first _ _ _ Hfind) as [l1 [l2 [Hl [Hfree Hbusy]]]].
  assert (Hlen : List.length l1 < 99).
  { apply (f_equal (@List.length _)) in Hl.
    rewrite length_map, length_seq, length_app in Hl. simpl in Hl. lia. }
  assert (Hnth : forall k, k < 99 ->
             nth k (map workspace_id_of (seq 1 99)) "" = workspace_id_of (S k)).
  { intros k Hk.
    rewrite (nth_indep _ "" (workspace_id_of 0))
      by (rewrite length_map, length_seq; lia).
    rewrite map_nth, seq_nth by lia. reflexivity. }
  exists (S (List.length l1)). split; [lia|]. split.
  - rewrite <- Hnth by lia. rewrite Hl, app_nth2 by lia.
    now rewrite Nat.sub_diag.
  - split.
    + unfold Py.dict_mem in Hfree.
      destruct (Py.dict_get String.eqb config id); [discriminate|reflexivity].
    + intros j Hj Hnone.
      assert (Hin : In (workspace_id_of j) l1).
      { destruct j as [|k]; [lia|].
        rewrite <- (Hnth k) by lia. rewrite Hl, app_nth1 by lia.
        apply nth_In. lia. }
      specialize (Hbusy _ Hin). unfold Py.dict_mem in Hbusy.
      rewrite Hnone in Hbusy. discriminate.
Qed.

Lemma workspace_id_not_current (i : nat) :
  workspace_id_of i <> "current_workspace".
Proof. unfold workspace_id_of. simpl. discriminate. Qed.

Lemma save_workspace_config_success
      (workspace_name directory_path : string) (structure_ok : bool)
      (files_ok : string -> bool) (write_ok : bool)
      (cf : config_file) (after : option config_file) :
  save_workspace_config workspace_name directory_path structure_ok
                        files_ok write_ok cf = (true, after) ->
  exists workspace_id,
    find_workspace_id (config_members cf) = Some workspace_id
    /\ after
       = Some (Config
           (Py.dict_set String.eqb
              (Py.dict_set String.eqb (config_members cf) workspace_id
                 (workspace_entry workspace_id workspace_name directory_path))
              "current_workspace" (JStr workspace_id))).
Proof.
  unfold save_workspace_config.
  destruct structure_ok; simpl; [|discriminate].
  assert (Hgen : forall config,
             match find_workspace_id config with
             | Some workspace_id =>
                 if negb (files_ok workspace_id) then (false, Some cf)
                 else
                   if write_ok
                   then (true,
                         Some (Config
                           (Py.dict_set String.eqb
                              (Py.dict_set String.eqb config workspace_id
                                 (workspace_entry workspace_id workspace_name
                                                  directory_path))
                              "current_workspace" (JStr workspace_id))))
                   else (false, None)
             | None => (false, Some cf)
             end = (true, after) ->
             exists workspace_id,
               find_workspace_id config = Some workspace_id
               /\ after
                  = Some (Config
                      (Py.dict_set String.eqb
                         (Py.dict_set String.eqb config workspace_id
                            (workspace_entry workspace_id workspace_name
                                             directory_path))
                         "current_workspace" (JStr workspace_id)))).
  { intros config.
    destruct (find_workspace_id config) as [workspace_id|]; [|discriminate].
    destruct (negb (files_ok workspace_id)); [discriminate|].
    destruct write_ok; [|discriminate].
    intros Heq; injection Heq as <-.
    exists workspace_id. split; reflexivity. }
  destruct cf as [|msg|config]; [apply Hgen|discriminate|apply Hgen].
Qed.

(** X18.  When [save_workspace_config] returns [True], the config file
    holds a new workspace under an id that the old config did not have,
    with the name and the directory given, [get_current_workspace] returns
    that id, and every other entry of the old config is as it was. *)
Theorem save_workspace_config_adds_workspace :
  forall (workspace_name directory_path : string) (structure_ok : bool)
         (files_ok : string -> bool) (write_ok : bool)
         (cf : config_file) (after : option config_file),
    save_workspace_config workspace_name directory_path structure_ok
                          files_ok write_ok cf = (true, after) ->
    exists workspace_id config',
      after = Some (Config config')
      /\ Py.dict_get String.eqb (config_members cf) workspace_id = None
      /\ Py.dict_get String.eqb config' workspace_id
         = Some (workspace_entry workspace_id workspace_name directory_path)
      /\ get_current_workspace (Config config') = JStr workspace_id
      /\ forall key,
           key <> workspace_id -> key <> "current_workspace" ->
           Py.dict_get String.eqb config' key
           = Py.dict_get String.eqb (config_members cf) key.
Proof.
  intros name dir structure_ok files_ok write_ok cf after Hsave.
  destruct (save_workspace_config_success _ _ _ _ _ _ _ Hsave)
    as [workspace_id [Hfind ->]].
  destruct (find_workspace_id_spec _ _ Hfind) as [i [_ [Hid [Hfree _]]]].
  assert (Hne : workspace_id <> "current_workspace")
    by (rewrite Hid; apply workspace_id_not_current).
  eexists. eexists. split; [reflexivity|]. split; [exact Hfree|].
  split; [|split].
  - rewrite sdict_get_set_other by exact Hne.
    apply sdict_get_set_same.
  - unfold get_current_workspace. now rewrite sdict_get_set_same.
  - intros key Hk1 Hk2. now rewrite !sdict_get_set_other.
Qed.

Lemma save_workspace_config_adds_workspace_witness :
  exists config',
    save_workspace_config "three" "/three" true (fun _ => true) true
                          two_workspaces = (true, Some (Config config'))
    /\ get_current_workspace (Config config') = JStr "workspace_3"
    /\ Py.dict_get String.eqb config' "workspace_2"
       = Some (workspace_entry "workspace_2" "two" "/two").
Proof.
  destruct (save_workspace_config "three" "/three" true (fun _ => true) true
                                  two_workspaces) as [ok after] eqn:E.
  assert (Hok : ok = true) by (vm_compute in E; congruence).
  subst ok.
  destruct (save_workspace_config_adds_workspace _ _ _ _ _ _ _ E)
    as [workspace_id [config' [-> [Hfree [Hnew [Hcur Hold]]]]]].
  assert (Hid : workspace_id = "workspace_3").
  { vm_compute in E. injection E as E.
    rewrite <- E in Hcur. vm_compute in Hcur. now injection Hcur. }
  subst workspace_id.
  exists config'. split; [reflexivity|]. split; [exact Hcur|].
  rewrite Hold by discriminate. reflexivity.
Defined.

(** X19.  The id that [save_workspace_config] gives a new workspace is
    [workspace_i] for the least [i] from 1 to 99 that is not a key of the
    old config: a lower id that is free is used before a higher one. *)
Theorem workspace_id_is_least_free :
  forall (workspace_name directory_path : string) (structure_ok : bool)
         (files_ok : string -> bool) (write_ok : bool)
         (cf after : config_file),
    save_workspace_config workspace_name directory_path structure_ok
                          files_ok write_ok cf = (true, Some after) ->
    exists i,
      1 <= i <= 99
      /\ get_current_workspace after = JStr (workspace_id_of i)
      /\ Py.dict_get String.eqb (config_members cf) (workspace_id_of i) = None
      /\ forall j, 1 <= j < i ->
           Py.dict_get String.eqb (config_members cf) (workspace_id_of j)
           <> None.
Proof.
  intros name dir structure_ok files_ok write_ok cf after Hsave.
  destruct (save_workspace_config_success _ _ _ _ _ _ _ Hsave)
    as [workspace_id [Hfind Hafter]].
  injection Hafter as ->.
  destruct (find_workspace_id_spec _ _ Hfind) as [i [Hi [-> [Hfree Hbusy]]]].
  exists i. split; [exact Hi|]. split; [|split; assumption].
  unfold get_current_workspace. now rewrite sdict_get_set_same.
Qed.

Lemma workspace_id_is_least_free_witness :
  exists after i,
    save_workspace_config "two again" "/two" true (fun _ => true) true
                          gap_workspaces = (true, Some after)
    /\ get_current_workspace after = JStr (workspace_id_of i)
    /\ i = 2.
Proof.
  eexists.
  assert (Hsave : save_workspace_config "two again" "/two" true
                    (fun _ => true) true gap_workspaces = (true, Some _))
    by reflexivity.
  destruct (workspace_id_is_least_free _ _ _ _ _ _ _ Hsave)
    as [i [Hi [Hcur [Hfree Hbusy]]]].
  exists i. split; [exact Hsave|]. split; [exact Hcur|].
  destruct (Nat.lt_trichotomy i 2) as [Hlt|[Heq|Hgt]]; [|exact Heq|].
  - assert (i = 1) by lia. subst i. vm_compute in Hfree. discriminate.
  - exfalso. apply (Hbusy 2); [lia|reflexivity].
Defined.

Lemma dict_mem_range (config : list (string * json)) :
  forallb (fun i => Py.dict_mem String.eqb config (workspace_id_of i))
          (seq 1 99) = true ->
  forall i, 1 <= i <= 99 ->
    Py.dict_get String.eqb config (workspace_id_of i) <> None.
Proof.
  intros Hall i Hi Hnone.
  rewrite forallb_forall in Hall.
  assert (Hin : In i (seq 1 99)) by (apply in_seq; lia).
  specialize (Hall i Hin). unfold Py.dict_mem in Hall.
  rewrite Hnone in Hall. discriminate.
Qed.

(** X20.  When the config holds [workspace_1] to [workspace_99],
    [save_workspace_config] returns [False] and leaves the config file as
    it was, whatever else succeeds: there is no hundredth workspace. *)
Theorem no_hundredth_workspace :
  forall (config : list (string * json))
         (workspace_name directory_path : string) (structure_ok : bool)
         (files_ok : string -> bool) (write_ok : bool),
    (forall i, 1 <= i <= 99 ->
       Py.dict_get String.eqb config (workspace_id_of i) <> None) ->
    save_workspace_config workspace_name directory_path structure_ok
                          files_ok write_ok (Config config)
    = (false, Some (Config config)).
Proof.
  intros config name dir structure_ok files_ok write_ok Hfull.
  unfold save_workspace_config.
  destruct structure_ok; simpl; [|reflexivity].
  destruct (find_workspace_id config) as [id|] eqn:Hfind; [|reflexivity].
  destruct (find_workspace_id_spec _ _ Hfind) as [i [Hi [-> [Hfree _]]]].
  exfalso. exact (Hfull i Hi Hfree).
Qed.

Lemma no_hundredth_workspace_witness :
  save_workspace_config "one more" "/more" true (fun _ => true) true
                        (Config full_config)
  = (false, Some (Config full_config)).
Proof.
  apply no_hundredth_workspace.
  apply dict_mem_range. vm_compute. reflexivity.
Defined.
